(** * Stoic texts parsers: a shallow embedding and its properties

    The repository holds four stand-alone Python scripts
    ([parser_letters.py], [parser_discourses.py], [parser_meditations.py],
    [parser_shortness.py]).  Each turns the line stream of one plain-text
    transcription into a list of section records.  This development embeds
    the line classifiers, the segmentation loops, the text cleaners and the
    section builders of the four scripts, and proves properties of them.

    Conventions.
    - A Python [str] is a list of Unicode code points ([char := N]).
    - A compiled pattern is a term of type [regex]; [run] enumerates the
      matches of a pattern in the priority order of Python's backtracking
      matcher, so that the head of the enumeration is the match [re.match]
      returns.
    - [None] is [None]; a dict with a fixed key set is a record.
    - [sys.exit] and uncaught exceptions are explicit outcomes. *)

From Stdlib Require Import Ascii String.
From Stdlib Require Import List ZArith NArith Bool Lia Sorted.
From Stdlib Require Decimal.
Import ListNotations.

Set Implicit Arguments.

(* ======================================================================= *)
(** * Python strings *)
(* ======================================================================= *)

Module Py.

Definition char := N.
Bind Scope N_scope with char.
Definition str := list char.

(** Literals: an ASCII Rocq string read as a sequence of code points. *)
Definition lit (s : string) : str := map N_of_ascii (list_ascii_of_string s).

Definition NL : char := 10%N.
Definition CR : char := 13%N.
Definition SP : char := 32%N.
(** U+2191 UPWARDS ARROW, the footnote sentinel of the Wikisource files. *)
Definition UP_ARROW : char := 8593%N.
(** U+2018 and U+2019, the single quotation marks allowed in letter titles. *)
(** U+2014 EM DASH, used in log messages. *)
Definition EM_DASH : char := 8212%N.
Definition LSQUO : char := 8216%N.
Definition RSQUO : char := 8217%N.

Definition eqc (a b : char) : bool := N.eqb a b.

Fixpoint eqs (a b : str) : bool :=
  match a, b with
  | [], [] => true
  | x :: a', y :: b' => eqc x y && eqs a' b'
  | _, _ => false
  end.

(** [str.isspace] on one code point, which is also the class [\s] of a
    [str] pattern and the set [str.strip()] and [str.split()] work with. *)
Definition isspace (c : char) : bool :=
  ((9 <=? c) && (c <=? 13) || (28 <=? c) && (c <=? 32) || (c =? 133)
   || (c =? 160) || (c =? 5760) || (8192 <=? c) && (c <=? 8202)
   || (c =? 8232) || (c =? 8233) || (c =? 8239) || (c =? 8287)
   || (c =? 12288))%N.

(** Code points of the digit zero of every decimal system of Unicode 14
    (general category Nd); the nine code points after each are its digits
    one to nine.  This is the class [\d] of a [str] pattern, and [int]
    reads these digits with their decimal value. *)
Definition decimal_zeros : list N :=
  [48; 1632; 1776; 1984; 2406; 2534; 2662; 2790; 2918; 3046; 3174; 3302;
   3430; 3558; 3664; 3792; 3872; 4160; 4240; 6112; 6160; 6470; 6608; 6784;
   6800; 6992; 7088; 7232; 7248; 42528; 43216; 43264; 43472; 43504; 43600;
   44016; 65296; 66720; 68912; 69734; 69872; 69942; 70096; 70384; 70736;
   70864; 71248; 71360; 71472; 71904; 72016; 72784; 73040; 73120; 92768;
   92864; 93008; 120782; 120792; 120802; 120812; 120822; 123200; 123632;
   125264; 130032]%N.

Fixpoint decimal_in (zs : list N) (c : char) : option Z :=
  match zs with
  | [] => None
  | z :: zs' =>
      if ((z <=? c) && (c <=? z + 9))%N then Some (Z.of_N (c - z))
      else decimal_in zs' c
  end.

(** [unicodedata.decimal(c)], [None] when [c] is not a decimal digit. *)
Definition decimal (c : char) : option Z := decimal_in decimal_zeros c.

Definition isdecimal (c : char) : bool :=
  match decimal c with Some _ => true | None => false end.

(** [int(s)] for [s] a non-empty run of decimal digits, the only way the
    scripts call it (on a group captured by [\d+]).  Python's guard against
    converting more than 4300 digits is a run-time limit outside the
    model. *)
Definition int_of_digits (s : str) : Z :=
  fold_left (fun acc c =>
               (10 * acc + match decimal c with Some d => d | None => 0 end)%Z)
            s 0%Z.

(** ** Stripping *)

Fixpoint dropwhile (p : char -> bool) (s : str) : str :=
  match s with
  | c :: s' => if p c then dropwhile p s' else s
  | [] => []
  end.

Definition lstrip (s : str) : str := dropwhile isspace s.
Definition rstrip_by (p : char -> bool) (s : str) : str :=
  rev (dropwhile p (rev s)).
Definition rstrip (s : str) : str := rstrip_by isspace s.
(** [s.strip()] *)
Definition strip (s : str) : str := rstrip (lstrip s).
(** [s.rstrip('.')] and the like: strips the characters of [cs]. *)
Definition rstrip_chars (cs : str) (s : str) : str :=
  rstrip_by (fun c => existsb (eqc c) cs) s.

(** ** Prefixes, search, replacement *)

Fixpoint startswith (s pre : str) : bool :=
  match pre, s with
  | [], _ => true
  | p :: pre', c :: s' => eqc p c && startswith s' pre'
  | _ :: _, [] => false
  end.

(** [sub in s] *)
Fixpoint contains (sub s : str) : bool :=
  startswith s sub ||
  match s with
  | [] => false
  | _ :: s' => contains sub s'
  end.

(** [s.replace(old, new)] for a non-empty [old]: the occurrences are taken
    leftmost first and do not overlap.  [skip] counts the characters of an
    occurrence already replaced that are still to be passed over. *)
Fixpoint replace_from (old new : str) (skip : nat) (s : str) : str :=
  match s with
  | [] => []
  | c :: s' =>
      match skip with
      | S k => replace_from old new k s'
      | O =>
          if startswith s old
          then new ++ replace_from old new (pred (length old)) s'
          else c :: replace_from old new 0 s'
      end
  end.

Definition replace (old new s : str) : str := replace_from old new 0 s.

(** ** Splitting and joining *)

(** [s.split(sep)] for a one-character separator: never an empty list. *)
Fixpoint split_on (sep : char) (s : str) : list str :=
  match s with
  | [] => [[]]
  | c :: s' =>
      if eqc c sep then [] :: split_on sep s'
      else match split_on sep s' with
           | w :: ws => (c :: w) :: ws
           | [] => [[c]]
           end
  end.

(** [sep.join(parts)] *)
Fixpoint join (sep : str) (parts : list str) : str :=
  match parts with
  | [] => []
  | [p] => p
  | p :: ps => p ++ sep ++ join sep ps
  end.

(** [s.split()]: the maximal runs of non-whitespace characters.  [cur] is
    the word being read, in reverse. *)
Fixpoint split_ws_from (cur : str) (s : str) : list str :=
  match s with
  | [] => match cur with [] => [] | _ => [rev cur] end
  | c :: s' =>
      if isspace c
      then match cur with
           | [] => split_ws_from [] s'
           | _ => rev cur :: split_ws_from [] s'
           end
      else split_ws_from (c :: cur) s'
  end.

Definition split_ws (s : str) : list str := split_ws_from [] s.

(** [len(text.split())] *)
Definition count_words (s : str) : Z := Z.of_nat (length (split_ws s)).

(** Truth value of a string: [if text], [if not text]. *)
Definition truthy (s : str) : bool :=
  match s with [] => false | _ => true end.

(** ** Formatting integers *)

Fixpoint uint_digits (u : Decimal.uint) : str :=
  match u with
  | Decimal.Nil => []
  | Decimal.D0 u' => 48%N :: uint_digits u'
  | Decimal.D1 u' => 49%N :: uint_digits u'
  | Decimal.D2 u' => 50%N :: uint_digits u'
  | Decimal.D3 u' => 51%N :: uint_digits u'
  | Decimal.D4 u' => 52%N :: uint_digits u'
  | Decimal.D5 u' => 53%N :: uint_digits u'
  | Decimal.D6 u' => 54%N :: uint_digits u'
  | Decimal.D7 u' => 55%N :: uint_digits u'
  | Decimal.D8 u' => 56%N :: uint_digits u'
  | Decimal.D9 u' => 57%N :: uint_digits u'
  end.

(** [format(z, '0{width}d')]; [width = 0] is plain [str(z)]. *)
Definition format_d (width : nat) (z : Z) : str :=
  let ds := uint_digits (N.to_uint (Z.abs_N z)) in
  let sign := if (z <? 0)%Z then lit "-" else [] in
  sign ++ repeat 48%N (width - length sign - length ds) ++ ds.

Definition str_of_int (z : Z) : str := format_d 0 z.

End Py.

Import Py.

(* ======================================================================= *)
(** * Patterns of the [re] module *)
(* ======================================================================= *)

(** The scripts use a small fragment of [re]: literals, character classes,
    repetition of one class ([+], [*], [{n,}], greedy or lazy), optional
    sub-patterns, alternation, capture groups and the anchors [^] and [$].
    No flag is ever passed, so [.] excludes the newline and [$] holds at the
    end of the subject or just before its final newline. *)

Module Re.

Inductive regex : Type :=
| Bol                                             (* ^ *)
| Eol                                             (* $ *)
| Chr (p : char -> bool)                          (* one character of a class *)
| Rep (greedy : bool) (min : nat) (p : char -> bool)   (* class{min,} *)
| Cat (r1 r2 : regex)
| Alt (r1 r2 : regex)                             (* r1|r2 *)
| Opt (r : regex)                                 (* r? *)
| Grp (n : nat) (r : regex)                       (* capture group n *)
| Eps.

(** ** Classes *)

Definition one (c : char) : char -> bool := fun x => eqc x c.
Definition among (cs : str) : char -> bool := fun x => existsb (eqc x) cs.
Definition range (lo hi : char) : char -> bool :=
  fun x => ((lo <=? x) && (x <=? hi))%N.
Definition either (p q : char -> bool) : char -> bool := fun x => p x || q x.
(** [.] *)
Definition dot : char -> bool := fun x => negb (eqc x NL).
(** [\s], [\d], [[^\S\n]] *)
Definition space : char -> bool := isspace.
Definition digit : char -> bool := isdecimal.
Definition hspace : char -> bool := fun x => isspace x && negb (eqc x NL).
Definition upper_AZ : char -> bool := range 65 90.
(** [[a-z0-9\-]] *)
Definition note_id : char -> bool :=
  either (range 97 122) (either (range 48 57) (one 45)).

(** ** Building patterns *)

Fixpoint Lit (s : str) : regex :=
  match s with
  | [] => Eps
  | [c] => Chr (one c)
  | c :: s' => Cat (Chr (one c)) (Lit s')
  end.

Fixpoint Seq (rs : list regex) : regex :=
  match rs with
  | [] => Eps
  | [r] => r
  | r :: rs' => Cat r (Seq rs')
  end.

Definition Plus (p : char -> bool) : regex := Rep true 1 p.
Definition Star (p : char -> bool) : regex := Rep true 0 p.
Definition PlusLazy (p : char -> bool) : regex := Rep false 1 p.
Definition AtLeast (n : nat) (p : char -> bool) : regex := Rep true n p.

(** ** Matching *)

(** The remainders after a repetition of a class, in the order the matcher
    tries them: longest first when greedy, shortest first when lazy. *)
Fixpoint rep (greedy : bool) (min : nat) (p : char -> bool) (s : str)
  : list str :=
  let stop := match min with O => [s] | S _ => [] end in
  match s with
  | [] => stop
  | c :: s' =>
      let more := if p c then rep greedy (pred min) p s' else [] in
      if greedy then more ++ stop else stop ++ more
  end.

(** Captured groups, most recent binding first. *)
Definition caps := list (nat * str).

Fixpoint group (cs : caps) (n : nat) : option str :=
  match cs with
  | [] => None
  | (k, v) :: cs' => if Nat.eqb k n then Some v else group cs' n
  end.

(** [run total r s cs]: every way [r] matches a prefix of [s], as the
    remainder of [s] with the groups bound, in the matcher's order.  [total]
    is the length of the whole subject, so that [^] can tell its start. *)
Fixpoint run (total : nat) (r : regex) (s : str) (cs : caps)
  : list (str * caps) :=
  match r with
  | Bol => if Nat.eqb (length s) total then [(s, cs)] else []
  | Eol => match s with
           | [] => [(s, cs)]
           | [c] => if eqc c NL then [(s, cs)] else []
           | _ => []
           end
  | Chr p => match s with
             | c :: s' => if p c then [(s', cs)] else []
             | [] => []
             end
  | Rep g min p => map (fun s' => (s', cs)) (rep g min p s)
  | Cat r1 r2 =>
      flat_map (fun m => run total r2 (fst m) (snd m)) (run total r1 s cs)
  | Alt r1 r2 => run total r1 s cs ++ run total r2 s cs
  | Opt r1 => run total r1 s cs ++ [(s, cs)]
  | Grp n r1 =>
      map (fun m => (fst m,
                     (n, firstn (length s - length (fst m)) s) :: snd m))
          (run total r1 s cs)
  | Eps => [(s, cs)]
  end.

(** ** Static facts about a pattern *)

(** The pattern never consumes a character. *)
Fixpoint zero_width (r : regex) : bool :=
  match r with
  | Bol | Eol | Eps => true
  | Chr _ | Rep _ _ _ => false
  | Cat r1 r2 | Alt r1 r2 => zero_width r1 && zero_width r2
  | Opt r1 | Grp _ r1 => zero_width r1
  end.

(** A necessary condition on the first character [c] of a non-empty
    subject for the pattern to match at its start. *)
Fixpoint accepts (r : regex) (c : char) : bool :=
  match r with
  | Bol | Eps => true
  | Eol => eqc c NL
  | Chr p => p c
  | Rep _ min p => match min with O => true | S _ => p c end
  | Cat r1 r2 => accepts r1 c && (if zero_width r1 then accepts r2 c else true)
  | Alt r1 r2 => accepts r1 c || accepts r2 c
  | Opt _ => true
  | Grp _ r1 => accepts r1 c
  end.

(** The words a pattern can consume, anchors apart. *)
Fixpoint lang (r : regex) (w : str) : Prop :=
  match r with
  | Bol | Eol | Eps => w = []
  | Chr p => exists c, w = [c] /\ p c = true
  | Rep _ min p => forallb p w = true /\ (min <= length w)%nat
  | Cat r1 r2 => exists w1 w2, w = w1 ++ w2 /\ lang r1 w1 /\ lang r2 w2
  | Alt r1 r2 => lang r1 w \/ lang r2 w
  | Opt r1 => w = [] \/ lang r1 w
  | Grp _ r1 => lang r1 w
  end.

(** The pattern ends in [$]. *)
Fixpoint anchored_end (r : regex) : bool :=
  match r with
  | Eol => true
  | Cat _ r2 => anchored_end r2
  | _ => false
  end.

(** The pattern has no [^]: its matches do not depend on the position. *)
Fixpoint bol_free (r : regex) : bool :=
  match r with
  | Bol => false
  | Eol | Eps | Chr _ | Rep _ _ _ => true
  | Cat r1 r2 | Alt r1 r2 => bol_free r1 && bol_free r2
  | Opt r1 | Grp _ r1 => bol_free r1
  end.

(** [pattern.match(s)]: the first match at the start of [s], as the
    unmatched remainder and the groups. *)
Definition re_match (r : regex) (s : str) : option (str * caps) :=
  hd_error (run (length s) r s []).

Definition matches (r : regex) (s : str) : bool :=
  match re_match r s with Some _ => true | None => false end.

(** [pattern.sub(repl, s)] for a literal replacement: matches are looked
    for left to right and do not overlap; an empty match is replaced too and
    the scan then moves one character on.  [skip] counts the characters of
    the last match still to be passed over. *)
Fixpoint sub_from (total : nat) (r : regex) (repl : str) (skip : nat)
  (s : str) : str :=
  match s with
  | [] =>
      match skip, run total r [] [] with
      | O, _ :: _ => repl
      | _, _ => []
      end
  | c :: s' =>
      match skip with
      | S k => sub_from total r repl k s'
      | O =>
          match run total r s [] with
          | (rest, _) :: _ =>
              match length s - length rest with
              | O => repl ++ c :: sub_from total r repl 0 s'
              | S k => repl ++ sub_from total r repl k s'
              end
          | [] => c :: sub_from total r repl 0 s'
          end
      end
  end.

Definition re_sub (r : regex) (repl : str) (s : str) : str :=
  sub_from (length s) r repl 0 s.

End Re.

Import Re.

(* ======================================================================= *)
(** * Roman numerals (parser_letters.py and parser_discourses.py) *)
(* ======================================================================= *)

(** Both scripts carry the same table and the same two functions. *)

Module Roman.

Definition _ROMAN_VALUES : list (str * Z) :=
  [(lit "M", 1000); (lit "CM", 900); (lit "D", 500); (lit "CD", 400);
   (lit "C", 100); (lit "XC", 90); (lit "L", 50); (lit "XL", 40);
   (lit "X", 10); (lit "IX", 9); (lit "V", 5); (lit "IV", 4);
   (lit "I", 1)]%Z.

(** The loop [while s[i:i + len(numeral)] == numeral] of [roman_to_int];
    the state is [(result, i)]. *)
Fixpoint read_while (fuel : nat) (s numeral : str) (value : Z)
  (st : Z * nat) : Z * nat :=
  match fuel with
  | O => st
  | S fuel' =>
      let '(result, i) := st in
      if eqs (firstn (length numeral) (skipn i s)) numeral
      then read_while fuel' s numeral value
             ((result + value)%Z, i + length numeral)
      else st
  end.

(** Every turn of the loop moves [i] forward inside [s], so [length s]
    turns are enough. *)
Definition roman_to_int (s : str) : Z :=
  fst (fold_left (fun st nv => read_while (length s) s (fst nv) (snd nv) st)
                 _ROMAN_VALUES (0%Z, 0)).

(** The loop [while n >= value] of [int_to_roman]; the state is
    [(n, result)]. *)
Fixpoint emit_while (fuel : nat) (numeral : str) (value : Z)
  (st : Z * list str) : Z * list str :=
  match fuel with
  | O => st
  | S fuel' =>
      let '(n, result) := st in
      if (n >=? value)%Z
      then emit_while fuel' numeral value ((n - value)%Z, result ++ [numeral])
      else st
  end.

(** The values of the table are positive, so the loop turns at most [n]
    times. *)
Definition int_to_roman (n : Z) : str :=
  concat (snd (fold_left
                 (fun st nv => emit_while (Z.to_nat n) (fst nv) (snd nv) st)
                 _ROMAN_VALUES (n, []))).

(** The fixed numeral alphabet. *)
Definition alphabet : str := lit "IVXLCDM".

(** The check of one number: its numeral reads back as the number and is
    written in the alphabet. *)
Definition roundtrip_ok (n : Z) : bool :=
  (roman_to_int (int_to_roman n) =? n)%Z
  && forallb (fun c => existsb (eqc c) alphabet) (int_to_roman n).

End Roman.

(* ======================================================================= *)
(** * Outcome of a run *)
(* ======================================================================= *)

(** What one run of a script's [main] ends in.  The [log.info] and
    [log.warning] calls, the validation report and the random sample only
    print; of the printing, the model keeps the message logged by
    [log.error] right before [sys.exit]. *)
Inductive outcome (doc : Type) : Type :=
| Exited (status : Z) (error_logged : str)  (* log.error(..); sys.exit(..) *)
| Raised (exn : str)        (* uncaught exception, nothing written *)
| DryRun                    (* --dry-run: summary printed, nothing written *)
| Written (d : doc).        (* the JSON document written to the file *)

Arguments Exited {doc} status error_logged.
Arguments Raised {doc} exn.
Arguments DryRun {doc}.
Arguments Written {doc} d.

(** A step that may end the process: [inr] carries the status and the
    error logged. *)
Definition fallible (A : Type) : Type := (A + (Z * str))%type.

(** [build_metadata()]; [parsed_date] is [date.today().isoformat()]. *)
Record metadata : Type := {
  work : str;
  author : str;
  translator : str;
  source : str;
  parsed_date : str
}.

(** [lines[start:end]] *)
Definition slice {A} (l : list A) (start stop : nat) : list A :=
  firstn (stop - start) (skipn start l).

(** [[lines[idx] for idx in range(start, stop)]]; [None] stands for the
    [IndexError] of an index past the end. *)
Fixpoint index_range {A} (l : list A) (start n : nat) : option (list A) :=
  match n with
  | O => Some []
  | S n' =>
      match nth_error l start, index_range l (S start) n' with
      | Some x, Some xs => Some (x :: xs)
      | _, _ => None
      end
  end.

Definition is_none {A} (o : option A) : bool :=
  match o with None => true | Some _ => false end.

(** [m.group(n)] of a group that took part in the match. *)
Definition group_str (cs : caps) (n : nat) : str :=
  match group cs n with Some v => v | None => [] end.

(** The JSON document: [{"metadata": ..., "sections": ...}]. *)
Record document (S : Type) : Type := {
  doc_metadata : metadata;
  doc_sections : list S
}.

(** Patterns the scripts hand to [re.sub] as text: [ {2,}], [\n{3,}] and
    [[^\S\n]+]. *)
Definition RE_SPACES_2 : regex := AtLeast 2 (one SP).
Definition RE_NEWLINES_3 : regex := AtLeast 3 (one NL).
Definition RE_HSPACES : regex := Plus hspace.

(** The part of a list from the first element that satisfies [p] on. *)
Fixpoint from_first {A} (p : A -> bool) (l : list A) : list A :=
  match l with
  | [] => []
  | x :: l' => if p x then l else from_first p l'
  end.

(** [sorted] on integers. *)
Fixpoint insert_sorted (x : Z) (l : list Z) : list Z :=
  match l with
  | [] => [x]
  | y :: l' => if (x <=? y)%Z then x :: l else y :: insert_sorted x l'
  end.

Definition sorted (l : list Z) : list Z := fold_right insert_sorted [] l.

(** [l.count(n)] *)
Definition count (n : Z) (l : list Z) : nat := count_occ Z.eq_dec l n.

(* ======================================================================= *)
(** * parser_letters.py *)
(* ======================================================================= *)

Module Letters.

(** ** Compiled patterns *)

Definition roman_IVXLC : char -> bool := among (lit "IVXLC").

(** [\[\d+\]] *)
Definition RE_FOOTNOTE_MARKER : regex :=
  Seq [Lit (lit "["); Plus digit; Lit (lit "]")].

(** [[A-Z\s,\'\u2018\u2019\-\.\(\)]] *)
Definition title_char : char -> bool :=
  either upper_AZ
    (either space (among (lit ",'" ++ [LSQUO; RSQUO] ++ lit "-.()"))).

(** [^([IVXLC]+)\.\s+([A-Z][A-Z\s,\'\u2018\u2019\-\.\(\)]+?)(\[\d+\])?\s*$] *)
Definition RE_LETTER_HEADER : regex :=
  Seq [Bol; Grp 1 (Plus roman_IVXLC); Lit (lit "."); Plus space;
       Grp 2 (Cat (Chr upper_AZ) (PlusLazy title_char));
       Opt (Grp 3 RE_FOOTNOTE_MARKER); Star space; Eol].

(** [^ON THE LESSON TO BE DRAWN FROM THE BURNING OF LYONS(\[\d+\])?\s*$] *)
Definition LETTER_91_TITLE : str :=
  lit "ON THE LESSON TO BE DRAWN FROM THE BURNING OF LYONS".

Definition RE_LETTER_91_HEADER : regex :=
  Seq [Bol; Lit LETTER_91_TITLE; Opt (Grp 1 RE_FOOTNOTE_MARKER);
       Star space; Eol].

(** [^\u2191] *)
Definition RE_FOOTNOTE_LINE : regex := Seq [Bol; Chr (one UP_ARROW)].

(** [^\*\s+\*\s+\*$] *)
Definition RE_SEPARATOR : regex :=
  Seq [Bol; Lit (lit "*"); Plus space; Lit (lit "*"); Plus space;
       Lit (lit "*"); Eol].

(** [^THE EPISTLES OF SENECA$] *)
Definition RE_VOLUME_HEADER : regex :=
  Seq [Bol; Lit (lit "THE EPISTLES OF SENECA"); Eol].

(** [^Volume [IVX]+\.$] *)
Definition RE_VOLUME_MARKER : regex :=
  Seq [Bol; Lit (lit "Volume "); Plus (among (lit "IVX")); Lit (lit ".");
       Eol].

(** [^[IVXLC]+\.\s+[A-Z].*\s+\d+\s*$] *)
Definition RE_TOC_ENTRY : regex :=
  Seq [Bol; Plus roman_IVXLC; Lit (lit "."); Plus space; Chr upper_AZ;
       Star dot; Plus space; Plus digit; Star space; Eol].

(** [^[IVXLC]+\.\s+\d+\.] *)
Definition RE_APPARATUS_ENTRY : regex :=
  Seq [Bol; Plus roman_IVXLC; Lit (lit "."); Plus space; Plus digit;
       Lit (lit ".")].

(** [^CONTENTS OF VOLUME] *)
Definition RE_CONTENTS_HEADER : regex :=
  Seq [Bol; Lit (lit "CONTENTS OF VOLUME")].

(** [^(INDEX OF PROPER NAMES|SUBJECT INDEX)] *)
Definition RE_INDEX_HEADER : regex :=
  Seq [Bol; Grp 1 (Alt (Lit (lit "INDEX OF PROPER NAMES"))
                       (Lit (lit "SUBJECT INDEX")))].

(** [^APPENDIX] *)
Definition RE_APPENDIX_HEADER : regex := Seq [Bol; Lit (lit "APPENDIX")].

(** [^Printed in Great Britain] *)
Definition RE_PRINTER : regex :=
  Seq [Bol; Lit (lit "Printed in Great Britain")].

(** [^About this digital edition$] *)
Definition RE_DIGITAL_EDITION : regex :=
  Seq [Bol; Lit (lit "About this digital edition"); Eol].

(** ** find_letter_regions *)

(** The inner scan [while j < len(lines)]; [rest] is [lines[j:]]. *)
Fixpoint region_end (start j : nat) (rest : list str) : nat :=
  match rest with
  | [] => j
  | l :: rest' =>
      let s := strip l in
      if matches RE_VOLUME_MARKER s then j
      else if matches RE_INDEX_HEADER s then j
      else if matches RE_APPENDIX_HEADER s then j
      else if matches RE_PRINTER s then j
      else if matches RE_DIGITAL_EDITION s then j
      else if matches RE_CONTENTS_HEADER s then j
      else if (start <? j)%nat && matches RE_VOLUME_HEADER s then j
      else region_end start (S j) rest'
  end.

(** The outer loop [while i < len(lines)].  Every turn moves [i] forward,
    so [length lines] turns are enough. *)
Fixpoint regions_from (fuel : nat) (lines : list str) (i : nat)
  : list (nat * nat) :=
  match fuel with
  | O => []
  | S fuel' =>
      match nth_error lines i with
      | None => []
      | Some l =>
          if matches RE_VOLUME_HEADER (strip l)
          then
            let start := i + 1 in
            let j := region_end start start (skipn start lines) in
            (start, j) :: regions_from fuel' lines j
          else regions_from fuel' lines (i + 1)
      end
  end.

Definition find_letter_regions (lines : list str) : list (nat * nat) :=
  regions_from (length lines) lines 0.

(** ** is_letter_header *)

Definition is_letter_header (line : str) : option (Z * str) :=
  let stripped := strip line in
  if negb (truthy stripped) then None
  else if matches RE_TOC_ENTRY stripped then None
  else if matches RE_APPARATUS_ENTRY stripped then None
  else if matches RE_LETTER_91_HEADER stripped then
    let title := strip (re_sub RE_FOOTNOTE_MARKER [] stripped) in
    Some (91%Z, title)
  else
    match re_match RE_LETTER_HEADER stripped with
    | Some (_, m) =>
        let roman := group_str m 1 in
        let title_raw := strip (group_str m 2) in
        let title := rstrip_chars (lit ".") title_raw in
        let num := Roman.roman_to_int roman in
        if ((1 <=? num) && (num <=? 124))%Z then Some (num, title)
        else None
    | None => None
    end.

(** ** parse_letters *)

Record raw_letter : Type := {
  number : Z;
  title : option str;
  lines : list str
}.

(** The variables of the loop over one region, with the output list. *)
Record pstate : Type := {
  raw_letters : list raw_letter;
  current_letter_num : option Z;
  current_title : option str;
  current_lines : list str
}.

(** [if current_letter_num is not None: raw_letters.append({...})] *)
Definition save (st : pstate) : list raw_letter :=
  match current_letter_num st with
  | Some n =>
      raw_letters st ++
      [{| number := n; title := current_title st;
          lines := current_lines st |}]
  | None => raw_letters st
  end.

(** One turn of [for idx in range(region_start, region_end)]. *)
Definition step (st : pstate) (line : str) : pstate :=
  let stripped := strip line in
  match is_letter_header stripped with
  | Some (num, ttl) =>
      {| raw_letters := save st;
         current_letter_num := Some num;
         current_title := Some ttl;
         current_lines := [] |}
  | None =>
      if matches RE_SEPARATOR stripped then st
      else
        match current_letter_num st with
        | Some _ =>
            {| raw_letters := raw_letters st;
               current_letter_num := current_letter_num st;
               current_title := current_title st;
               current_lines := current_lines st ++ [line] |}
        | None => st
        end
  end.

(** One region: the loop variables start afresh, the last letter is
    flushed at the end. *)
Definition parse_region (acc : list raw_letter) (region : list str)
  : list raw_letter :=
  save (fold_left step region
          {| raw_letters := acc; current_letter_num := None;
             current_title := None; current_lines := [] |}).

(** The output holds a letter with this number and title. *)
Definition emits (n : Z) (ttl : option str) (out : list raw_letter) : Prop :=
  exists l, In l out /\ number l = n /\ title l = ttl.

(** [None] is the [IndexError] of a region that reaches past the last
    line; the regions of [find_letter_regions] never do. *)
Fixpoint parse_regions (all : list str) (regions : list (nat * nat))
  (acc : list raw_letter) : option (list raw_letter) :=
  match regions with
  | [] => Some acc
  | (region_start, region_stop) :: regions' =>
      match index_range all region_start (region_stop - region_start) with
      | Some region => parse_regions all regions' (parse_region acc region)
      | None => None
      end
  end.

Definition parse_letters (all : list str) (regions : list (nat * nat))
  : option (list raw_letter) :=
  parse_regions all regions [].

(** ** clean_letter_text *)

(** One turn of [for line in lines]; the state is
    [(cleaned, in_footnotes)]. *)
Definition clean_step (st : list str * bool) (line : str)
  : list str * bool :=
  let '(cleaned, in_footnotes) := st in
  let stripped := strip line in
  if match cleaned with [] => true | _ => false end && negb (truthy stripped)
  then st
  else if matches RE_FOOTNOTE_LINE stripped then (cleaned, true)
  else if in_footnotes then
    if eqs stripped [] then st
    else if matches RE_FOOTNOTE_LINE stripped then st
    else st
  else
    let line_clean := re_sub RE_FOOTNOTE_MARKER [] stripped in
    let line_clean := strip (re_sub RE_SPACES_2 (lit " ") line_clean) in
    (cleaned ++ [line_clean], in_footnotes).

Definition clean_letter_text (ls : list str) (letter_num : Z) : str :=
  let cleaned := fst (fold_left clean_step ls ([], false)) in
  let text := join [NL] cleaned in
  let text := re_sub RE_NEWLINES_3 [NL; NL] text in
  strip text.

(** ** build_sections *)

Record section : Type := {
  id : str;
  book : option Z;
  book_title : option str;
  chapter : option Z;
  chapter_title : option str;
  letter_number : Z;
  letter_title : option str;
  text : str;
  word_count : Z;
  source_reference : str
}.

Definition build_section (letter : raw_letter) : option section :=
  let num := number letter in
  let ttl := title letter in
  let txt := clean_letter_text (lines letter) num in
  if negb (truthy txt) then None
  else
    Some {| id := lit "letters_" ++ format_d 3 num;
            book := None;
            book_title := None;
            chapter := None;
            chapter_title := None;
            letter_number := num;
            letter_title := ttl;
            text := txt;
            word_count := count_words txt;
            source_reference :=
              lit "Letter " ++ Roman.int_to_roman num ++ lit " ("
              ++ str_of_int num ++ lit ")" |}.

(** The loop appends a section for every letter whose text is not empty. *)
Fixpoint build_sections (raw : list raw_letter) : list section :=
  match raw with
  | [] => []
  | letter :: raw' =>
      match build_section letter with
      | Some s => s :: build_sections raw'
      | None => build_sections raw'
      end
  end.

(** ** validate: the duplicate check *)

(** [found_nums = sorted(s['letter_number'] for s in sections)] *)
Definition found_nums (sections : list section) : list Z :=
  sorted (map letter_number sections).

(** [duplicate = [n for n in found_nums if found_nums.count(n) > 1]];
    the warning is printed when the list is not empty. *)
Definition duplicate (sections : list section) : list Z :=
  let found := found_nums sections in
  filter (fun n => (1 <? count n found)%nat) found.

(** [expected = list(range(1, 125))] and
    [missing = set(expected) - set(found_nums)], in the order in which
    [sorted(missing)] prints it; the warning is printed when it is not
    empty. *)
Definition expected : list Z := map Z.of_nat (seq 1 124).

Definition missing (sections : list section) : list Z :=
  let found := found_nums sections in
  filter (fun n => negb (existsb (Z.eqb n) found)) expected.

(** The letter numbers of the header lines of a region, in order, and of
    all the regions. *)
Definition header_nums (region : list str) : list Z :=
  flat_map (fun l => match is_letter_header (strip l) with
                     | Some (n, _) => [n]
                     | None => []
                     end)
           region.

Fixpoint regions_header_nums (all : list str) (regions : list (nat * nat))
  : list Z :=
  match regions with
  | [] => []
  | (region_start, region_stop) :: regions' =>
      match index_range all region_start (region_stop - region_start) with
      | Some region => header_nums region
      | None => []
      end ++ regions_header_nums all regions'
  end.

(** [parse_letters] on the regions of [find_letter_regions], then
    [build_sections], as [main] chains them. *)
Definition sections_of (all : list str) : option (list section) :=
  option_map build_sections (parse_letters all (find_letter_regions all)).

(** ** Line classes of the two scanning loops *)

(** The lines that end a region in [find_letter_regions] wherever they
    stand (a further volume header ends it from the second line on). *)
Definition ends_region (s : str) : bool :=
  matches RE_VOLUME_MARKER s || matches RE_INDEX_HEADER s
  || matches RE_APPENDIX_HEADER s || matches RE_PRINTER s
  || matches RE_DIGITAL_EDITION s || matches RE_CONTENTS_HEADER s.

(** The lines [parse_letters] reads as headers, and the lines it
    appends to the open letter. *)
Definition header_line (l : str) : bool :=
  negb (is_none (is_letter_header (strip l))).

Definition content_line (l : str) : bool :=
  is_none (is_letter_header (strip l))
  && negb (matches RE_SEPARATOR (strip l)).

(** ** build_metadata and main *)

Definition build_metadata (today : str) : metadata :=
  {| work :=
       lit "Moral Letters to Lucilius (Epistulae Morales ad Lucilium)";
     author := lit "Seneca";
     translator :=
       lit "Richard M. Gummere (1917" ++ [8211%N] ++ lit "1925)";
     source := lit "Wikisource";
     parsed_date := today |}.

(** [main] from the line list on.  An index past the last line would
    raise [IndexError] in [parse_letters]; [validate] takes [min] of the
    word counts, which raises [ValueError] when no section was built.
    Both come before the file is written. *)
Definition main (today : str) (all_lines : list str) (dry_run : bool)
  : outcome (document section) :=
  let regions := find_letter_regions all_lines in
  match parse_letters all_lines regions with
  | None => Raised (lit "IndexError")
  | Some raw_letters =>
      if dry_run then DryRun
      else
        match build_sections raw_letters with
        | [] => Raised (lit "ValueError")
        | sections =>
            Written {| doc_metadata := build_metadata today;
                       doc_sections := sections |}
        end
  end.

End Letters.

(* ======================================================================= *)
(** * parser_discourses.py *)
(* ======================================================================= *)

Module Discourses.

(** ** Compiled patterns *)

(** [\[\*[a-z0-9\-]+\]] *)
Definition note_ref : regex :=
  Seq [Lit (lit "[*"); Plus note_id; Lit (lit "]")].

(** [^BOOK ([IVX]+)$] *)
Definition RE_BOOK_HEADER : regex :=
  Seq [Bol; Lit (lit "BOOK "); Grp 1 (Plus (among (lit "IVX"))); Eol].

(** [^CHAPTER ([IVXLC]+)$] *)
Definition RE_CHAPTER_HEADER : regex :=
  Seq [Bol; Lit (lit "CHAPTER "); Grp 1 (Plus (among (lit "IVXLC"))); Eol].

(** [^\[p\.\s*\d+\]$] *)
Definition RE_PAGE_MARKER : regex :=
  Seq [Bol; Lit (lit "[p."); Star space; Plus digit; Lit (lit "]"); Eol].

(** [^The Discourses of Epictetus, tr\. by P\.E\.? Matheson] *)
Definition RE_SACRED_TEXTS_HEADER : regex :=
  Seq [Bol; Lit (lit "The Discourses of Epictetus, tr. by P.E");
       Opt (Lit (lit ".")); Lit (lit " Matheson")].

(** [^\^[a-z0-9]+-\d+] *)
Definition RE_NOTE_LINE : regex :=
  Seq [Bol; Lit (lit "^"); Plus (either (range 97 122) (range 48 57));
       Lit (lit "-"); Plus digit].

(** [^Book [IVX]+\.?\s*Notes\.?$] *)
Definition RE_NOTES_HEADER : regex :=
  Seq [Bol; Lit (lit "Book "); Plus (among (lit "IVX")); Opt (Lit (lit "."));
       Star space; Lit (lit "Notes"); Opt (Lit (lit ".")); Eol].

(** [^The Discourses\.$] *)
Definition RE_DISCOURSES_SEPARATOR : regex :=
  Seq [Bol; Lit (lit "The Discourses."); Eol].

(** [^PREFACE$] *)
Definition RE_PREFACE : regex := Seq [Bol; Lit (lit "PREFACE"); Eol].

(** [^ARRIANUS TO LUCIUS GELLIUS GREETING$] *)
Definition RE_PREFACE_SUBTITLE : regex :=
  Seq [Bol; Lit (lit "ARRIANUS TO LUCIUS GELLIUS GREETING"); Eol].

(** [^FRAGMENTS\s*(\[\*[a-z0-9\-]+\])?\s*$] *)
Definition RE_FRAGMENTS_HEADER : regex :=
  Seq [Bol; Lit (lit "FRAGMENTS"); Star space; Opt (Grp 1 note_ref);
       Star space; Eol].

(** [^(\d+[a-z]?)\s*(?:\[\*[a-z0-9\-]+\])?\s*$] *)
Definition RE_FRAGMENT_NUMBER : regex :=
  Seq [Bol; Grp 1 (Cat (Plus digit) (Opt (Chr (range 97 122))));
       Star space; Opt note_ref; Star space; Eol].

(** [^I$] *)
Definition RE_FRAGMENT_1_ROMAN : regex := Seq [Bol; Lit (lit "I"); Eol].

(** [^(FROM |RUFUS:)] *)
Definition RE_FRAGMENT_TITLE : regex :=
  Seq [Bol; Grp 1 (Alt (Lit (lit "FROM ")) (Lit (lit "RUFUS:")))].

(** [^THE MANUAL \[ENCHIRIDION\] OF EPICTETUS\s*(\[\*[a-z0-9\-]+\])?\s*$] *)
Definition RE_MANUAL_HEADER : regex :=
  Seq [Bol; Lit (lit "THE MANUAL [ENCHIRIDION] OF EPICTETUS"); Star space;
       Opt (Grp 1 note_ref); Star space; Eol].

(** [^(\d+)\s*(?:\[\*[a-z0-9\-]+\])?\s*$] *)
Definition RE_MANUAL_SECTION_NUMBER : regex :=
  Seq [Bol; Grp 1 (Plus digit); Star space; Opt note_ref; Star space; Eol].

(** [^SUBJECT INDEX TO THE DISCOURSES] *)
Definition RE_INDEX_HEADER : regex :=
  Seq [Bol; Lit (lit "SUBJECT INDEX TO THE DISCOURSES")].

(** [\s*\[\*[a-z0-9\-]+\]] *)
Definition RE_FOOTNOTE_REF : regex := Seq [Star space; note_ref].

(** [\[p\.\s*\d+\]] *)
Definition RE_INLINE_PAGE : regex :=
  Seq [Lit (lit "[p."); Star space; Plus digit; Lit (lit "]")].

(** ** is_noise_line *)

Definition is_noise_line (line : str) : bool :=
  let stripped := strip line in
  if matches RE_PAGE_MARKER stripped then true
  else if matches RE_SACRED_TEXTS_HEADER stripped then true
  else false.

(** ** clean_text *)

Definition clean_text (text : str) : str :=
  let text := re_sub RE_FOOTNOTE_REF [] text in
  let text := re_sub RE_INLINE_PAGE [] text in
  let text := replace [CR] [NL] (replace [CR; NL] [NL] text) in
  let text := re_sub RE_NEWLINES_3 [NL; NL] text in
  let text := re_sub RE_HSPACES [SP] text in
  let text := join [NL] (map strip (split_on NL text)) in
  strip text.

(** ** parse_discourses *)

(** The dict of one parsed chapter. *)
Record raw_chapter : Type := {
  book_num : Z;
  chapter_num : Z;
  chapter_title : option str;
  lines : list str
}.

(** Phase 1, the loop [while i < len(lines)]; [rest] is [lines[i:]].  The
    result is [(preface_start, book1_start, content_end)]. *)
Fixpoint find_bounds (i : nat) (rest : list str)
  (preface_start book1_start : option nat)
  : option nat * option nat * option nat :=
  match rest with
  | [] => (preface_start, book1_start, None)
  | l :: rest' =>
      let stripped := strip l in
      let preface_start :=
        if matches RE_PREFACE stripped && is_none preface_start
        then Some i else preface_start in
      let book1_start :=
        if eqs stripped (lit "BOOK I") && is_none book1_start
        then Some i else book1_start in
      if matches RE_NOTES_HEADER stripped && contains (lit "IV") stripped
      then (preface_start, book1_start, Some i)
      else if matches RE_DISCOURSES_SEPARATOR stripped
              && existsb (fun lj => matches RE_NOTES_HEADER (strip lj)
                                    && contains (lit "IV") lj)
                         (firstn 4 rest')
      then (preface_start, book1_start, Some i)
      else find_bounds (S i) rest' preface_start book1_start
  end.

(** Phase 2, one turn of [for idx in range(preface_start, book1_start)]. *)
Definition preface_step (preface_lines : list str) (line : str) : list str :=
  let stripped := strip line in
  if matches RE_PREFACE stripped then preface_lines
  else if matches RE_PREFACE_SUBTITLE stripped then preface_lines
  else if is_noise_line line then preface_lines
  else preface_lines ++ [stripped].

(** Phase 3: the variables of the loop, with the output list. *)
Record pstate : Type := {
  chapters : list raw_chapter;
  current_book : option Z;
  current_chapter_num : option Z;
  current_chapter_title : option str;
  current_chapter_lines : list str;
  awaiting_title : bool;
  in_notes : bool
}.

(** [if current_chapter_num is not None and current_book is not None:
    chapters.append({...})] *)
Definition save (st : pstate) : list raw_chapter :=
  match current_chapter_num st, current_book st with
  | Some cn, Some bk =>
      chapters st ++
      [{| book_num := bk; chapter_num := cn;
          chapter_title := current_chapter_title st;
          lines := current_chapter_lines st |}]
  | _, _ => chapters st
  end.

Definition enter_notes (st : pstate) : pstate :=
  {| chapters := chapters st;
     current_book := current_book st;
     current_chapter_num := current_chapter_num st;
     current_chapter_title := current_chapter_title st;
     current_chapter_lines := current_chapter_lines st;
     awaiting_title := awaiting_title st;
     in_notes := true |}.

(** One turn of [for idx in range(book1_start, content_end)]. *)
Definition step (st : pstate) (line : str) : pstate :=
  let stripped := strip line in
  if is_noise_line line then st
  else if matches RE_NOTES_HEADER stripped
          || matches RE_DISCOURSES_SEPARATOR stripped
  then enter_notes st
  else if matches RE_NOTE_LINE stripped then enter_notes st
  else
    match re_match RE_BOOK_HEADER stripped with
    | Some (_, bm) =>
        {| chapters := save st;
           current_book := Some (Roman.roman_to_int (group_str bm 1));
           current_chapter_num := None;
           current_chapter_title := None;
           current_chapter_lines := [];
           awaiting_title := false;
           in_notes := false |}
    | None =>
        if in_notes st then st
        else
          match re_match RE_CHAPTER_HEADER stripped with
          | Some (_, cm) =>
              {| chapters := save st;
                 current_book := current_book st;
                 current_chapter_num :=
                   Some (Roman.roman_to_int (group_str cm 1));
                 current_chapter_title := None;
                 current_chapter_lines := [];
                 awaiting_title := true;
                 in_notes := in_notes st |}
          | None =>
              if awaiting_title st then
                if truthy stripped then
                  {| chapters := chapters st;
                     current_book := current_book st;
                     current_chapter_num := current_chapter_num st;
                     current_chapter_title := Some stripped;
                     current_chapter_lines := current_chapter_lines st;
                     awaiting_title := false;
                     in_notes := in_notes st |}
                else st
              else
                match current_chapter_num st with
                | Some _ =>
                    {| chapters := chapters st;
                       current_book := current_book st;
                       current_chapter_num := current_chapter_num st;
                       current_chapter_title := current_chapter_title st;
                       current_chapter_lines :=
                         current_chapter_lines st ++ [stripped];
                       awaiting_title := awaiting_title st;
                       in_notes := in_notes st |}
                | None => st
                end
          end
    end.

Definition initial : pstate :=
  {| chapters := []; current_book := None; current_chapter_num := None;
     current_chapter_title := None; current_chapter_lines := [];
     awaiting_title := false; in_notes := false |}.

Definition parse_discourses (all : list str)
  : fallible (str * list raw_chapter) :=
  let '(preface_start, book1_start, content_end) :=
    find_bounds 0 all None None in
  match preface_start with
  | None => inr (1%Z, lit "Could not find PREFACE.")
  | Some preface_start =>
      match book1_start with
      | None => inr (1%Z, lit "Could not find BOOK I.")
      | Some book1_start =>
          let content_end :=
            match content_end with
            | Some e => e
            | None => length all
            end in
          let preface_lines :=
            fold_left preface_step (slice all preface_start book1_start) [] in
          let preface_text := clean_text (join [NL] preface_lines) in
          let st :=
            fold_left step (slice all book1_start content_end) initial in
          inl (preface_text, save st)
      end
  end.

(** ** parse_fragments and parse_manual *)

Record fragment : Type := {
  frag_number : str;
  frag_title : option str;
  frag_lines : list str
}.

Record manual_section : Type := {
  sec_number : Z;
  sec_lines : list str
}.

(** The loop that looks for the section: [(frag_start, frag_end)]. *)
Fixpoint fragment_bounds (i : nat) (rest : list str) (frag_start : option nat)
  : option nat * option nat :=
  match rest with
  | [] => (frag_start, None)
  | line :: rest' =>
      let stripped := strip line in
      let frag_start :=
        if matches RE_FRAGMENTS_HEADER stripped then Some (i + 1)
        else frag_start in
      if negb (is_none frag_start) && matches RE_NOTE_LINE stripped
         && startswith stripped (lit "^f-")
      then (frag_start, Some i)
      else if negb (is_none frag_start) && matches RE_MANUAL_HEADER stripped
      then (frag_start, Some i)
      else fragment_bounds (S i) rest' frag_start
  end.

Fixpoint manual_bounds (i : nat) (rest : list str) (manual_start : option nat)
  : option nat * option nat :=
  match rest with
  | [] => (manual_start, None)
  | line :: rest' =>
      let stripped := strip line in
      let manual_start :=
        if matches RE_MANUAL_HEADER stripped then Some (i + 1)
        else manual_start in
      if negb (is_none manual_start) && matches RE_NOTE_LINE stripped
         && startswith stripped (lit "^m-")
      then (manual_start, Some i)
      else if negb (is_none manual_start) && matches RE_INDEX_HEADER stripped
      then (manual_start, Some i)
      else manual_bounds (S i) rest' manual_start
  end.

(** The variables of the loop of [parse_manual], with the output list. *)
Record mstate : Type := {
  m_sections : list manual_section;
  m_current_num : option Z;
  m_current_lines : list str
}.

Definition m_save (st : mstate) : list manual_section :=
  match m_current_num st with
  | Some n =>
      m_sections st ++ [{| sec_number := n; sec_lines := m_current_lines st |}]
  | None => m_sections st
  end.

(** [if current_num is not None: current_lines.append(stripped)] *)
Definition m_append (st : mstate) (stripped : str) : mstate :=
  match m_current_num st with
  | Some _ =>
      {| m_sections := m_sections st;
         m_current_num := m_current_num st;
         m_current_lines := m_current_lines st ++ [stripped] |}
  | None => st
  end.

(** One turn of [for idx in range(manual_start, manual_end)]. *)
Definition m_step (st : mstate) (line : str) : mstate :=
  let stripped := strip line in
  if is_noise_line line then st
  else
    match re_match RE_MANUAL_SECTION_NUMBER stripped with
    | Some (_, nm) =>
        let num := int_of_digits (group_str nm 1) in
        if ((1 <=? num) && (num <=? 53))%Z then
          if match m_current_num st with
             | None => true
             | Some cur => (num >? cur)%Z
             end
          then {| m_sections := m_save st;
                  m_current_num := Some num;
                  m_current_lines := [] |}
          else m_append st stripped
        else m_append st stripped
    | None => m_append st stripped
    end.

Definition m_initial : mstate :=
  {| m_sections := []; m_current_num := None; m_current_lines := [] |}.

Definition parse_manual (all : list str) : list manual_section :=
  match manual_bounds 0 all None with
  | (None, _) => []
  | (Some manual_start, manual_end) =>
      let manual_end :=
        match manual_end with Some e => e | None => length all end in
      m_save (fold_left m_step (slice all manual_start manual_end) m_initial)
  end.

Section Fragments.

(** [str.isupper], whose answer rests on the case tables of the Unicode
    database: taken as given. *)
Variable isupper : str -> bool.

Record fstate : Type := {
  f_fragments : list fragment;
  f_current_num : option str;
  f_current_title : option str;
  f_current_lines : list str;
  f_awaiting_title : bool
}.

Definition f_save (st : fstate) : list fragment :=
  match f_current_num st with
  | Some n =>
      f_fragments st ++
      [{| frag_number := n; frag_title := f_current_title st;
          frag_lines := f_current_lines st |}]
  | None => f_fragments st
  end.

Definition f_append (st : fstate) (awaiting : bool) (stripped : str)
  : fstate :=
  {| f_fragments := f_fragments st;
     f_current_num := f_current_num st;
     f_current_title := f_current_title st;
     f_current_lines :=
       match f_current_num st with
       | Some _ => f_current_lines st ++ [stripped]
       | None => f_current_lines st
       end;
     f_awaiting_title := awaiting |}.

(** One turn of [for idx in range(frag_start, frag_end)]. *)
Definition f_step (st : fstate) (line : str) : fstate :=
  let stripped := strip line in
  if is_noise_line line then st
  else
    let fm := re_match RE_FRAGMENT_NUMBER stripped in
    let is_frag1 :=
      is_none (f_current_num st) && matches RE_FRAGMENT_1_ROMAN stripped in
    if negb (is_none fm) || is_frag1 then
      {| f_fragments := f_save st;
         f_current_num :=
           Some match fm with
                | Some (_, m) => group_str m 1
                | None => lit "1"
                end;
         f_current_title := None;
         f_current_lines := [];
         f_awaiting_title := true |}
    else if f_awaiting_title st && truthy stripped then
      if matches RE_FRAGMENT_TITLE stripped || isupper stripped then
        {| f_fragments := f_fragments st;
           f_current_num := f_current_num st;
           f_current_title := Some stripped;
           f_current_lines := f_current_lines st;
           f_awaiting_title := false |}
      else f_append st false stripped
    else f_append st (f_awaiting_title st) stripped.

Definition f_initial : fstate :=
  {| f_fragments := []; f_current_num := None; f_current_title := None;
     f_current_lines := []; f_awaiting_title := false |}.

Definition parse_fragments (all : list str) : list fragment :=
  match fragment_bounds 0 all None with
  | (None, _) => []
  | (Some frag_start, frag_end) =>
      let frag_end :=
        match frag_end with Some e => e | None => length all end in
      f_save (fold_left f_step (slice all frag_start frag_end) f_initial)
  end.

End Fragments.

(** ** build_sections *)

(** The key [chapter_title] of a section dict is the field
    [sec_chapter_title]. *)
Record section : Type := {
  id : str;
  book : option Z;
  book_title : option str;
  chapter : option Z;
  sec_chapter_title : option str;
  letter_number : option Z;
  text : str;
  word_count : Z;
  source_reference : str
}.

(** [BOOK_TITLES.get(bk)] *)
Definition BOOK_TITLES (bk : Z) : option str :=
  if (bk =? 1)%Z then Some (lit "Book I")
  else if (bk =? 2)%Z then Some (lit "Book II")
  else if (bk =? 3)%Z then Some (lit "Book III")
  else if (bk =? 4)%Z then Some (lit "Book IV")
  else None.

Definition preface_sections (preface_text : str) : list section :=
  if truthy preface_text then
    [{| id := lit "discourses_preface";
        book := None;
        book_title := Some (lit "Preface");
        chapter := None;
        sec_chapter_title := Some (lit "Arrianus to Lucius Gellius Greeting");
        letter_number := None;
        text := preface_text;
        word_count := count_words preface_text;
        source_reference := lit "Preface" |}]
  else [].

Definition chapter_section (ch : raw_chapter) : option section :=
  let txt := clean_text (join [NL] (lines ch)) in
  if negb (truthy txt) then None
  else
    let bk := book_num ch in
    let cn := chapter_num ch in
    Some {| id := lit "discourses_b" ++ str_of_int bk ++ lit "_c"
                  ++ str_of_int cn;
            book := Some bk;
            book_title := BOOK_TITLES bk;
            chapter := Some cn;
            sec_chapter_title := chapter_title ch;
            letter_number := None;
            text := txt;
            word_count := count_words txt;
            source_reference :=
              lit "Book " ++ Roman.int_to_roman bk ++ lit ", Chapter "
              ++ Roman.int_to_roman cn |}.

Definition fragment_section (frag : fragment) : option section :=
  let txt := clean_text (join [NL] (frag_lines frag)) in
  if negb (truthy txt) then None
  else
    Some {| id := lit "discourses_frag_" ++ frag_number frag;
            book := None;
            book_title := Some (lit "Fragments");
            chapter := None;
            sec_chapter_title := frag_title frag;
            letter_number := None;
            text := txt;
            word_count := count_words txt;
            source_reference := lit "Fragment " ++ frag_number frag |}.

Definition manual_section_of (sec : manual_section) : option section :=
  let txt := clean_text (join [NL] (sec_lines sec)) in
  if negb (truthy txt) then None
  else
    Some {| id := lit "enchiridion_s" ++ str_of_int (sec_number sec);
            book := None;
            book_title := Some (lit "The Manual (Enchiridion)");
            chapter := Some (sec_number sec);
            sec_chapter_title := None;
            letter_number := None;
            text := txt;
            word_count := count_words txt;
            source_reference :=
              lit "Enchiridion, Section " ++ str_of_int (sec_number sec) |}.

(** A loop of [build_sections]: a record is appended for every item whose
    cleaned text is not empty. *)
Fixpoint collect {A} (f : A -> option section) (items : list A)
  : list section :=
  match items with
  | [] => []
  | x :: items' =>
      match f x with
      | Some s => s :: collect f items'
      | None => collect f items'
      end
  end.

Definition build_sections (preface_text : str) (chs : list raw_chapter)
  (fragments : list fragment) (manual_sections : list manual_section)
  : list section :=
  preface_sections preface_text
  ++ collect chapter_section chs
  ++ collect fragment_section fragments
  ++ collect manual_section_of manual_sections.

Definition build_metadata (today : str) : metadata :=
  {| work :=
       lit "The Discourses of Epictetus, with the Enchiridion and Fragments";
     author := lit "Epictetus (recorded by Arrian)";
     translator := lit "P.E. Matheson (1916)";
     source := lit "sacred-texts.com";
     parsed_date := today |}.

(** ** main *)

(** [main] from the line list on ([raw.splitlines()]).  [validate] takes
    [min] of the word counts, which raises [ValueError] when there is no
    section; this happens before the file is written. *)
Definition main (isupper : str -> bool) (today : str) (all_lines : list str)
  (dry_run : bool) : outcome (document section) :=
  match parse_discourses all_lines with
  | inr (status, msg) => Exited status msg
  | inl (preface_text, chs) =>
      let fragments := parse_fragments isupper all_lines in
      let manual_sections := parse_manual all_lines in
      if dry_run then DryRun
      else
        let sections :=
          build_sections preface_text chs fragments manual_sections in
        match sections with
        | [] => Raised (lit "ValueError")
        | _ =>
            Written {| doc_metadata := build_metadata today;
                       doc_sections := sections |}
        end
  end.

End Discourses.

(* ======================================================================= *)
(** * parser_meditations.py *)
(* ======================================================================= *)

Module Meditations.

(** ** Compiled patterns and constants *)

Fixpoint Alts (ws : list str) : regex :=
  match ws with
  | [] => Eps
  | [w] => Lit w
  | w :: ws' => Alt (Lit w) (Alts ws')
  end.

Definition book_words : list str :=
  map lit ["ONE"; "TWO"; "THREE"; "FOUR"; "FIVE"; "SIX"; "SEVEN"; "EIGHT";
           "NINE"; "TEN"; "ELEVEN"; "TWELVE"]%string.

(** [^BOOK\s+(ONE|TWO|THREE|FOUR|FIVE|SIX|SEVEN|EIGHT|NINE|TEN|ELEVEN|TWELVE)$] *)
Definition RE_BOOK_HEADER : regex :=
  Seq [Bol; Lit (lit "BOOK"); Plus space; Grp 1 (Alts book_words); Eol].

(** [^-{10,}$] *)
Definition RE_SEPARATOR : regex := Seq [Bol; AtLeast 10 (one 45); Eol].

(** [^THE END$] *)
Definition RE_THE_END : regex := Seq [Bol; Lit (lit "THE END"); Eol].

(** [^Among the Quadi at the Granua\.\s*$] *)
Definition RE_COLOPHON_BOOK1 : regex :=
  Seq [Bol; Lit (lit "Among the Quadi at the Granua."); Star space; Eol].

(** [^This in Carnuntum\.\s*$] *)
Definition RE_COLOPHON_BOOK2 : regex :=
  Seq [Bol; Lit (lit "This in Carnuntum."); Star space; Eol].

(** [WORD_TO_NUM]: the position of the word in [book_words]. *)
Fixpoint word_index (ws : list str) (n : Z) (w : str) : option Z :=
  match ws with
  | [] => None
  | w' :: ws' => if eqs w w' then Some n else word_index ws' (n + 1)%Z w
  end.

Definition WORD_TO_NUM (w : str) : option Z := word_index book_words 1%Z w.

Definition BOOK_WORD_TO_TITLE (n : Z) : option str :=
  if ((1 <=? n) && (n <=? 12))%Z then
    nth_error
      (map lit ["Book One"; "Book Two"; "Book Three"; "Book Four";
                "Book Five"; "Book Six"; "Book Seven"; "Book Eight";
                "Book Nine"; "Book Ten"; "Book Eleven"; "Book Twelve"]%string)
      (Z.to_nat (n - 1))
  else None.

(** ** strip_header_footer *)

(** [start_idx]: the first line that is a book header and reads
    [BOOK ONE]; [rest] is [lines[i:]]. *)
Fixpoint find_start (i : nat) (rest : list str) : option nat :=
  match rest with
  | [] => None
  | line :: rest' =>
      let stripped := strip line in
      if matches RE_BOOK_HEADER stripped && eqs stripped (lit "BOOK ONE")
      then Some i
      else find_start (S i) rest'
  end.

(** [end_idx]: the last line that reads [THE END].  The source scans from
    the last index down and stops at the first hit. *)
Fixpoint find_end (i : nat) (rest : list str) : option nat :=
  match rest with
  | [] => None
  | line :: rest' =>
      match find_end (S i) rest' with
      | Some e => Some e
      | None => if matches RE_THE_END (strip line) then Some i else None
      end
  end.

Definition strip_header_footer (all : list str) : fallible (list str) :=
  let start_idx := find_start 0 all in
  let end_idx := find_end 0 all in
  match start_idx with
  | None =>
      inr (1%Z,
           lit "Could not find 'BOOK ONE' " ++ [EM_DASH]
           ++ lit " unable to locate content start.")
  | Some start_idx =>
      match end_idx with
      | None =>
          inr (1%Z,
               lit "Could not find 'THE END' " ++ [EM_DASH]
               ++ lit " unable to locate content end.")
      | Some end_idx => inl (slice all start_idx end_idx)
      end
  end.

(** ** split_into_books *)

Record bstate : Type := {
  books : list (Z * list str);
  current_book_num : option Z;
  current_lines : list str
}.

Definition b_save (st : bstate) : list (Z * list str) :=
  match current_book_num st with
  | Some n => books st ++ [(n, current_lines st)]
  | None => books st
  end.

(** One turn of [for line in lines].  The captured word is one of the keys
    of [WORD_TO_NUM]. *)
Definition b_step (st : bstate) (line : str) : bstate :=
  let stripped := strip line in
  match re_match RE_BOOK_HEADER stripped with
  | Some (_, m) =>
      {| books := b_save st;
         current_book_num := WORD_TO_NUM (group_str m 1);
         current_lines := [] |}
  | None =>
      if matches RE_SEPARATOR stripped then st
      else {| books := books st;
              current_book_num := current_book_num st;
              current_lines := current_lines st ++ [line] |}
  end.

Definition split_into_books (ls : list str) : list (Z * list str) :=
  b_save (fold_left b_step ls
            {| books := []; current_book_num := None; current_lines := [] |}).

(** ** clean_text *)

Definition clean_text (text : str) : str :=
  let text := replace [CR] [NL] (replace [CR; NL] [NL] text) in
  let text := re_sub RE_NEWLINES_3 [NL; NL] text in
  let text := re_sub RE_HSPACES [SP] text in
  let text := join [NL] (map strip (split_on NL text)) in
  strip text.

(** ** split_book_into_sections *)

(** One turn of the paragraph loop; the state is
    [(sections, current_paragraph_lines)]. *)
Definition para_step (st : list str * list str) (line : str)
  : list str * list str :=
  let '(sections, current_paragraph_lines) := st in
  let stripped := strip line in
  if eqs stripped [] then
    match current_paragraph_lines with
    | [] => st
    | _ => (sections ++ [join [NL] current_paragraph_lines], [])
    end
  else (sections, current_paragraph_lines ++ [stripped]).

(** The colophon of a book, when it stands as a section of its own at the
    end, is joined to the section before it. *)
Definition attach_colophon (re : regex) (sections : list str) : list str :=
  match rev sections with
  | [] => sections
  | last :: before_rev =>
      if matches re (strip last) then
        match before_rev with
        | prev :: earlier_rev =>
            rev earlier_rev ++ [prev ++ [NL; NL] ++ last]
        | [] => [last]
        end
      else sections
  end.

Definition split_book_into_sections (book_num : Z) (ls : list str)
  : list str :=
  let '(sections, current_paragraph_lines) :=
    fold_left para_step ls ([], []) in
  let sections :=
    match current_paragraph_lines with
    | [] => sections
    | _ => sections ++ [join [NL] current_paragraph_lines]
    end in
  let sections :=
    if (book_num =? 1)%Z then attach_colophon RE_COLOPHON_BOOK1 sections
    else sections in
  let sections :=
    if (book_num =? 2)%Z then attach_colophon RE_COLOPHON_BOOK2 sections
    else sections in
  sections.

(** ** build_sections *)

Record section : Type := {
  id : str;
  book : Z;
  book_title : option str;
  chapter : option Z;
  chapter_title : option str;
  section_index : Z;
  letter_number : option Z;
  text : str;
  word_count : Z;
  source_reference : str
}.

(** The inner loop, [for sec_idx, raw_text in enumerate(raw_sections,
    start=1)]. *)
Fixpoint book_sections (book_num : Z) (sec_idx : Z) (raw_sections : list str)
  : list section :=
  match raw_sections with
  | [] => []
  | raw_text :: raw_sections' =>
      let txt := clean_text raw_text in
      let more := book_sections book_num (sec_idx + 1)%Z raw_sections' in
      if negb (truthy txt) then more
      else
        {| id := lit "meditations_b" ++ str_of_int book_num ++ lit "_s"
                 ++ str_of_int sec_idx;
           book := book_num;
           book_title := BOOK_WORD_TO_TITLE book_num;
           chapter := None;
           chapter_title := None;
           section_index := sec_idx;
           letter_number := None;
           text := txt;
           word_count := count_words txt;
           source_reference :=
             lit "Book " ++ str_of_int book_num ++ lit ", Section "
             ++ str_of_int sec_idx |} :: more
  end.

Definition build_sections (bks : list (Z * list str)) : list section :=
  flat_map (fun b =>
              book_sections (fst b) 1%Z
                (split_book_into_sections (fst b) (snd b)))
           bks.

Definition build_metadata (today : str) : metadata :=
  {| work := lit "The Meditations";
     author := lit "Marcus Aurelius";
     translator := lit "George Long";
     source := lit "The Internet Classics Archive";
     parsed_date := today |}.

(** ** main *)

Definition main (today : str) (all_lines : list str) (dry_run : bool)
  : outcome (document section) :=
  match strip_header_footer all_lines with
  | inr (status, msg) => Exited status msg
  | inl content_lines =>
      let bks := split_into_books content_lines in
      if dry_run then DryRun
      else
        Written {| doc_metadata := build_metadata today;
                   doc_sections := build_sections bks |}
  end.

End Meditations.

(* ======================================================================= *)
(** * parser_shortness.py *)
(* ======================================================================= *)

Module Shortness.

(** ** Compiled patterns *)

(** [^(\d+)\.\s*] and then group 2, which is [.*] *)
Definition RE_CHAPTER_HEADER : regex :=
  Seq [Bol; Grp 1 (Plus digit); Lit (lit "."); Star space; Grp 2 (Star dot)].

(** [^Footnotes\s*$] *)
Definition RE_FOOTNOTES_HEADER : regex :=
  Seq [Bol; Lit (lit "Footnotes"); Star space; Eol].

(** [^\u2191] *)
Definition RE_FOOTNOTE_LINE : regex := Seq [Bol; Chr (one UP_ARROW)].

(** [\[\d+\]] *)
Definition RE_FOOTNOTE_MARKER : regex :=
  Seq [Lit (lit "["); Plus digit; Lit (lit "]")].

(** ** find_content_start *)

(** The loop over [enumerate(lines)]; [rest] is [lines[i:]]. *)
Fixpoint first_chapter_one (i : nat) (rest : list str) : option nat :=
  match rest with
  | [] => None
  | line :: rest' =>
      let stripped := strip line in
      match re_match RE_CHAPTER_HEADER stripped with
      | Some (_, m) =>
          if (int_of_digits (group_str m 1) =? 1)%Z then Some i
          else first_chapter_one (S i) rest'
      | None => first_chapter_one (S i) rest'
      end
  end.

Definition find_content_start (ls : list str) : fallible nat :=
  match first_chapter_one 0 ls with
  | Some i => inl i
  | None => inr (1%Z, lit "Could not find the start of chapter 1.")
  end.

(** ** parse_chapters *)

Record raw_chapter : Type := {
  number : Z;
  first_line_text : option str;
  lines : list str
}.

Record pstate : Type := {
  raw_chapters : list raw_chapter;
  current_num : option Z;
  current_first_line_text : option str;
  current_lines : list str;
  in_footnotes : bool
}.

Definition save (st : pstate) : list raw_chapter :=
  match current_num st with
  | Some n =>
      raw_chapters st ++
      [{| number := n; first_line_text := current_first_line_text st;
          lines := current_lines st |}]
  | None => raw_chapters st
  end.

(** A header line whose number is between 1 and 20: the number and the
    rest of the line. *)
Definition chapter_header (stripped : str) : option (Z * str) :=
  match re_match RE_CHAPTER_HEADER stripped with
  | Some (_, m) =>
      let num := int_of_digits (group_str m 1) in
      if ((1 <=? num) && (num <=? 20))%Z then Some (num, group_str m 2)
      else None
  | None => None
  end.

Definition open_chapter (st : pstate) (num : Z) (rest_of_line : str)
  : pstate :=
  {| raw_chapters := save st;
     current_num := Some num;
     current_first_line_text := Some rest_of_line;
     current_lines := [];
     in_footnotes := false |}.

(** One turn of [for i in range(start_idx, len(lines))].  Outside the
    footnotes [in_footnotes] is already [False] when a chapter opens. *)
Definition step (st : pstate) (line : str) : pstate :=
  let stripped := strip line in
  if matches RE_FOOTNOTES_HEADER stripped then
    {| raw_chapters := raw_chapters st;
       current_num := current_num st;
       current_first_line_text := current_first_line_text st;
       current_lines := current_lines st;
       in_footnotes := true |}
  else if in_footnotes st then
    match chapter_header stripped with
    | Some (num, rest_of_line) => open_chapter st num rest_of_line
    | None => st
    end
  else
    match chapter_header stripped with
    | Some (num, rest_of_line) => open_chapter st num rest_of_line
    | None =>
        match current_num st with
        | Some _ =>
            {| raw_chapters := raw_chapters st;
               current_num := current_num st;
               current_first_line_text := current_first_line_text st;
               current_lines := current_lines st ++ [line];
               in_footnotes := in_footnotes st |}
        | None => st
        end
    end.

Definition parse_chapters (ls : list str) (start_idx : nat)
  : list raw_chapter :=
  save (fold_left step (skipn start_idx ls)
          {| raw_chapters := []; current_num := None;
             current_first_line_text := None; current_lines := [];
             in_footnotes := false |}).

(** ** clean_chapter_text *)

(** The first loop: the stripped lines up to the first footnote header or
    footnote line. *)
Fixpoint body_lines (ls : list str) : list str :=
  match ls with
  | [] => []
  | line :: ls' =>
      let stripped := strip line in
      if matches RE_FOOTNOTES_HEADER stripped then []
      else if matches RE_FOOTNOTE_LINE stripped then []
      else stripped :: body_lines ls'
  end.

(** [while all_lines and not all_lines[0]: all_lines.pop(0)] *)
Fixpoint drop_blank (ls : list str) : list str :=
  match ls with
  | [] :: ls' => drop_blank ls'
  | _ => ls
  end.

(** The paragraph loop; the state is [(paragraphs, current_para)]. *)
Definition para_step (st : list str * list str) (line : str)
  : list str * list str :=
  let '(paragraphs, current_para) := st in
  if eqs line [] then
    match current_para with
    | [] => st
    | _ => (paragraphs ++ [join [SP] current_para], [])
    end
  else
    let cleaned := re_sub RE_FOOTNOTE_MARKER [] line in
    let cleaned := strip (re_sub RE_SPACES_2 [SP] cleaned) in
    if truthy cleaned then (paragraphs, current_para ++ [cleaned])
    else st.

Definition clean_chapter_text (first : option str) (ls : list str) : str :=
  let all_lines :=
    match first with
    | Some t => if truthy t then [t] else []
    | None => []
    end ++ body_lines ls in
  let all_lines := rev (drop_blank (rev all_lines)) in
  let all_lines := drop_blank all_lines in
  let '(paragraphs, current_para) := fold_left para_step all_lines ([], []) in
  let paragraphs :=
    match current_para with
    | [] => paragraphs
    | _ => paragraphs ++ [join [SP] current_para]
    end in
  join [NL; NL] paragraphs.

(** ** build_sections *)

Record section : Type := {
  id : str;
  book : option Z;
  book_title : option str;
  chapter : Z;
  chapter_title : option str;
  letter_number : option Z;
  text : str;
  word_count : Z;
  source_reference : str
}.

Definition build_section (ch : raw_chapter) : option section :=
  let num := number ch in
  let txt := clean_chapter_text (first_line_text ch) (lines ch) in
  if negb (truthy txt) then None
  else
    Some {| id := lit "shortness_ch" ++ format_d 2 num;
            book := None;
            book_title := None;
            chapter := num;
            chapter_title := None;
            letter_number := None;
            text := txt;
            word_count := count_words txt;
            source_reference := lit "Chapter " ++ str_of_int num |}.

Fixpoint build_sections (raw : list raw_chapter) : list section :=
  match raw with
  | [] => []
  | ch :: raw' =>
      match build_section ch with
      | Some s => s :: build_sections raw'
      | None => build_sections raw'
      end
  end.

Definition build_metadata (today : str) : metadata :=
  {| work := lit "On the Shortness of Life (De Brevitate Vitae)";
     author := lit "Seneca";
     translator := lit "John W. Basore (1932)";
     source := lit "Wikisource";
     parsed_date := today |}.

(** ** main *)

(** [validate] takes [min] of the word counts, which raises [ValueError]
    when there is no section; this happens before the file is written. *)
Definition main (today : str) (all_lines : list str) (dry_run : bool)
  : outcome (document section) :=
  match find_content_start all_lines with
  | inr (status, msg) => Exited status msg
  | inl content_start =>
      let raw := parse_chapters all_lines content_start in
      if dry_run then DryRun
      else
        match build_sections raw with
        | [] => Raised (lit "ValueError")
        | sections =>
            Written {| doc_metadata := build_metadata today;
                       doc_sections := sections |}
        end
  end.

End Shortness.

(* ======================================================================= *)
(** * Texts laid out in paragraphs *)
(* ======================================================================= *)

(** The vocabulary in which the behaviour of the two [clean_text] functions
    on blank lines is stated. *)

Module Layout.

(** A character of running text: not white space and not an opening
    bracket (which could start an inline marker). *)
Definition text_char (c : char) : bool :=
  negb (isspace c) && negb (eqc c 91).





(** [paragraphs l0 [(k1, l1); (k2, l2); ...]]: the line [l0], then [k1]
    blank lines, that is [k1 + 1] newlines, then the line [l1], and so
    on. *)
Fixpoint paragraphs (l0 : str) (rest : list (nat * str)) : str :=
  match rest with
  | [] => l0
  | (k, l) :: rest' => l0 ++ repeat NL (S k) ++ paragraphs l rest'
  end.





End Layout.

(* ======================================================================= *)
(** * Predicates used to state the properties *)
(* ======================================================================= *)

Module TextSpec.
Import Py.

(** The string starts with a character that is not white space. *)
Definition starts_plain (s : str) : bool :=
  match s with
  | c :: _ => negb (isspace c)
  | [] => false
  end.

(** The string ends with a character that is not white space. *)
Definition ends_plain (s : str) : bool := starts_plain (rev s).

(** The white space of a cleaned text: the space and the newline. *)
Definition ws_ok (c : char) : bool :=
  negb (isspace c) || eqc c SP || eqc c NL.

(** Every space stands between two characters that are not white space;
    [prev_plain] tells whether the character before [s] is one. *)
Fixpoint spaces_inside (prev_plain : bool) (s : str) : bool :=
  match s with
  | [] => true
  | c :: s' =>
      (if eqc c SP then prev_plain && starts_plain s' else true)
      && spaces_inside (negb (isspace c)) s'
  end.

(** A tidy text: no white space but spaces and newlines, every space
    between two characters that are not white space, and no white space
    at either end. *)
Definition tidy (s : str) : bool :=
  forallb ws_ok s && spaces_inside false s
  && match s with
     | [] => true
     | _ => starts_plain s && ends_plain s
     end.

(** After the runs of horizontal white space are replaced: such a
    character is a space, and the next character is not one of them. *)
Definition starts_nonh (s : str) : bool :=
  match s with
  | c :: _ => negb (Re.hspace c)
  | [] => true
  end.

Fixpoint squeezed (s : str) : bool :=
  match s with
  | [] => true
  | c :: s' =>
      (if Re.hspace c then eqc c SP && starts_nonh s' else true)
      && squeezed s'
  end.


End TextSpec.

Module LettersSpec.
Import Py Re Letters.

(** What [find_letter_regions] promises of a region [(start, stop)]. *)
Definition region_ok (ls : list str) (r : nat * nat) : Prop :=
  (1 <= fst r <= snd r)%nat /\ (snd r <= length ls)%nat
  /\ (exists l, nth_error ls (fst r - 1) = Some l
                /\ strip l = lit "THE EPISTLES OF SENECA")
  /\ Forall (fun l => ends_region (strip l) = false)
            (slice ls (fst r) (snd r))
  /\ (snd r = length ls
      \/ exists l, nth_error ls (snd r) = Some l
                   /\ (ends_region (strip l) = true
                       \/ strip l = lit "THE EPISTLES OF SENECA")).

(** The lines held by a list of raw letters, in order. *)
Definition kept (out : list raw_letter) : list str :=
  concat (map lines out).

End LettersSpec.

Module DiscoursesSpec.
Import Py Re Discourses.

(** A line as [parse_discourses] stores it in a chapter: stripped, and
    none of the lines the loop treats in another way. *)
Definition plain_line (l : str) : bool :=
  eqs (strip l) l
  && negb (is_noise_line l)
  && negb (matches RE_NOTES_HEADER l)
  && negb (matches RE_DISCOURSES_SEPARATOR l)
  && negb (matches RE_NOTE_LINE l)
  && is_none (re_match RE_BOOK_HEADER l)
  && is_none (re_match RE_CHAPTER_HEADER l).

(** What the loop of [parse_manual] keeps true of its variables. *)
Definition manual_inv (st : mstate) : Prop :=
  match m_current_num st with
  | None => m_sections st = []
  | Some c =>
      (1 <= c <= 53)%Z
      /\ Forall (fun s => (1 <= sec_number s < c)%Z) (m_sections st)
      /\ StronglySorted Z.lt (map sec_number (m_sections st))
  end.

End DiscoursesSpec.

Module MeditationsSpec.
Import Py Re Meditations.

(** The lines [split_into_books] reads as book headers, and the lines it
    appends to the open book. *)
Definition header_line (l : str) : bool :=
  negb (is_none (re_match RE_BOOK_HEADER (strip l))).

Definition content_line (l : str) : bool :=
  is_none (re_match RE_BOOK_HEADER (strip l))
  && negb (matches RE_SEPARATOR (strip l)).

(** The two anchors of [strip_header_footer]. *)
Definition has_line (w : str) (ls : list str) : Prop :=
  exists l, In l ls /\ strip l = w.

(** [k] is the first, or the last, index of a line that reads [w]. *)
Definition first_at (w : str) (ls : list str) (k : nat) : Prop :=
  (exists l, nth_error ls k = Some l /\ strip l = w)
  /\ forall j l, (j < k)%nat -> nth_error ls j = Some l -> strip l <> w.

Definition last_at (w : str) (ls : list str) (k : nat) : Prop :=
  (exists l, nth_error ls k = Some l /\ strip l = w)
  /\ forall j l, (k < j)%nat -> nth_error ls j = Some l -> strip l <> w.

End MeditationsSpec.

Module ShortnessSpec.
Import Py Re Shortness.


End ShortnessSpec.

(* ----------------------------------------------------------------------- *)
(* Properties                                                              *)
(* ----------------------------------------------------------------------- *)

Unset Implicit Arguments.

(* ======================================================================= *)
(** * Facts about strings *)
(* ======================================================================= *)

Module PyFacts.

Lemma eqc_eq (a b : char) : eqc a b = true <-> a = b.
Proof. unfold eqc. apply N.eqb_eq. Qed.

Lemma eqc_refl (a : char) : eqc a a = true.
Proof. apply eqc_eq. reflexivity. Qed.

Lemma eqc_neq (a b : char) : eqc a b = false <-> a <> b.
Proof. unfold eqc. apply N.eqb_neq. Qed.

Lemma eqs_eq (a b : str) : eqs a b = true <-> a = b.
Proof.
  revert b. induction a as [|x a IH]; intros [|y b]; simpl;
    try (split; [discriminate | discriminate]); try tauto.
  rewrite andb_true_iff, eqc_eq, IH.
  split; [intros [-> ->]; reflexivity | intros H; inversion H; auto].
Qed.

Lemma eqs_refl (a : str) : eqs a a = true.
Proof. apply eqs_eq. reflexivity. Qed.

Lemma truthy_false (s : str) : truthy s = false <-> s = [].
Proof. destruct s; simpl; split; congruence. Qed.

(** ** [dropwhile] *)

Lemma dropwhile_head (p : char -> bool) (s : str) (c : char) (r : str) :
  dropwhile p s = c :: r -> p c = false.
Proof.
  induction s as [|x s IH]; simpl; [discriminate|].
  destruct (p x) eqn:E; [exact IH|].
  intros H; inversion H; subst; exact E.
Qed.

Lemma dropwhile_keep (p : char -> bool) (c : char) (r : str) :
  p c = false -> dropwhile p (c :: r) = c :: r.
Proof. intros H; simpl; rewrite H; reflexivity. Qed.

Lemma dropwhile_split (p : char -> bool) (s : str) :
  exists pre, s = pre ++ dropwhile p s /\ forallb p pre = true.
Proof.
  induction s as [|x s [pre [Hs Hp]]]; simpl.
  - exists []; auto.
  - destruct (p x) eqn:E.
    + exists (x :: pre); simpl; rewrite E, Hp; split; [f_equal; exact Hs|auto].
    + exists []; auto.
Qed.

Lemma dropwhile_all (p : char -> bool) (s : str) :
  forallb p s = true -> dropwhile p s = [].
Proof.
  induction s as [|x s IH]; simpl; [auto|].
  intros H; apply andb_true_iff in H; destruct H as [-> H]; auto.
Qed.

Lemma dropwhile_app_stop (p : char -> bool) (pre : str) (c : char) (r : str) :
  forallb p pre = true -> p c = false ->
  dropwhile p (pre ++ c :: r) = c :: r.
Proof.
  induction pre as [|x pre IH]; simpl; intros Hp Hc.
  - rewrite Hc; reflexivity.
  - apply andb_true_iff in Hp; destruct Hp as [-> Hp]; auto.
Qed.

(** ** [rstrip], [strip] *)

Lemma rstrip_by_split (p : char -> bool) (s : str) :
  exists w, s = rstrip_by p s ++ w /\ forallb p w = true.
Proof.
  unfold rstrip_by.
  destruct (dropwhile_split p (rev s)) as [pre [Hs Hp]].
  exists (rev pre). split.
  - rewrite <- rev_app_distr, <- Hs, rev_involutive; reflexivity.
  - rewrite forallb_forall in *. intros x Hx. apply Hp.
    apply in_rev; exact Hx.
Qed.

Lemma rstrip_by_last (p : char -> bool) (s r : str) (c : char) :
  rstrip_by p s = r ++ [c] -> p c = false.
Proof.
  unfold rstrip_by. intros H.
  apply (f_equal (@rev char)) in H.
  rewrite rev_involutive, rev_app_distr in H. simpl in H.
  eapply dropwhile_head; exact H.
Qed.

Lemma rstrip_by_keep (p : char -> bool) (r : str) (c : char) :
  p c = false -> rstrip_by p (r ++ [c]) = r ++ [c].
Proof.
  intros H. unfold rstrip_by.
  rewrite rev_app_distr. simpl. rewrite H. simpl.
  rewrite rev_involutive. reflexivity.
Qed.

Lemma rstrip_by_nil (p : char -> bool) : rstrip_by p [] = [].
Proof. reflexivity. Qed.

(** A stripped string is empty or starts with a character that is not
    white space. *)
Lemma strip_head (s : str) (c : char) (r : str) :
  strip s = c :: r -> isspace c = false.
Proof.
  unfold strip, rstrip, lstrip. intros H.
  destruct (rstrip_by_split isspace (dropwhile isspace s)) as [w [Hw _]].
  rewrite H in Hw. simpl in Hw.
  eapply dropwhile_head; exact Hw.
Qed.

(** ... and ends with one. *)
Lemma strip_last (s r : str) (c : char) :
  strip s = r ++ [c] -> isspace c = false.
Proof. unfold strip, rstrip. apply rstrip_by_last. Qed.

(** A string that neither starts nor ends with white space is its own
    stripped form. *)
Lemma strip_fixed (s : str) :
  (forall c r, s = c :: r -> isspace c = false) ->
  (forall r c, s = r ++ [c] -> isspace c = false) ->
  strip s = s.
Proof.
  intros Hh Hl. unfold strip, lstrip, rstrip.
  destruct s as [|c r]; [reflexivity|].
  rewrite dropwhile_keep by (eapply Hh; reflexivity).
  destruct (exists_last (l := c :: r)) as [r' [c' E]]; [discriminate|].
  rewrite E. apply rstrip_by_keep. eapply Hl; exact E.
Qed.

Lemma strip_idem (s : str) : strip (strip s) = strip s.
Proof.
  apply strip_fixed.
  - intros c r. apply strip_head.
  - intros r c. apply strip_last.
Qed.

Lemma strip_nil : strip [] = [].
Proof. reflexivity. Qed.

(** A string without white space is its own stripped form. *)
Lemma strip_no_space (s : str) :
  forallb (fun c => negb (isspace c)) s = true -> strip s = s.
Proof.
  intros H. rewrite forallb_forall in H.
  apply strip_fixed.
  - intros c r ->. apply negb_true_iff. apply H. left; reflexivity.
  - intros r c ->. apply negb_true_iff. apply H.
    apply in_or_app. right. left. reflexivity.
Qed.

End PyFacts.

(* ======================================================================= *)
(** * Facts about patterns *)
(* ======================================================================= *)

Module ReFacts.
Import PyFacts.

(** ** Repetition of a class *)

(** Every remainder a repetition offers is what is left of the subject
    after at least [min] characters of the class. *)
Lemma rep_spec (g : bool) (p : char -> bool) (s : str) :
  forall (min : nat) (s' : str),
    In s' (rep g min p s) ->
    exists pre, s = pre ++ s' /\ forallb p pre = true
                /\ (min <= length pre)%nat.
Proof.
  induction s as [|c s IH]; intros min s' Hin; simpl in Hin.
  - destruct min; simpl in Hin; [|contradiction].
    destruct Hin as [<-|[]]. exists []. simpl. auto.
  - assert (Hstop : In s' (match min with O => [c :: s] | S _ => [] end) ->
                    exists pre, c :: s = pre ++ s' /\ forallb p pre = true
                                /\ (min <= length pre)%nat).
    { destruct min; simpl; [|contradiction].
      intros [<-|[]]. exists []. simpl. auto. }
    assert (Hmore : In s' (if p c then rep g (pred min) p s else []) ->
                    exists pre, c :: s = pre ++ s' /\ forallb p pre = true
                                /\ (min <= length pre)%nat).
    { destruct (p c) eqn:E; [|contradiction].
      intros H. destruct (IH _ _ H) as [pre [Hs [Hp Hl]]].
      exists (c :: pre). simpl. rewrite E, Hp. subst s.
      repeat split; auto. lia. }
    destruct g; apply in_app_or in Hin; destruct Hin; auto.
Qed.

(** A greedy repetition first offers the longest run. *)
Lemma rep_greedy_head (p : char -> bool) (xs rest : str) :
  forall min : nat,
    forallb p xs = true ->
    (forall c r, rest = c :: r -> p c = false) ->
    (min <= length xs)%nat ->
    exists others, rep true min p (xs ++ rest) = rest :: others.
Proof.
  induction xs as [|x xs IH]; intros min Hp Hrest Hmin; simpl in *.
  - assert (min = 0)%nat by lia. subst min.
    destruct rest as [|c r]; simpl.
    + exists []. reflexivity.
    + rewrite (Hrest c r eq_refl). simpl. exists []. reflexivity.
  - apply andb_true_iff in Hp. destruct Hp as [Hx Hp]. rewrite Hx.
    destruct (IH (pred min) Hp Hrest ltac:(lia)) as [others ->].
    simpl. eexists. reflexivity.
Qed.


(** ** Patterns that consume nothing, first characters *)

Lemma zero_width_run (total : nat) (r : regex) :
  zero_width r = true ->
  forall s cs m, In m (run total r s cs) -> fst m = s.
Proof.
  induction r; simpl; intros Hz s cs m Hin; try discriminate.
  - destruct (Nat.eqb _ _); [|contradiction].
    destruct Hin as [<-|[]]; reflexivity.
  - destruct s as [|c [|c' s]]; try contradiction.
    + destruct Hin as [<-|[]]; reflexivity.
    + destruct (eqc c NL); [|contradiction].
      destruct Hin as [<-|[]]; reflexivity.
  - apply andb_true_iff in Hz. destruct Hz as [Hz1 Hz2].
    apply in_flat_map in Hin. destruct Hin as [m1 [H1 H2]].
    rewrite (IHr2 Hz2 _ _ _ H2). apply (IHr1 Hz1 _ _ _ H1).
  - apply andb_true_iff in Hz. destruct Hz as [Hz1 Hz2].
    apply in_app_or in Hin. destruct Hin; eauto.
  - apply in_app_or in Hin. destruct Hin as [H|[<-|[]]]; eauto.
  - apply in_map_iff in Hin. destruct Hin as [m1 [<- H1]]. simpl. eauto.
  - destruct Hin as [<-|[]]; reflexivity.
Qed.

(** If the first character fails [accepts], the pattern has no match. *)
Lemma accepts_sound (total : nat) (r : regex) (c : char) :
  accepts r c = false ->
  forall s cs, run total r (c :: s) cs = [].
Proof.
  induction r; simpl; intros Ha s cs; try discriminate.
  - rewrite Ha. destruct s; reflexivity.
  - rewrite Ha. reflexivity.
  - destruct min; [discriminate|]. rewrite Ha.
    destruct greedy; reflexivity.
  - apply andb_false_iff in Ha. destruct Ha as [Ha|Ha].
    + rewrite (IHr1 Ha). reflexivity.
    + destruct (zero_width r1) eqn:Z; [|discriminate].
      destruct (run total r1 (c :: s) cs) as [|m l] eqn:E; [reflexivity|].
      assert (Hall : forall m', In m' (m :: l) -> fst m' = c :: s).
      { intros m' Hm'. rewrite <- E in Hm'.
        eapply zero_width_run; eauto. }
      clear E. induction (m :: l) as [|m' l' IHl]; [reflexivity|].
      simpl. rewrite (Hall m' (or_introl eq_refl)). rewrite (IHr2 Ha).
      simpl. apply IHl. intros; apply Hall; right; auto.
  - apply orb_false_iff in Ha. destruct Ha as [Ha1 Ha2].
    rewrite (IHr1 Ha1), (IHr2 Ha2). reflexivity.
  - rewrite (IHr Ha). reflexivity.
Qed.

Lemma matches_accepts (r : regex) (c : char) (s : str) :
  matches r (c :: s) = true -> accepts r c = true.
Proof.
  unfold matches, re_match. intros H.
  destruct (accepts r c) eqn:E; [reflexivity|].
  rewrite (accepts_sound _ _ _ E) in H. discriminate.
Qed.

Lemma re_match_accepts (r : regex) (c : char) (s : str) m :
  re_match r (c :: s) = Some m -> accepts r c = true.
Proof.
  intros H. apply (@matches_accepts r c s). unfold matches. rewrite H.
  reflexivity.
Qed.

Lemma not_accepts_no_match (r : regex) (c : char) (s : str) :
  accepts r c = false -> re_match r (c :: s) = None.
Proof.
  intros H. unfold re_match. rewrite (accepts_sound _ _ _ H). reflexivity.
Qed.

Lemma not_accepts_matches (r : regex) (c : char) (s : str) :
  accepts r c = false -> matches r (c :: s) = false.
Proof.
  intros H. unfold matches. rewrite (@not_accepts_no_match r c s H). reflexivity.
Qed.

Lemma matches_re_match (r : regex) (s : str) :
  matches r s = true <-> exists m, re_match r s = Some m.
Proof.
  unfold matches. destruct (re_match r s).
  - split; eauto.
  - split; [discriminate | intros [m H]; discriminate].
Qed.

Lemma matches_false (r : regex) (s : str) :
  matches r s = false <-> re_match r s = None.
Proof.
  unfold matches. destruct (re_match r s); split; congruence.
Qed.

End ReFacts.

(* ======================================================================= *)
(** * Roman numerals *)
(* ======================================================================= *)

Module RomanFacts.
Import Roman.

(** The loop of [int_to_roman] leaves less than [value]: the fuel does not
    cut it short. *)
Lemma emit_while_done (fuel : nat) (numeral : str) (value n : Z)
  (result : list str) :
  (1 <= value)%Z -> (Z.to_nat n <= fuel)%nat ->
  (fst (emit_while fuel numeral value (n, result)) < value)%Z.
Proof.
  revert n result.
  induction fuel as [|fuel IH]; intros n result Hv Hf; simpl.
  - lia.
  - destruct (n >=? value)%Z eqn:E.
    + apply IH; lia.
    + simpl. lia.
Qed.

(** Any fuel that covers [n] gives the same result. *)
Lemma emit_while_enough (numeral : str) (value : Z) :
  (1 <= value)%Z ->
  forall (f1 f2 : nat) (n : Z) (result : list str),
    (Z.to_nat n <= f1)%nat -> (Z.to_nat n <= f2)%nat ->
    emit_while f1 numeral value (n, result)
    = emit_while f2 numeral value (n, result).
Proof.
  intros Hv. induction f1 as [|f1 IH]; intros f2 n result H1 H2.
  - destruct f2 as [|f2]; [reflexivity|]. simpl.
    destruct (n >=? value)%Z eqn:E; [|reflexivity].
    apply Z.geb_le in E. lia.
  - destruct f2 as [|f2]; simpl.
    + destruct (n >=? value)%Z eqn:E; [|reflexivity].
      apply Z.geb_le in E. lia.
    + destruct (n >=? value)%Z eqn:E; [|reflexivity].
      apply Z.geb_le in E. apply IH; lia.
Qed.

(** The loop of [roman_to_int] stops by itself: past the end of [s] the
    slice is empty, and any fuel that covers the rest of [s] gives the
    same result. *)
Lemma slice_past_end (s numeral : str) (i : nat) :
  numeral <> [] -> (length s <= i)%nat ->
  eqs (firstn (length numeral) (skipn i s)) numeral = false.
Proof.
  intros Hne Hi. rewrite skipn_all2 by exact Hi. rewrite firstn_nil.
  destruct numeral; [contradiction | reflexivity].
Qed.

Lemma read_while_enough (s numeral : str) (value : Z) :
  numeral <> [] ->
  forall (f1 f2 : nat) (result : Z) (i : nat),
    (length s - i <= f1)%nat -> (length s - i <= f2)%nat ->
    read_while f1 s numeral value (result, i)
    = read_while f2 s numeral value (result, i).
Proof.
  intros Hne.
  assert (Hlen : (1 <= length numeral)%nat)
    by (destruct numeral; [contradiction | simpl; lia]).
  induction f1 as [|f1 IH]; intros f2 result i H1 H2.
  - destruct f2 as [|f2]; [reflexivity|]. simpl.
    rewrite slice_past_end by (auto; lia). reflexivity.
  - destruct f2 as [|f2]; simpl.
    + rewrite slice_past_end by (auto; lia). reflexivity.
    + destruct (eqs _ numeral) eqn:E; [|reflexivity].
      assert (Hi : (i < length s)%nat).
      { destruct (le_lt_dec (length s) i) as [Hle|Hlt]; [|exact Hlt].
        rewrite slice_past_end in E by auto. discriminate. }
      apply IH; lia.
Qed.

Lemma roundtrip_checked :
  forallb (fun k => roundtrip_ok (Z.of_nat k)) (seq 1 124) = true.
Proof. vm_compute. reflexivity. Qed.

Lemma roundtrip_ok_range (n : Z) :
  (1 <= n <= 124)%Z -> roundtrip_ok n = true.
Proof.
  intros Hn.
  pose proof roundtrip_checked as H.
  rewrite forallb_forall in H.
  specialize (H (Z.to_nat n)).
  rewrite Z2Nat.id in H by lia.
  apply H. apply in_seq. lia.
Qed.

(** C1. For every integer [n] with [1 <= n <= 124], reading the numeral
    that [int_to_roman] writes for [n] with [roman_to_int] gives [n] back,
    and that numeral uses only the letters I, V, X, L, C, D, M. *)
Theorem roman_roundtrip (n : Z) :
  (1 <= n <= 124)%Z ->
  roman_to_int (int_to_roman n) = n
  /\ Forall (fun c => In c alphabet) (int_to_roman n).
Proof.
  intros Hn.
  pose proof (roundtrip_ok_range n Hn) as H.
  unfold roundtrip_ok in H.
  apply andb_true_iff in H. destruct H as [Hrt Hal].
  split.
  - apply Z.eqb_eq. exact Hrt.
  - apply Forall_forall. intros c Hc.
    rewrite forallb_forall in Hal.
    specialize (Hal c Hc).
    apply existsb_exists in Hal. destruct Hal as [a [Ha Hca]].
    apply N.eqb_eq in Hca. subst a. exact Ha.
Qed.

Lemma roman_roundtrip_witness :
  (1 <= 91 <= 124)%Z
  /\ roman_to_int (int_to_roman 91) = 91%Z
  /\ Forall (fun c => In c alphabet) (int_to_roman 91).
Proof.
  split; [lia | apply (@roman_roundtrip 91); lia].
Defined.

End RomanFacts.

(* ======================================================================= *)
(** * Word counts of the emitted sections *)
(* ======================================================================= *)

Module WordCount.

Lemma letters (raw : list Letters.raw_letter) :
  Forall (fun s => Letters.word_count s
                   = Z.of_nat (length (split_ws (Letters.text s))))
         (Letters.build_sections raw).
Proof.
  induction raw as [|l raw IH]; [constructor|].
  cbn [Letters.build_sections].
  destruct (Letters.build_section l) as [s|] eqn:E; [|exact IH].
  constructor; [|exact IH].
  unfold Letters.build_section in E.
  destruct (negb (truthy _)); [discriminate|].
  injection E as <-; reflexivity.
Qed.

Lemma collect_ok {A} (f : A -> option Discourses.section) (items : list A) :
  (forall x s, f x = Some s ->
     Discourses.word_count s
     = Z.of_nat (length (split_ws (Discourses.text s)))) ->
  Forall (fun s => Discourses.word_count s
                   = Z.of_nat (length (split_ws (Discourses.text s))))
         (Discourses.collect f items).
Proof.
  intros Hf. induction items as [|x items IH]; [constructor|].
  cbn [Discourses.collect].
  destruct (f x) as [s|] eqn:E; [|exact IH].
  constructor; [eapply Hf; exact E | exact IH].
Qed.

Lemma discourses (preface_text : str) (chs : list Discourses.raw_chapter)
  (fragments : list Discourses.fragment)
  (manual_sections : list Discourses.manual_section) :
  Forall (fun s => Discourses.word_count s
                   = Z.of_nat (length (split_ws (Discourses.text s))))
         (Discourses.build_sections preface_text chs fragments
            manual_sections).
Proof.
  unfold Discourses.build_sections.
  apply Forall_app; split;
    [|apply Forall_app; split; [|apply Forall_app; split]].
  - unfold Discourses.preface_sections.
    destruct (truthy preface_text); repeat constructor.
  - apply collect_ok. intros ch s. unfold Discourses.chapter_section.
    destruct (negb (truthy _)); [discriminate|].
    intros H; injection H as <-; reflexivity.
  - apply collect_ok. intros fr s. unfold Discourses.fragment_section.
    destruct (negb (truthy _)); [discriminate|].
    intros H; injection H as <-; reflexivity.
  - apply collect_ok. intros ms s. unfold Discourses.manual_section_of.
    destruct (negb (truthy _)); [discriminate|].
    intros H; injection H as <-; reflexivity.
Qed.

Lemma meditations_book (book_num : Z) (raw_sections : list str) :
  forall sec_idx : Z,
    Forall (fun s => Meditations.word_count s
                     = Z.of_nat (length (split_ws (Meditations.text s))))
           (Meditations.book_sections book_num sec_idx raw_sections).
Proof.
  induction raw_sections as [|t raw IH]; intros sec_idx; [constructor|].
  cbn [Meditations.book_sections].
  destruct (negb (truthy _)); [apply IH|].
  constructor; [reflexivity | apply IH].
Qed.

Lemma meditations (bks : list (Z * list str)) :
  Forall (fun s => Meditations.word_count s
                   = Z.of_nat (length (split_ws (Meditations.text s))))
         (Meditations.build_sections bks).
Proof.
  unfold Meditations.build_sections.
  induction bks as [|b bks IH]; [constructor|].
  cbn [flat_map].
  apply Forall_app. split; [apply meditations_book | exact IH].
Qed.

Lemma shortness (raw : list Shortness.raw_chapter) :
  Forall (fun s => Shortness.word_count s
                   = Z.of_nat (length (split_ws (Shortness.text s))))
         (Shortness.build_sections raw).
Proof.
  induction raw as [|c raw IH]; [constructor|].
  cbn [Shortness.build_sections].
  destruct (Shortness.build_section c) as [s|] eqn:E; [|exact IH].
  constructor; [|exact IH].
  unfold Shortness.build_section in E.
  destruct (negb (truthy _)); [discriminate|].
  injection E as <-; reflexivity.
Qed.

(** C3. In each of the four scripts, every section record that
    [build_sections] emits carries as [word_count] the number of
    whitespace-delimited tokens of its own [text], [len(text.split())]. *)
Theorem word_count_is_token_count :
  (forall raw,
     Forall (fun s => Letters.word_count s
                      = Z.of_nat (length (split_ws (Letters.text s))))
            (Letters.build_sections raw))
  /\ (forall preface_text chs fragments manual_sections,
        Forall (fun s => Discourses.word_count s
                         = Z.of_nat (length (split_ws (Discourses.text s))))
               (Discourses.build_sections preface_text chs fragments
                  manual_sections))
  /\ (forall bks,
        Forall (fun s => Meditations.word_count s
                         = Z.of_nat (length (split_ws (Meditations.text s))))
               (Meditations.build_sections bks))
  /\ (forall raw,
        Forall (fun s => Shortness.word_count s
                         = Z.of_nat (length (split_ws (Shortness.text s))))
               (Shortness.build_sections raw)).
Proof.
  repeat split.
  - apply letters.
  - apply discourses.
  - apply meditations.
  - apply shortness.
Qed.

End WordCount.

(* ======================================================================= *)
(** * The footnote tail of a letter *)
(* ======================================================================= *)

Module FootnoteTail.
Import PyFacts ReFacts Letters.

(** The pattern [^↑] holds of the strings that start with the
    arrow. *)
Lemma footnote_line_iff (s : str) :
  matches RE_FOOTNOTE_LINE s = true <-> exists r, s = UP_ARROW :: r.
Proof.
  split.
  - destruct s as [|c r]; [discriminate|].
    intros H. apply matches_accepts in H. simpl in H.
    apply eqc_eq in H. subst c. eauto.
  - intros [r ->]. unfold matches, re_match, RE_FOOTNOTE_LINE. simpl.
    rewrite Nat.eqb_refl. simpl. reflexivity.
Qed.

(** Once the footnote flag is set, no line changes the cleaned lines. *)
Lemma clean_step_in_footnotes (cleaned : list str) (line : str) :
  clean_step (cleaned, true) line = (cleaned, true).
Proof.
  unfold clean_step.
  destruct (_ && _); [reflexivity|].
  destruct (matches RE_FOOTNOTE_LINE (strip line)); [reflexivity|].
  destruct (eqs (strip line) []); reflexivity.
Qed.

Lemma clean_fold_in_footnotes (post : list str) (cleaned : list str) :
  fold_left clean_step post (cleaned, true) = (cleaned, true).
Proof.
  induction post as [|l post IH]; [reflexivity|].
  cbn [fold_left]. rewrite clean_step_in_footnotes. exact IH.
Qed.

(** A footnote line sets the flag and adds nothing. *)
Lemma clean_step_footnote_line (st : list str * bool) (fn : str) :
  (exists r, strip fn = UP_ARROW :: r) ->
  clean_step st fn = (fst st, true).
Proof.
  intros Hfn. destruct st as [cleaned f]. unfold clean_step.
  assert (Hm : matches RE_FOOTNOTE_LINE (strip fn) = true)
    by (apply footnote_line_iff; exact Hfn).
  destruct Hfn as [r E]. rewrite E in *. simpl truthy. simpl negb.
  rewrite andb_false_r. rewrite Hm. reflexivity.
Qed.

(** C10. Once [clean_letter_text] meets a line that (stripped) starts with
    the footnote arrow, that line and every later line of the letter,
    blank, footnote-shaped or plain prose alike, add nothing: the result
    is the text of the lines before it. *)
Theorem footnote_tail_suppressed (pre : list str) (fn : str)
  (post : list str) (letter_num : Z) :
  (exists r, strip fn = UP_ARROW :: r) ->
  clean_letter_text (pre ++ fn :: post) letter_num
  = clean_letter_text pre letter_num.
Proof.
  intros Hfn. unfold clean_letter_text.
  rewrite fold_left_app. cbn [fold_left].
  rewrite (clean_step_footnote_line _ _ Hfn).
  rewrite clean_fold_in_footnotes. reflexivity.
Qed.

Lemma footnote_tail_suppressed_witness :
  (exists r, strip (UP_ARROW :: lit " Cf. Ep. i.") = UP_ARROW :: r)
  /\ clean_letter_text
       ([lit "Farewell."] ++ (UP_ARROW :: lit " Cf. Ep. i.")
          :: [[]; lit "plain prose"]) 5
     = clean_letter_text [lit "Farewell."] 5.
Proof.
  assert (H : exists r, strip (UP_ARROW :: lit " Cf. Ep. i.") = UP_ARROW :: r)
    by (eexists; vm_compute; reflexivity).
  split; [exact H | apply (footnote_tail_suppressed _ _ _ _ H)].
Defined.

End FootnoteTail.

(* ======================================================================= *)
(** * What a match tells about the subject *)
(* ======================================================================= *)

Module MatchShape.
Import PyFacts ReFacts.

(** A match consumes a word of the pattern's language. *)
Lemma run_sound (total : nat) (r : regex) :
  forall s cs m, In m (run total r s cs) ->
                 exists w, s = w ++ fst m /\ lang r w.
Proof.
  induction r; simpl; intros s cs m Hin.
  - destruct (Nat.eqb _ _); [|contradiction].
    destruct Hin as [<-|[]]. exists []. auto.
  - destruct s as [|c [|c' s]]; try contradiction.
    + destruct Hin as [<-|[]]. exists []. auto.
    + destruct (eqc c NL); [|contradiction].
      destruct Hin as [<-|[]]. exists []. auto.
  - destruct s as [|c s]; [contradiction|].
    destruct (p c) eqn:E; [|contradiction].
    destruct Hin as [<-|[]]. exists [c]. simpl. eauto.
  - apply in_map_iff in Hin. destruct Hin as [s' [<- Hin]].
    destruct (rep_spec _ _ _ _ _ Hin) as [pre [Hs [Hp Hl]]].
    exists pre. simpl. auto.
  - apply in_flat_map in Hin. destruct Hin as [m1 [H1 H2]].
    destruct (IHr1 _ _ _ H1) as [w1 [Hs1 L1]].
    destruct (IHr2 _ _ _ H2) as [w2 [Hs2 L2]].
    exists (w1 ++ w2). split.
    + rewrite <- app_assoc, <- Hs2. exact Hs1.
    + exists w1, w2. auto.
  - apply in_app_or in Hin. destruct Hin as [H|H].
    + destruct (IHr1 _ _ _ H) as [w [Hs L]]. exists w. auto.
    + destruct (IHr2 _ _ _ H) as [w [Hs L]]. exists w. auto.
  - apply in_app_or in Hin. destruct Hin as [H|[<-|[]]].
    + destruct (IHr _ _ _ H) as [w [Hs L]]. exists w. auto.
    + exists []. auto.
  - apply in_map_iff in Hin. destruct Hin as [m1 [<- H1]].
    destruct (IHr _ _ _ H1) as [w [Hs L]]. exists w. auto.
  - destruct Hin as [<-|[]]. exists []. auto.
Qed.

(** After a pattern that ends in [$] nothing is left but, at most, a final
    newline. *)
Lemma run_anchored_end (total : nat) (r : regex) :
  anchored_end r = true ->
  forall s cs m, In m (run total r s cs) -> fst m = [] \/ fst m = [NL].
Proof.
  induction r; simpl; intros Ha s cs m Hin; try discriminate.
  - destruct s as [|c [|c' s]]; try contradiction.
    + destruct Hin as [<-|[]]. auto.
    + destruct (eqc c NL) eqn:E; [|contradiction].
      destruct Hin as [<-|[]]. apply eqc_eq in E. subst. auto.
  - apply in_flat_map in Hin. destruct Hin as [m1 [H1 H2]]. eauto.
Qed.

Lemma isspace_NL : isspace NL = true.
Proof. reflexivity. Qed.

(** On a stripped line, a pattern that ends in [$] consumes the whole
    line. *)
Lemma stripped_match_lang (r : regex) (line : str) (m : str * caps) :
  anchored_end r = true ->
  re_match r (strip line) = Some m ->
  fst m = [] /\ lang r (strip line).
Proof.
  intros Ha Hm. unfold re_match in Hm.
  destruct (run _ r (strip line) []) as [|m' l] eqn:E; [discriminate|].
  simpl in Hm. injection Hm as ->.
  assert (Hin : In m (run (length (strip line)) r (strip line) []))
    by (rewrite E; left; reflexivity).
  destruct (run_sound _ _ _ _ _ Hin) as [w [Hs L]].
  destruct (run_anchored_end _ _ Ha _ _ _ Hin) as [Hr|Hr]; rewrite Hr in Hs.
  - rewrite app_nil_r in Hs. rewrite Hs. auto.
  - pose proof (strip_last _ _ _ Hs) as Hsp.
    rewrite isspace_NL in Hsp. discriminate.
Qed.

Lemma stripped_matches_lang (r : regex) (line : str) :
  anchored_end r = true ->
  matches r (strip line) = true ->
  lang r (strip line).
Proof.
  intros Ha Hm. apply matches_re_match in Hm. destruct Hm as [m Hm].
  eapply stripped_match_lang; eauto.
Qed.

(** A subject with a match of a pattern that opens with a literal starts
    with that literal. *)
Lemma lang_lit (w s : str) : lang (Lit w) s -> s = w.
Proof.
  revert s. induction w as [|c w IH]; intros s; simpl.
  - auto.
  - destruct w as [|c' w].
    + simpl. intros [x [-> Hx]]. apply eqc_eq in Hx. subst. reflexivity.
    + intros [w1 [w2 [-> [[x [-> Hx]] L2]]]].
      apply eqc_eq in Hx. subst x. simpl. f_equal. apply IH. exact L2.
Qed.

Lemma lit_lang (w : str) : lang (Lit w) w.
Proof.
  induction w as [|c w IH]; simpl; [reflexivity|].
  destruct w as [|c' w].
  - exists c. split; [reflexivity | apply eqc_refl].
  - exists [c], (c' :: w). repeat split; auto.
    exists c. split; [reflexivity | apply eqc_refl].
Qed.

End MatchShape.

(* ======================================================================= *)
(** * Facts about substitution *)
(* ======================================================================= *)

Module SubFacts.
Import PyFacts ReFacts MatchShape.

Lemma sub_from_skip (total : nat) (r : regex) (repl pre s : str) :
  sub_from total r repl (length pre) (pre ++ s) = sub_from total r repl 0 s.
Proof.
  induction pre as [|c pre IH]; [reflexivity|]. simpl. exact IH.
Qed.

Lemma sub_from_miss (total : nat) (r : regex) (repl : str) (c : char)
  (s : str) :
  run total r (c :: s) [] = [] ->
  sub_from total r repl 0 (c :: s) = c :: sub_from total r repl 0 s.
Proof. intros H. cbn [sub_from]. rewrite H. reflexivity. Qed.

Lemma sub_from_hit (total : nat) (r : regex) (repl : str) (c : char)
  (pre rest : str) (cs : caps) (others : list (str * caps)) :
  run total r (c :: pre ++ rest) [] = (rest, cs) :: others ->
  sub_from total r repl 0 (c :: pre ++ rest)
  = repl ++ sub_from total r repl 0 rest.
Proof.
  intros H. cbn [sub_from]. rewrite H.
  replace (length (c :: pre ++ rest) - length rest)%nat
    with (S (length pre)).
  - rewrite sub_from_skip. reflexivity.
  - change (length (c :: pre ++ rest)) with (S (length (pre ++ rest))).
    rewrite length_app. lia.
Qed.

Lemma sub_from_nil (total : nat) (r : regex) (repl : str) :
  run total r [] [] = [] -> sub_from total r repl 0 [] = [].
Proof. intros H. cbn [sub_from]. rewrite H. reflexivity. Qed.



(** A pattern that no character of the subject can start finds nothing. *)
Lemma sub_rejected (total : nat) (r : regex) (repl : str) :
  run total r [] [] = [] ->
  forall s, forallb (fun c => negb (accepts r c)) s = true ->
            sub_from total r repl 0 s = s.
Proof.
  intros Hnil. induction s as [|c s IH]; intros Hs.
  - apply sub_from_nil. exact Hnil.
  - cbn [forallb] in Hs. apply andb_true_iff in Hs. destruct Hs as [Hc Hs].
    apply negb_true_iff in Hc.
    rewrite sub_from_miss by (apply accepts_sound; exact Hc).
    f_equal. apply IH. exact Hs.
Qed.

Lemma sub_rejected_prefix (total : nat) (r : regex) (repl : str)
  (pre s : str) :
  forallb (fun c => negb (accepts r c)) pre = true ->
  sub_from total r repl 0 (pre ++ s) = pre ++ sub_from total r repl 0 s.
Proof.
  induction pre as [|c pre IH]; intros H; [reflexivity|].
  cbn [forallb] in H. apply andb_true_iff in H. destruct H as [Hc Hp].
  apply negb_true_iff in Hc. cbn [app].
  rewrite sub_from_miss by (apply accepts_sound; exact Hc).
  rewrite (IH Hp). reflexivity.
Qed.


(** ** Splitting into lines and joining back *)

Lemma split_on_nonempty (sep : char) (s : str) : split_on sep s <> [].
Proof.
  destruct s as [|c s]; simpl; [discriminate|].
  destruct (eqc c sep); [discriminate|].
  destruct (split_on sep s); discriminate.
Qed.

Lemma join_split (sep : char) (s : str) : join [sep] (split_on sep s) = s.
Proof.
  induction s as [|c s IH]; [reflexivity|].
  cbn [split_on]. destruct (eqc c sep) eqn:E.
  - apply eqc_eq in E. subst c.
    pose proof (split_on_nonempty sep s) as Hne.
    destruct (split_on sep s) as [|w ws] eqn:Es; [contradiction|].
    cbn [join]. cbn [join] in IH. simpl. f_equal. exact IH.
  - pose proof (split_on_nonempty sep s) as Hne.
    destruct (split_on sep s) as [|w ws] eqn:Es; [contradiction|].
    destruct ws as [|w' ws].
    + simpl in *. f_equal. exact IH.
    + cbn [join] in *. simpl. f_equal. exact IH.
Qed.

(** The characters of the lines are characters of the text. *)
Lemma split_on_chars (sep : char) (s : str) :
  forall l c, In l (split_on sep s) -> In c l -> In c s.
Proof.
  induction s as [|x s IH]; intros l c Hl Hc.
  - simpl in Hl. destruct Hl as [<-|[]]. destruct Hc.
  - cbn [split_on] in Hl. destruct (eqc x sep).
    + destruct Hl as [<-|Hl]; [destruct Hc|]. right. eapply IH; eauto.
    + destruct (split_on sep s) as [|w ws] eqn:Es.
      * destruct Hl as [<-|[]]. destruct Hc as [<-|[]]. left. reflexivity.
      * destruct Hl as [<-|Hl].
        -- destruct Hc as [<-|Hc]; [left; reflexivity|].
           right. apply (IH w c); [left; reflexivity | exact Hc].
        -- right. apply (IH l c); [right; exact Hl | exact Hc].
Qed.

(** ... and none of them is the separator. *)
Lemma split_on_no_sep (sep : char) (s : str) :
  forall l, In l (split_on sep s) -> ~ In sep l.
Proof.
  induction s as [|x s IH]; intros l Hl Hc.
  - simpl in Hl. destruct Hl as [<-|[]]. destruct Hc.
  - cbn [split_on] in Hl. destruct (eqc x sep) eqn:E.
    + destruct Hl as [<-|Hl]; [destruct Hc|]. eapply IH; eauto.
    + apply eqc_neq in E.
      destruct (split_on sep s) as [|w ws] eqn:Es.
      * destruct Hl as [<-|[]]. destruct Hc as [Hc|[]]. congruence.
      * destruct Hl as [<-|Hl].
        -- destruct Hc as [Hc|Hc]; [congruence|].
           apply (IH w); [left; reflexivity | exact Hc].
        -- apply (IH l); [right; exact Hl | exact Hc].
Qed.

End SubFacts.

(* ======================================================================= *)
(** * Captured groups *)
(* ======================================================================= *)

Module Captures.
Import PyFacts ReFacts MatchShape.

(** A group binds the word its pattern consumed, on top of the bindings
    made inside it. *)
Lemma run_grp (total n : nat) (r : regex) (s : str) (cs : caps)
  (m : str * caps) :
  In m (run total (Grp n r) s cs) ->
  exists w cs', lang r w /\ s = w ++ fst m /\ snd m = (n, w) :: cs'.
Proof.
  cbn [run]. intros Hin. apply in_map_iff in Hin.
  destruct Hin as [m1 [<- H1]].
  destruct (run_sound total r s cs m1 H1) as [w [Hs HL]].
  exists w, (snd m1). cbn [fst snd]. subst s.
  split; [exact HL|]. split; [reflexivity|].
  rewrite length_app, Nat.add_sub.
  rewrite firstn_app, Nat.sub_diag, firstn_all, firstn_0, app_nil_r.
  reflexivity.
Qed.

Lemma lang_alts (ws : list str) (w : str) :
  lang (Meditations.Alts ws) w -> ws <> [] -> In w ws.
Proof.
  induction ws as [|a ws IH]; intros HL Hne; [contradiction|].
  destruct ws as [|b ws].
  - cbn [Meditations.Alts] in HL. apply lang_lit in HL. left. auto.
  - cbn [Meditations.Alts lang] in HL. destruct HL as [HL|HL].
    + apply lang_lit in HL. left. auto.
    + right. apply IH; [exact HL | discriminate].
Qed.

(** The word captured by the book header of the Meditations is a key of
    [WORD_TO_NUM]: the lookup in [split_into_books] cannot fail. *)
Lemma book_word_is_key (s : str) (m : str * caps) :
  re_match Meditations.RE_BOOK_HEADER s = Some m ->
  exists n, Meditations.WORD_TO_NUM (group_str (snd m) 1) = Some n.
Proof.
  unfold re_match. intros H.
  destruct (run _ Meditations.RE_BOOK_HEADER s []) as [|m' l] eqn:E;
    [discriminate|].
  simpl in H. injection H as ->.
  assert (Hin : In m (run (length s) Meditations.RE_BOOK_HEADER s []))
    by (rewrite E; left; reflexivity).
  clear E. unfold Meditations.RE_BOOK_HEADER in Hin.
  cbn [Seq] in Hin.
  change (run (length s)
            (Cat Bol
               (Cat (Lit (lit "BOOK"))
                  (Cat (Plus space)
                     (Cat (Grp 1 (Meditations.Alts Meditations.book_words))
                        Eol)))) s [])
    with (flat_map (fun m1 =>
            flat_map (fun m2 =>
              flat_map (fun m3 =>
                flat_map (fun m4 => run (length s) Eol (fst m4) (snd m4))
                  (run (length s)
                     (Grp 1 (Meditations.Alts Meditations.book_words))
                     (fst m3) (snd m3)))
                (run (length s) (Plus space) (fst m2) (snd m2)))
              (run (length s) (Lit (lit "BOOK")) (fst m1) (snd m1)))
            (run (length s) Bol s [])) in Hin.
  apply in_flat_map in Hin. destruct Hin as [m1 [_ Hin]].
  apply in_flat_map in Hin. destruct Hin as [m2 [_ Hin]].
  apply in_flat_map in Hin. destruct Hin as [m3 [_ Hin]].
  apply in_flat_map in Hin. destruct Hin as [m4 [H4 Hin]].
  destruct (run_grp _ _ _ _ _ _ H4) as [w [cs' [HL [_ Hcs]]]].
  assert (Hm : snd m = snd m4).
  { cbn [run] in Hin. destruct (fst m4) as [|c [|c' t]].
    - destruct Hin as [<-|[]]. reflexivity.
    - destruct (eqc c NL); [|destruct Hin].
      destruct Hin as [<-|[]]. reflexivity.
    - destruct Hin. }
  rewrite Hm, Hcs. unfold group_str. cbn [group Nat.eqb].
  apply lang_alts in HL; [|discriminate].
  unfold Meditations.book_words in HL. cbn [map In] in HL.
  repeat (destruct HL as [<-|HL]; [eexists; vm_compute; reflexivity|]).
  destruct HL.
Qed.

End Captures.

(* ======================================================================= *)
(** * The header of letter XCI *)
(* ======================================================================= *)

Module Letter91.
Import PyFacts ReFacts MatchShape Letters.

Lemma matches_first (r : regex) (s : str) :
  matches r s = true -> matches r [] = false ->
  exists c t, s = c :: t /\ accepts r c = true.
Proof.
  intros Hm He. destruct s as [|c t]; [congruence|].
  exists c, t. split; [reflexivity|].
  eapply matches_accepts; exact Hm.
Qed.

(** The alternate header starts with the letter O. *)
Lemma header_91_first (s : str) :
  matches RE_LETTER_91_HEADER s = true -> exists t, s = 79%N :: t.
Proof.
  intros Hm.
  destruct (matches_first _ _ Hm eq_refl) as [c [t [-> Ha]]].
  simpl in Ha. rewrite !andb_true_r in Ha. apply eqc_eq in Ha.
  subst c. eauto.
Qed.

(** The general rule, the rule for entries of a table of contents and the
    rule for apparatus entries all want a Roman numeral first. *)
Lemma no_roman_prefix (t : str) :
  re_match RE_LETTER_HEADER (79%N :: t) = None
  /\ matches RE_TOC_ENTRY (79%N :: t) = false
  /\ matches RE_APPARATUS_ENTRY (79%N :: t) = false.
Proof.
  repeat split.
  - apply not_accepts_no_match. reflexivity.
  - apply not_accepts_matches. reflexivity.
  - apply not_accepts_matches. reflexivity.
Qed.

Lemma is_letter_header_91 (line : str) :
  matches RE_LETTER_91_HEADER (strip line) = true ->
  is_letter_header line
  = Some (91%Z, strip (re_sub RE_FOOTNOTE_MARKER [] (strip line))).
Proof.
  intros Hm. unfold is_letter_header.
  destruct (header_91_first _ Hm) as [t E].
  rewrite E in *.
  destruct (no_roman_prefix t) as [_ [-> ->]].
  rewrite Hm. reflexivity.
Qed.

(** A stripped line that matches the alternate pattern is the title, or
    the title and one footnote marker. *)
Lemma header_91_shape (line : str) :
  matches RE_LETTER_91_HEADER (strip line) = true ->
  strip line = LETTER_91_TITLE
  \/ exists ds, ds <> [] /\ forallb isdecimal ds = true
                /\ strip line = LETTER_91_TITLE ++ 91%N :: ds ++ [93%N].
Proof.
  intros Hm.
  apply (stripped_matches_lang RE_LETTER_91_HEADER line eq_refl) in Hm.
  unfold RE_LETTER_91_HEADER, RE_FOOTNOTE_MARKER, Star, Plus in Hm.
  cbn [lang Seq] in Hm.
  destruct Hm as (w1 & w2 & E & -> & w3 & w4 & -> & HT & w5 & w6 & ->
                  & Hopt & w7 & w8 & -> & [Hsp _] & ->).
  apply lang_lit in HT. subst w3.
  rewrite app_nil_r in E. cbn [app] in E.
  assert (H7 : w7 = []).
  { destruct w7 as [|c7 w7]; [reflexivity|]. exfalso.
    destruct (@exists_last _ (c7 :: w7)) as [t [c Ec]]; [discriminate|].
    rewrite Ec in *. rewrite forallb_app in Hsp.
    apply andb_true_iff in Hsp. destruct Hsp as [_ Hc].
    cbn [forallb] in Hc. rewrite andb_true_r in Hc.
    rewrite !app_assoc in E. apply strip_last in E.
    unfold space in Hc. congruence. }
  subst w7. rewrite app_nil_r in E.
  destruct Hopt as [-> | Hmk].
  - left. rewrite E. apply app_nil_r.
  - right.
    destruct Hmk as (a & b & -> & Ha & d & e & -> & [Hd Hlen] & He).
    apply (lang_lit (lit "[")) in Ha. apply (lang_lit (lit "]")) in He.
    subst a e. exists d. split; [|split].
    + intros ->. simpl in Hlen. lia.
    + exact Hd.
    + rewrite E. reflexivity.
Qed.

(** Without its footnote marker such a line is the title. *)
Lemma title_of_91 (line : str) :
  matches RE_LETTER_91_HEADER (strip line) = true ->
  strip (re_sub RE_FOOTNOTE_MARKER [] (strip line)) = LETTER_91_TITLE.
Proof.
  intros Hm. destruct (header_91_shape line Hm) as [-> | (ds & Hne & Hd & ->)].
  - vm_compute. reflexivity.
  - unfold re_sub.
    rewrite SubFacts.sub_rejected_prefix by reflexivity.
    destruct (rep_greedy_head digit ds [93%N] 1) as [o Ho].
    + exact Hd.
    + intros c r E. injection E as <- _. reflexivity.
    + destruct ds; [contradiction | simpl; lia].
    + assert (Hrun : exists others,
                 run (length (LETTER_91_TITLE ++ 91%N :: ds ++ [93%N]))
                     RE_FOOTNOTE_MARKER (91%N :: ds ++ [93%N]) []
                 = ([], []) :: others).
      { unfold RE_FOOTNOTE_MARKER, Plus.
        cbn [Seq Lit lit map list_ascii_of_string run].
        change (one (N_of_ascii "[") 91) with true.
        cbn [flat_map app fst snd]. rewrite Ho.
        cbn [map flat_map fst snd app].
        change (one (N_of_ascii "]") 93) with true.
        cbn [app]. eexists. reflexivity. }
      destruct Hrun as [others Hrun].
      rewrite <- (app_nil_r (ds ++ [93%N])) at 2.
      rewrite <- (app_nil_r (ds ++ [93%N])) in Hrun at 2.
      rewrite (SubFacts.sub_from_hit _ _ _ _ _ _ _ _ Hrun).
      rewrite SubFacts.sub_from_nil by reflexivity.
      rewrite !app_nil_r. vm_compute. reflexivity.
Qed.

(** An open letter is in the output of the region, whatever follows: the
    later lines either add to it or close it. *)
Lemma emits_step (n : Z) (ttl : option str) (st : pstate) (line : str) :
  emits n ttl (save st) -> emits n ttl (save (step st line)).
Proof.
  intros [l [Hin [Hn Ht]]]. unfold step.
  destruct (is_letter_header (strip line)) as [[num t]|].
  - exists l. unfold save at 1. cbn [current_letter_num raw_letters].
    split; [apply in_or_app; left; exact Hin | auto].
  - destruct (matches RE_SEPARATOR (strip line)); [exists l; auto|].
    unfold save in *. destruct (current_letter_num st) as [cur|] eqn:Ec.
    + cbn [current_letter_num raw_letters current_title current_lines].
      apply in_app_or in Hin. destruct Hin as [Hin|[<-|[]]].
      * exists l. split; [apply in_or_app; left; exact Hin | auto].
      * eexists. split; [apply in_or_app; right; left; reflexivity|].
        simpl in *. auto.
    + rewrite Ec. exists l. auto.
Qed.

Lemma emits_fold (n : Z) (ttl : option str) (rest : list str) :
  forall st, emits n ttl (save st) ->
             emits n ttl (save (fold_left step rest st)).
Proof.
  induction rest as [|line rest IH]; intros st H; [exact H|].
  cbn [fold_left]. apply IH. apply emits_step. exact H.
Qed.

(** C8. A line that matches the fixed alternate pattern
    [ON THE LESSON TO BE DRAWN FROM THE BURNING OF LYONS], with or without
    a trailing footnote marker, has no Roman-numeral prefix, so the general
    header rule does not match it; [is_letter_header] still answers with
    letter number 91 and the title, the segmentation loop opens a section
    for it, and the region's output holds a letter numbered 91. *)
Theorem letter_91_recognised (line : str) :
  matches RE_LETTER_91_HEADER (strip line) = true ->
  re_match RE_LETTER_HEADER (strip line) = None
  /\ is_letter_header line = Some (91%Z, LETTER_91_TITLE)
  /\ (forall st,
        step st line
        = {| raw_letters := save st;
             current_letter_num := Some 91%Z;
             current_title := Some LETTER_91_TITLE;
             current_lines := [] |})
  /\ (forall acc before after,
        exists l,
          In l (parse_region acc (before ++ line :: after))
          /\ number l = 91%Z /\ title l = Some LETTER_91_TITLE).
Proof.
  intros Hm.
  destruct (header_91_first _ Hm) as [t E].
  assert (Hh : is_letter_header line = Some (91%Z, LETTER_91_TITLE)).
  { rewrite (is_letter_header_91 line Hm), (title_of_91 line Hm).
    reflexivity. }
  assert (Hstep : forall st,
             step st line
             = {| raw_letters := save st;
                  current_letter_num := Some 91%Z;
                  current_title := Some LETTER_91_TITLE;
                  current_lines := [] |}).
  { intros st. unfold step.
    rewrite (is_letter_header_91 (strip line)), strip_idem
      by (rewrite strip_idem; exact Hm).
    rewrite (title_of_91 line Hm). reflexivity. }
  split; [rewrite E; apply no_roman_prefix|].
  split; [exact Hh|].
  split; [exact Hstep|].
  intros acc before after. unfold parse_region.
  rewrite fold_left_app. cbn [fold_left]. rewrite Hstep.
  apply emits_fold.
  eexists. split.
  - unfold save at 1. cbn [current_letter_num].
    apply in_or_app. right. left. reflexivity.
  - split; reflexivity.
Qed.

Lemma letter_91_recognised_witness :
  matches RE_LETTER_91_HEADER (strip (LETTER_91_TITLE ++ lit "[1]")) = true
  /\ re_match RE_LETTER_HEADER (strip (LETTER_91_TITLE ++ lit "[1]")) = None
  /\ is_letter_header (LETTER_91_TITLE ++ lit "[1]")
     = Some (91%Z, LETTER_91_TITLE).
Proof.
  assert (Hm : matches RE_LETTER_91_HEADER
                 (strip (LETTER_91_TITLE ++ lit "[1]")) = true)
    by (vm_compute; reflexivity).
  destruct (letter_91_recognised _ Hm) as [Hno [Hh _]].
  split; [exact Hm | split; [exact Hno | exact Hh]].
Defined.

End Letter91.

(* ======================================================================= *)
(** * The Manual: bare numbers that are not headers *)
(* ======================================================================= *)

Module ManualNumbers.
Import PyFacts ReFacts MatchShape Discourses.





End ManualNumbers.

(* ======================================================================= *)
(** * The Discourses: chapter headers inside the notes *)
(* ======================================================================= *)

Module NotesRegion.
Import PyFacts ReFacts MatchShape Discourses.

Lemma chapter_header_first (s : str) (cm : str * caps) :
  re_match RE_CHAPTER_HEADER s = Some cm -> exists t, s = 67%N :: t.
Proof.
  intros Hm. destruct s as [|c t]; [discriminate|].
  apply re_match_accepts in Hm. simpl in Hm.
  rewrite ?andb_true_r in Hm. apply eqc_eq in Hm. subst c. eauto.
Qed.

Lemma book_header_shape (s : str) :
  lang RE_BOOK_HEADER s -> exists t, s = 66%N :: 79%N :: t.
Proof.
  unfold RE_BOOK_HEADER. cbn [lang Seq].
  intros (w1 & w2 & -> & -> & w3 & w4 & -> & HL & _).
  apply lang_lit in HL. subst w3. eexists. reflexivity.
Qed.

Lemma notes_header_shape (s : str) :
  lang RE_NOTES_HEADER s -> exists t, s = 66%N :: 111%N :: t.
Proof.
  unfold RE_NOTES_HEADER. cbn [lang Seq].
  intros (w1 & w2 & -> & -> & w3 & w4 & -> & HL & _).
  apply lang_lit in HL. subst w3. eexists. reflexivity.
Qed.

(** Nothing but the chapter rule applies to a chapter header. *)
Lemma chapter_line_class (c : str) (cm : str * caps) :
  re_match RE_CHAPTER_HEADER (strip c) = Some cm ->
  is_noise_line c = false
  /\ matches RE_NOTES_HEADER (strip c) = false
  /\ matches RE_DISCOURSES_SEPARATOR (strip c) = false
  /\ matches RE_NOTE_LINE (strip c) = false
  /\ re_match RE_BOOK_HEADER (strip c) = None.
Proof.
  intros Hm. destruct (chapter_header_first _ _ Hm) as [t E].
  unfold is_noise_line. rewrite E.
  rewrite (not_accepts_matches RE_PAGE_MARKER _ t) by reflexivity.
  rewrite (not_accepts_matches RE_SACRED_TEXTS_HEADER _ t) by reflexivity.
  rewrite (not_accepts_matches RE_NOTES_HEADER _ t) by reflexivity.
  rewrite (not_accepts_matches RE_DISCOURSES_SEPARATOR _ t) by reflexivity.
  rewrite (not_accepts_matches RE_NOTE_LINE _ t) by reflexivity.
  rewrite (not_accepts_no_match RE_BOOK_HEADER _ t) by reflexivity.
  auto.
Qed.

(** Nothing before the book rule applies to a book header. *)
Lemma book_line_class (b : str) (bm : str * caps) :
  re_match RE_BOOK_HEADER (strip b) = Some bm ->
  is_noise_line b = false
  /\ matches RE_NOTES_HEADER (strip b) = false
  /\ matches RE_DISCOURSES_SEPARATOR (strip b) = false
  /\ matches RE_NOTE_LINE (strip b) = false.
Proof.
  intros Hm.
  destruct (stripped_match_lang RE_BOOK_HEADER b bm eq_refl Hm) as [_ HL].
  destruct (book_header_shape _ HL) as [t E].
  assert (Hnotes : matches RE_NOTES_HEADER (strip b) = false).
  { destruct (matches RE_NOTES_HEADER (strip b)) eqn:X; [|reflexivity].
    apply (stripped_matches_lang RE_NOTES_HEADER b eq_refl) in X.
    destruct (notes_header_shape _ X) as [t' E'].
    rewrite E in E'. discriminate. }
  rewrite Hnotes.
  unfold is_noise_line. rewrite E.
  rewrite (not_accepts_matches RE_PAGE_MARKER _ _) by reflexivity.
  rewrite (not_accepts_matches RE_SACRED_TEXTS_HEADER _ _) by reflexivity.
  rewrite (not_accepts_matches RE_DISCOURSES_SEPARATOR _ _) by reflexivity.
  rewrite (not_accepts_matches RE_NOTE_LINE _ _) by reflexivity.
  auto.
Qed.

(** Inside the notes a chapter header changes nothing. *)
Lemma step_chapter_in_notes (st : pstate) (c : str) (cm : str * caps) :
  re_match RE_CHAPTER_HEADER (strip c) = Some cm ->
  in_notes st = true ->
  step st c = st.
Proof.
  intros Hm Hn.
  destruct (chapter_line_class c cm Hm) as (H1 & H2 & H3 & H4 & H5).
  unfold step. rewrite H1, H2, H3, H4, H5, Hn. reflexivity.
Qed.

(** A book header closes the notes and leaves no chapter open. *)
Lemma step_book (st : pstate) (b : str) (bm : str * caps) :
  re_match RE_BOOK_HEADER (strip b) = Some bm ->
  step st b
  = {| chapters := save st;
       current_book := Some (Roman.roman_to_int (group_str (snd bm) 1));
       current_chapter_num := None;
       current_chapter_title := None;
       current_chapter_lines := [];
       awaiting_title := false;
       in_notes := false |}.
Proof.
  intros Hm.
  destruct (book_line_class b bm Hm) as (H1 & H2 & H3 & H4).
  unfold step. rewrite H1, H2, H3, H4, Hm. destruct bm. reflexivity.
Qed.

(** Outside the notes a chapter header opens a chapter. *)
Lemma step_chapter_outside (st : pstate) (c : str) (cm : str * caps) :
  re_match RE_CHAPTER_HEADER (strip c) = Some cm ->
  in_notes st = false ->
  step st c
  = {| chapters := save st;
       current_book := current_book st;
       current_chapter_num :=
         Some (Roman.roman_to_int (group_str (snd cm) 1));
       current_chapter_title := None;
       current_chapter_lines := [];
       awaiting_title := true;
       in_notes := false |}.
Proof.
  intros Hm Hn.
  destruct (chapter_line_class c cm Hm) as (H1 & H2 & H3 & H4 & H5).
  unfold step. rewrite H1, H2, H3, H4, H5, Hn, Hm. destruct cm.
  reflexivity.
Qed.

(** C7. In the loop of [parse_discourses], while the notes flag is set a
    line that matches the CHAPTER header pattern leaves every loop
    variable as it is: it opens no chapter, and the lines read give the
    same result with it or without it.  Once a BOOK header has closed the
    notes, the same line opens a chapter of that book. *)
Theorem chapter_header_suppressed_in_notes (c b : str)
  (cm bm : str * caps) :
  re_match RE_CHAPTER_HEADER (strip c) = Some cm ->
  re_match RE_BOOK_HEADER (strip b) = Some bm ->
  (forall st, in_notes st = true ->
     step st c = st
     /\ step (step (step st c) b) c
        = {| chapters := save st;
             current_book :=
               Some (Roman.roman_to_int (group_str (snd bm) 1));
             current_chapter_num :=
               Some (Roman.roman_to_int (group_str (snd cm) 1));
             current_chapter_title := None;
             current_chapter_lines := [];
             awaiting_title := true;
             in_notes := false |})
  /\ (forall before after st0,
        in_notes (fold_left step before st0) = true ->
        fold_left step (before ++ c :: after) st0
        = fold_left step (before ++ after) st0).
Proof.
  intros Hc Hb. split.
  - intros st Hn.
    rewrite (step_chapter_in_notes st c cm Hc Hn).
    split; [reflexivity|].
    rewrite (step_book st b bm Hb).
    rewrite (step_chapter_outside _ c cm Hc) by reflexivity.
    reflexivity.
  - intros before after st0 Hn.
    rewrite !fold_left_app. cbn [fold_left].
    rewrite (step_chapter_in_notes _ c cm Hc Hn). reflexivity.
Qed.

Lemma chapter_header_suppressed_in_notes_witness :
  let st := {| chapters := []; current_book := Some 1%Z;
               current_chapter_num := Some 30%Z;
               current_chapter_title := Some (lit "ON COURAGE");
               current_chapter_lines := [lit "Farewell."];
               awaiting_title := false; in_notes := true |} in
  step st (lit "CHAPTER II") = st
  /\ step (step (step st (lit "CHAPTER II")) (lit "BOOK II"))
          (lit "CHAPTER II")
     = {| chapters :=
            [{| book_num := 1; chapter_num := 30;
                chapter_title := Some (lit "ON COURAGE");
                lines := [lit "Farewell."] |}];
          current_book := Some 2%Z;
          current_chapter_num := Some 2%Z;
          current_chapter_title := None;
          current_chapter_lines := [];
          awaiting_title := true;
          in_notes := false |}.
Proof.
  intros st.
  assert (Hc : re_match RE_CHAPTER_HEADER (strip (lit "CHAPTER II"))
               = Some ([], [(1%nat, lit "II")])) by (vm_compute; reflexivity).
  assert (Hb : re_match RE_BOOK_HEADER (strip (lit "BOOK II"))
               = Some ([], [(1%nat, lit "II")])) by (vm_compute; reflexivity).
  destruct (chapter_header_suppressed_in_notes _ _ _ _ Hc Hb) as [H _].
  destruct (H st eq_refl) as [H1 H2].
  split; [exact H1 | rewrite H2; vm_compute; reflexivity].
Defined.

End NotesRegion.

(* ======================================================================= *)
(** * Missing anchors *)
(* ======================================================================= *)

Module Anchors.
Import PyFacts ReFacts MatchShape.

(** A stripped line matches [^w$] only if it reads [w]. *)
Lemma exact_line (w line : str) :
  matches (Seq [Bol; Lit w; Eol]) (strip line) = true -> strip line = w.
Proof.
  intros Hm.
  apply (stripped_matches_lang (Seq [Bol; Lit w; Eol]) line eq_refl) in Hm.
  cbn [lang Seq] in Hm.
  destruct Hm as (w1 & w2 & -> & -> & w3 & w4 & -> & HL & ->).
  apply lang_lit in HL. subst. simpl. apply app_nil_r.
Qed.


(** ** Discourses *)





(** ** Meditations *)



(** ** On the Shortness of Life *)




End Anchors.

(* ======================================================================= *)
(** * Letter numbers of the emitted sections *)
(* ======================================================================= *)

Module LetterNumbers.
Import PyFacts Letters.

(** ** The regions *)

Lemma region_end_ge (start : nat) (rest : list str) :
  forall j, (j <= region_end start j rest)%nat.
Proof.
  induction rest as [|l rest IH]; intros j; cbn [region_end]; [lia|].
  repeat (destruct (matches _ _); [lia|]).
  destruct (_ && _); [lia|].
  specialize (IH (S j)). lia.
Qed.

(** The outer loop of [find_letter_regions] stops by itself: any fuel that
    covers the lines from [i] on gives the same regions. *)
Lemma regions_from_enough (ls : list str) :
  forall (f1 f2 i : nat),
    (length ls - i <= f1)%nat -> (length ls - i <= f2)%nat ->
    regions_from f1 ls i = regions_from f2 ls i.
Proof.
  assert (Hstop : forall f i, (length ls - i <= 0)%nat ->
                              regions_from f ls i = []).
  { intros f i Hi. destruct f as [|f]; [reflexivity|]. cbn [regions_from].
    destruct (nth_error ls i) eqn:E; [|reflexivity].
    assert (i < length ls)%nat
      by (apply nth_error_Some; rewrite E; discriminate).
    lia. }
  induction f1 as [|f1 IH]; intros f2 i H1 H2.
  - rewrite (Hstop f2 i H1). reflexivity.
  - destruct f2 as [|f2].
    + rewrite (Hstop (S f1) i H2). reflexivity.
    + cbn [regions_from].
      destruct (nth_error ls i) eqn:E; [|reflexivity].
      assert (Hi : (i < length ls)%nat)
        by (apply nth_error_Some; rewrite E; discriminate).
      destruct (matches RE_VOLUME_HEADER (strip s)).
      * f_equal.
        pose proof (region_end_ge (i + 1) (skipn (i + 1) ls) (i + 1)).
        apply IH; lia.
      * apply IH; lia.
Qed.

(** ** The numbers that come out are the numbers of the header lines *)

Lemma save_step_numbers (st : pstate) (line : str) :
  map number (save (step st line))
  = map number (save st) ++ header_nums [line].
Proof.
  unfold step, header_nums. cbn [flat_map]. rewrite app_nil_r.
  destruct (is_letter_header (strip line)) as [[num ttl]|].
  - unfold save at 1. cbn [current_letter_num raw_letters].
    rewrite map_app. reflexivity.
  - rewrite app_nil_r.
    destruct (matches RE_SEPARATOR (strip line)); [reflexivity|].
    unfold save. destruct (current_letter_num st) eqn:E.
    + cbn [current_letter_num raw_letters].
      rewrite !map_app. reflexivity.
    + rewrite ?E. reflexivity.
Qed.

Lemma header_nums_app (a b : list str) :
  header_nums (a ++ b) = header_nums a ++ header_nums b.
Proof. unfold header_nums. apply flat_map_app. Qed.

Lemma fold_numbers (region : list str) :
  forall st,
    map number (save (fold_left step region st))
    = map number (save st) ++ header_nums region.
Proof.
  induction region as [|l region IH]; intros st.
  - cbn [fold_left]. unfold header_nums. simpl. rewrite app_nil_r.
    reflexivity.
  - cbn [fold_left]. rewrite IH, save_step_numbers.
    change (l :: region) with ([l] ++ region).
    rewrite header_nums_app, app_assoc. reflexivity.
Qed.

Lemma parse_region_numbers (acc : list raw_letter) (region : list str) :
  map number (parse_region acc region)
  = map number acc ++ header_nums region.
Proof. unfold parse_region. rewrite fold_numbers. reflexivity. Qed.

Lemma parse_regions_numbers (all : list str) (regions : list (nat * nat)) :
  forall acc raw,
    parse_regions all regions acc = Some raw ->
    map number raw = map number acc ++ regions_header_nums all regions.
Proof.
  induction regions as [|[a b] regions IH]; intros acc raw H.
  - simpl in H. injection H as <-. simpl. rewrite app_nil_r. reflexivity.
  - cbn [parse_regions regions_header_nums] in *.
    destruct (index_range all a (b - a)) as [region|]; [|discriminate].
    rewrite (IH _ _ H), parse_region_numbers, app_assoc. reflexivity.
Qed.

(** ** Building the sections drops letters, and keeps the numbers *)

Lemma build_section_number (l : raw_letter) (s : section) :
  build_section l = Some s -> letter_number s = number l.
Proof.
  unfold build_section. destruct (negb (truthy _)); [discriminate|].
  intros H. injection H as <-. reflexivity.
Qed.

Lemma built_numbers_incl (raw : list raw_letter) (n : Z) :
  In n (map letter_number (build_sections raw)) -> In n (map number raw).
Proof.
  induction raw as [|l raw IH]; [auto|].
  cbn [build_sections].
  destruct (build_section l) as [s|] eqn:E.
  - cbn [map]. intros [H|H].
    + left. rewrite <- H. symmetry. apply build_section_number. exact E.
    + right. apply IH. exact H.
  - intros H. right. apply IH. exact H.
Qed.

Lemma built_numbers_nodup (raw : list raw_letter) :
  NoDup (map number raw) -> NoDup (map letter_number (build_sections raw)).
Proof.
  induction raw as [|l raw IH]; intros H.
  - constructor.
  - cbn [map] in H. inversion H as [|x xs Hnin Hnd]; subst.
    cbn [build_sections].
    destruct (build_section l) as [s|] eqn:E; [|apply IH; exact Hnd].
    cbn [map]. constructor; [|apply IH; exact Hnd].
    rewrite (build_section_number l s E).
    intros Hin. apply Hnin. apply built_numbers_incl. exact Hin.
Qed.

(** ** The duplicate check of [validate] *)

Lemma count_insert_sorted (n x : Z) (l : list Z) :
  count n (insert_sorted x l) = count n (x :: l).
Proof.
  unfold count. induction l as [|y l IH]; [reflexivity|].
  cbn [insert_sorted]. destruct (x <=? y)%Z; [reflexivity|].
  cbn [count_occ] in *. rewrite IH.
  destruct (Z.eq_dec y n), (Z.eq_dec x n); reflexivity.
Qed.

Lemma count_sorted (n : Z) (l : list Z) : count n (sorted l) = count n l.
Proof.
  unfold sorted. induction l as [|x l IH]; [reflexivity|].
  cbn [fold_right]. rewrite count_insert_sorted.
  unfold count in *. cbn [count_occ]. rewrite IH. reflexivity.
Qed.

Lemma duplicate_empty_iff (sections : list section) :
  duplicate sections = [] <-> NoDup (map letter_number sections).
Proof.
  unfold duplicate, found_nums.
  set (nums := map letter_number sections).
  rewrite (NoDup_count_occ Z.eq_dec).
  split.
  - intros H n.
    destruct (le_gt_dec (count_occ Z.eq_dec nums n) 1) as [Hle|Hgt];
      [exact Hle|].
    exfalso.
    assert (Hc : count n (sorted nums) = count_occ Z.eq_dec nums n)
      by apply count_sorted.
    assert (Hin : In n (sorted nums)).
    { apply (count_occ_In Z.eq_dec). unfold count in Hc. lia. }
    assert (Hf : In n (filter (fun n => (1 <? count n (sorted nums))%nat)
                          (sorted nums))).
    { apply filter_In. split; [exact Hin|].
      apply Nat.ltb_lt. rewrite Hc. lia. }
    rewrite H in Hf. destruct Hf.
  - intros H.
    destruct (filter _ (sorted nums)) as [|n rest] eqn:E; [reflexivity|].
    exfalso.
    assert (Hf : In n (filter (fun n => (1 <? count n (sorted nums))%nat)
                          (sorted nums)))
      by (rewrite E; left; reflexivity).
    apply filter_In in Hf. destruct Hf as [_ Hgt].
    apply Nat.ltb_lt in Hgt. rewrite count_sorted in Hgt.
    specialize (H n). unfold count in Hgt. lia.
Qed.

(** C2, as the code has it.  Every header line opens a section of its
    own, so a header that comes twice gives two sections with one letter
    number.  What holds: when the header lines inside the letter regions
    carry pairwise distinct numbers, no two emitted sections share a letter
    number; and the duplicate list of [validate] is empty exactly when the
    letter numbers of the sections are pairwise distinct. *)
Theorem letter_numbers_unique_when_headers_are (all : list str)
  (regions : list (nat * nat)) (raw : list raw_letter) :
  parse_letters all regions = Some raw ->
  (NoDup (regions_header_nums all regions) ->
   NoDup (map letter_number (build_sections raw)))
  /\ (forall sections,
        duplicate sections = [] <-> NoDup (map letter_number sections)).
Proof.
  intros Hp. split.
  - intros Hnd. apply built_numbers_nodup.
    unfold parse_letters in Hp.
    rewrite (parse_regions_numbers all regions [] raw Hp). exact Hnd.
  - apply duplicate_empty_iff.
Qed.

(** One volume with letters I and II: the header numbers are distinct,
    and so are the letter numbers of the sections. *)
Lemma letter_numbers_unique_when_headers_are_witness :
  let all := [lit "THE EPISTLES OF SENECA"; lit "I. ON SAVING TIME";
              lit "Greetings from Seneca."; lit "* * *";
              lit "II. ON DISCURSIVENESS IN READING"; lit "Farewell."] in
  exists raw,
    parse_letters all (find_letter_regions all) = Some raw
    /\ NoDup (map letter_number (build_sections raw)).
Proof.
  intros all.
  destruct (parse_letters all (find_letter_regions all)) as [raw|] eqn:E;
    [|vm_compute in E; discriminate].
  exists raw. split; [reflexivity|].
  destruct (letter_numbers_unique_when_headers_are all _ raw E) as [H _].
  apply H. vm_compute.
  constructor; [intros [H1|[]]; discriminate H1|].
  constructor; [intros []|]. constructor.
Defined.

(** C2, as the claim states it, fails: with the header of letter I twice
    in one volume, the two sections that come out both carry letter
    number 1. *)
Lemma repeated_header_counterexample :
  let all := [lit "THE EPISTLES OF SENECA"; lit "I. ON SAVING TIME";
              lit "Greetings from Seneca."; lit "I. ON SAVING TIME";
              lit "Farewell."] in
  exists sections,
    sections_of all = Some sections
    /\ map letter_number sections = [1%Z; 1%Z]
    /\ ~ NoDup (map letter_number sections).
Proof.
  intros all.
  destruct (sections_of all) as [sections|] eqn:E;
    [|vm_compute in E; discriminate].
  exists sections. split; [reflexivity|].
  assert (Hn : map letter_number sections = [1%Z; 1%Z]).
  { vm_compute in E. injection E as <-. reflexivity. }
  split; [exact Hn|].
  rewrite Hn. intros H. inversion H as [|x xs Hnin _]; subst.
  apply Hnin. left. reflexivity.
Qed.

End LetterNumbers.

(* ======================================================================= *)
(** * Normalising twice *)
(* ======================================================================= *)

Module Idempotence.

(** C4 at a failing input.  The lines between [a] and [b] hold one space
    each.  The newline runs are collapsed before the lines are stripped,
    so the first pass leaves three newlines in a row, and the second pass
    collapses them: the normalised text is changed by normalising it
    again.  The same happens to the lines of a Discourses chapter when a
    line holds nothing but two page markers. *)
Theorem clean_text_twice_differs :
  let t := lit "a" ++ [NL; SP; NL; SP; NL] ++ lit "b" in
  Meditations.clean_text t = lit "a" ++ [NL; NL; NL] ++ lit "b"
  /\ Meditations.clean_text (Meditations.clean_text t)
     = lit "a" ++ [NL; NL] ++ lit "b"
  /\ Discourses.clean_text t = lit "a" ++ [NL; NL; NL] ++ lit "b"
  /\ Discourses.clean_text (Discourses.clean_text t)
     = lit "a" ++ [NL; NL] ++ lit "b"
  /\ (let chapter_lines := [lit "a"; lit "[p. 1] [p. 2]"; []; lit "b"] in
      Discourses.clean_text (join [NL] chapter_lines)
      = lit "a" ++ [NL; NL; NL] ++ lit "b").
Proof. vm_compute. repeat split. Qed.

End Idempotence.

(* ======================================================================= *)
(** * Blank lines under [clean_text] *)
(* ======================================================================= *)

Module BlankLines.
Import PyFacts ReFacts MatchShape SubFacts Layout.

(** ** The characters of a text laid out in paragraphs *)



Lemma text_char_not_SP (c : char) : text_char c = true -> eqc c SP = false.
Proof.
  intros H. destruct (eqc c SP) eqn:E; [|reflexivity].
  apply eqc_eq in E. subst c. discriminate.
Qed.

















(** ** The steps that leave such a text as it is *)







(** ** Single spaces stay *)








(** ** Stripping the lines *)









(** ** The step that collapses newlines *)











End BlankLines.

(* ======================================================================= *)
(** * Letters: the regions and what is read from them *)
(* ======================================================================= *)

Module LetterRegions.
Import PyFacts ReFacts Letters LettersSpec.

(** ** Reading by index and slicing *)

Lemma skipn_nth_error {A} (l : list A) :
  forall start x, nth_error l start = Some x ->
                  skipn start l = x :: skipn (S start) l.
Proof.
  induction l as [|y l IH]; intros [|start] x H; try discriminate.
  - injection H as <-. reflexivity.
  - cbn [nth_error] in H. cbn [skipn]. rewrite (IH start x H).
    destruct l; reflexivity.
Qed.

(** Inside the list, the index loop reads the slice. *)
Lemma index_range_slice {A} (l : list A) :
  forall n start, (start + n <= length l)%nat ->
                  index_range l start n = Some (firstn n (skipn start l)).
Proof.
  induction n as [|n IH]; intros start H; [reflexivity|].
  cbn [index_range].
  destruct (nth_error l start) as [x|] eqn:E.
  - rewrite IH by lia. rewrite (skipn_nth_error l start x E). reflexivity.
  - apply nth_error_None in E. lia.
Qed.

(** ** The inner scan *)

Lemma region_end_le (start : nat) (rest : list str) :
  forall j, (region_end start j rest <= j + length rest)%nat.
Proof.
  induction rest as [|l rest IH]; intros j; cbn [region_end length]; [lia|].
  repeat (destruct (matches _ _); [lia|]).
  destruct (_ && _); [lia|].
  specialize (IH (S j)). lia.
Qed.

(** The lines the scan passes over end no region; it stops at the end of
    the list, or on a line that ends the region or opens the next. *)
Lemma region_end_spec (start : nat) (rest : list str) :
  forall j,
    Forall (fun l => ends_region (strip l) = false)
           (firstn (region_end start j rest - j) rest)
    /\ (region_end start j rest = (j + length rest)%nat
        \/ exists l,
             nth_error rest (region_end start j rest - j) = Some l
             /\ (ends_region (strip l) = true
                 \/ matches RE_VOLUME_HEADER (strip l) = true)).
Proof.
  induction rest as [|l rest IH]; intros j.
  - cbn [region_end length]. rewrite firstn_nil.
    split; [constructor|left; lia].
  - cbn [region_end].
    assert (Hstop : ends_region (strip l) = true
                    \/ matches RE_VOLUME_HEADER (strip l) = true ->
                    Forall (fun l => ends_region (strip l) = false)
                           (firstn (j - j) (l :: rest))
                    /\ (j = (j + length (l :: rest))%nat
                        \/ exists l0,
                             nth_error (l :: rest) (j - j) = Some l0
                             /\ (ends_region (strip l0) = true
                                 \/ matches RE_VOLUME_HEADER (strip l0)
                                    = true))).
    { intros H. rewrite Nat.sub_diag. split; [constructor|].
      right. exists l. split; [reflexivity|exact H]. }
    unfold ends_region in Hstop |- *.
    destruct (matches RE_VOLUME_MARKER (strip l)) eqn:E1;
      [apply Hstop; left; reflexivity|].
    destruct (matches RE_INDEX_HEADER (strip l)) eqn:E2;
      [apply Hstop; left; reflexivity|].
    destruct (matches RE_APPENDIX_HEADER (strip l)) eqn:E3;
      [apply Hstop; left; reflexivity|].
    destruct (matches RE_PRINTER (strip l)) eqn:E4;
      [apply Hstop; left; reflexivity|].
    destruct (matches RE_DIGITAL_EDITION (strip l)) eqn:E5;
      [apply Hstop; left; reflexivity|].
    destruct (matches RE_CONTENTS_HEADER (strip l)) eqn:E6;
      [apply Hstop; left; reflexivity|].
    destruct ((start <? j)%nat && matches RE_VOLUME_HEADER (strip l)) eqn:E7.
    { apply Hstop. right. apply andb_true_iff in E7. apply E7. }
    clear Hstop.
    pose proof (LetterNumbers.region_end_ge start rest (S j)) as Hge.
    destruct (IH (S j)) as [Hall Hend].
    replace (region_end start (S j) rest - j)%nat
      with (S (region_end start (S j) rest - S j)) by lia.
    cbn [firstn nth_error length]. split.
    + apply Forall_cons; [|exact Hall].
      rewrite E1, E2, E3, E4, E5, E6. reflexivity.
    + destruct Hend as [Hend|Hend]; [left; lia|right; exact Hend].
Qed.

(** ** The outer loop *)

Lemma volume_header_line (l : str) :
  matches RE_VOLUME_HEADER (strip l) = true ->
  strip l = lit "THE EPISTLES OF SENECA".
Proof.
  intros Hm. exact (Anchors.exact_line _ l Hm).
Qed.

Lemma regions_from_ok (ls : list str) :
  forall fuel i, Forall (region_ok ls) (regions_from fuel ls i).
Proof.
  induction fuel as [|fuel IH]; intros i; cbn [regions_from];
    [constructor|].
  destruct (nth_error ls i) as [l|] eqn:E; [|constructor].
  assert (Hi : (i < length ls)%nat)
    by (apply nth_error_Some; rewrite E; discriminate).
  destruct (matches RE_VOLUME_HEADER (strip l)) eqn:Ev; [|apply IH].
  apply Forall_cons; [|apply IH].
  pose proof (LetterNumbers.region_end_ge (i + 1) (skipn (i + 1) ls) (i + 1)) as Hge.
  pose proof (region_end_le (i + 1) (skipn (i + 1) ls) (i + 1)) as Hle.
  rewrite length_skipn in Hle.
  destruct (region_end_spec (i + 1) (skipn (i + 1) ls) (i + 1))
    as [Hall Hend].
  unfold region_ok. cbn [fst snd].
  split; [lia|]. split; [lia|]. split.
  { exists l. split; [|apply volume_header_line; exact Ev].
    replace (i + 1 - 1)%nat with i by lia. exact E. }
  split; [exact Hall|].
  destruct Hend as [Hend|(l' & Hn & Hl')].
  - left. rewrite length_skipn in Hend. lia.
  - right. exists l'. split.
    + rewrite nth_error_skipn in Hn.
      replace (i + 1
               + (region_end (i + 1) (i + 1) (skipn (i + 1) ls) - (i + 1)))%nat
        with (region_end (i + 1) (i + 1) (skipn (i + 1) ls)) in Hn by lia.
      exact Hn.
    + destruct Hl' as [Hl'|Hl']; [left; exact Hl'|].
      right. apply volume_header_line. exact Hl'.
Qed.

Lemma regions_from_sorted (ls : list str) :
  forall fuel i,
    StronglySorted (fun a b => (snd a < fst b)%nat) (regions_from fuel ls i)
    /\ Forall (fun r => (i < fst r)%nat) (regions_from fuel ls i).
Proof.
  induction fuel as [|fuel IH]; intros i; cbn [regions_from].
  { split; constructor. }
  destruct (nth_error ls i) as [l|]; [|split; constructor].
  destruct (matches RE_VOLUME_HEADER (strip l)).
  - pose proof (LetterNumbers.region_end_ge (i + 1) (skipn (i + 1) ls) (i + 1)) as Hge.
    destruct (IH (region_end (i + 1) (i + 1) (skipn (i + 1) ls)))
      as [Hs Hf].
    split.
    + apply SSorted_cons; [exact Hs|]. exact Hf.
    + apply Forall_cons; [cbn [fst]; lia|].
      apply (Forall_impl _ (P := fun r =>
               (region_end (i + 1) (i + 1) (skipn (i + 1) ls) < fst r)%nat));
        [|exact Hf].
      intros r Hr. lia.
  - destruct (IH (i + 1)%nat) as [Hs Hf]. split; [exact Hs|].
    apply (Forall_impl _ (P := fun r => (i + 1 < fst r)%nat)); [|exact Hf].
    intros r Hr. lia.
Qed.

(** X1. The regions of [find_letter_regions] lie inside the line list,
    come in increasing order and do not overlap.  Each one starts on the
    line after a line that reads THE EPISTLES OF SENECA, holds no line that
    ends a region (a volume marker, an index, appendix, printer, digital
    edition or contents heading), and stops at the end of the list or on a
    line that ends the region or opens the next volume. *)
Theorem regions_ordered_in_bounds (ls : list str) :
  Forall (region_ok ls) (find_letter_regions ls)
  /\ StronglySorted (fun a b => (snd a < fst b)%nat) (find_letter_regions ls).
Proof.
  unfold find_letter_regions. split.
  - apply regions_from_ok.
  - apply regions_from_sorted.
Qed.

(** ** No index past the end *)

Lemma parse_regions_slices (ls : list str) (regions : list (nat * nat)) :
  Forall (fun r => (fst r <= snd r <= length ls)%nat) regions ->
  forall acc,
    parse_regions ls regions acc
    = Some (fold_left parse_region
              (map (fun r => slice ls (fst r) (snd r)) regions) acc).
Proof.
  induction regions as [|[a b] regions IH]; intros H acc; [reflexivity|].
  inversion H as [|r rs Hab Hrest]; subst. cbn [fst snd] in Hab.
  cbn [parse_regions map fold_left fst snd].
  rewrite index_range_slice by lia.
  apply IH. exact Hrest.
Qed.

(** X2. On the regions of [find_letter_regions], [parse_letters] meets no
    index past the last line: it returns, and what it returns is the
    letters parsed from the slices [lines[start:end]] of the regions, one
    region after the other. *)
Theorem parse_letters_reads_slices (ls : list str) :
  parse_letters ls (find_letter_regions ls)
  = Some (fold_left parse_region
            (map (fun r => slice ls (fst r) (snd r))
                 (find_letter_regions ls))
            []).
Proof.
  unfold parse_letters. apply parse_regions_slices.
  apply (Forall_impl _ (P := region_ok ls)).
  - intros r (H1 & H2 & _). lia.
  - unfold find_letter_regions. apply regions_from_ok.
Qed.

End LetterRegions.

(* ======================================================================= *)
(** * Letters: what a header opens and what a letter keeps *)
(* ======================================================================= *)

Module LetterContent.
Import PyFacts ReFacts Letters LettersSpec.

(** ** The lines of the letters *)

Lemma kept_save_open (st : pstate) (n : Z) :
  current_letter_num st = Some n ->
  kept (save st) = kept (raw_letters st) ++ current_lines st.
Proof.
  intros E. unfold kept, save. rewrite E.
  rewrite map_app, concat_app. cbn [map concat lines].
  rewrite app_nil_r. reflexivity.
Qed.

Lemma letter_step_header (st : pstate) (l : str) :
  header_line l = true ->
  (exists n, current_letter_num (step st l) = Some n)
  /\ kept (save (step st l)) = kept (save st).
Proof.
  unfold header_line, step. intros H.
  destruct (is_letter_header (strip l)) as [[num ttl]|]; [|discriminate].
  split; [eexists; reflexivity|].
  unfold save at 1. cbn [current_letter_num raw_letters].
  unfold kept. rewrite map_app, concat_app. cbn [map concat lines].
  rewrite !app_nil_r. reflexivity.
Qed.

Lemma step_open (st : pstate) (l : str) (n : Z) :
  current_letter_num st = Some n ->
  header_line l = false ->
  current_letter_num (step st l) = Some n
  /\ kept (save (step st l))
     = kept (save st) ++ (if content_line l then [l] else []).
Proof.
  unfold header_line, content_line, step. intros E H.
  destruct (is_letter_header (strip l)) as [[num ttl]|]; [discriminate|].
  cbn [is_none andb].
  destruct (matches RE_SEPARATOR (strip l)); cbn [negb].
  - split; [exact E|]. rewrite app_nil_r. reflexivity.
  - rewrite E. split; [reflexivity|].
    rewrite (kept_save_open st n E).
    rewrite (kept_save_open _ n) by reflexivity.
    cbn [raw_letters current_lines]. rewrite app_assoc. reflexivity.
Qed.

Lemma step_closed (st : pstate) (l : str) :
  current_letter_num st = None ->
  header_line l = false ->
  step st l = st.
Proof.
  unfold header_line, step. intros E H.
  destruct (is_letter_header (strip l)) as [[num ttl]|]; [discriminate|].
  destruct (matches RE_SEPARATOR (strip l)); [reflexivity|].
  rewrite E. reflexivity.
Qed.

Lemma letter_content_not_header (l : str) :
  header_line l = true -> content_line l = false.
Proof.
  unfold header_line, content_line.
  destruct (is_letter_header (strip l)); [reflexivity|discriminate].
Qed.

Lemma letters_fold_open (region : list str) :
  forall st n,
    current_letter_num st = Some n ->
    kept (save (fold_left step region st))
    = kept (save st) ++ filter content_line region.
Proof.
  induction region as [|l region IH]; intros st n E.
  - cbn [fold_left filter]. rewrite app_nil_r. reflexivity.
  - cbn [fold_left filter].
    destruct (header_line l) eqn:Hh.
    + destruct (letter_step_header st l Hh) as [[n' En'] Hk].
      rewrite (IH _ n' En'), Hk, (letter_content_not_header l Hh). reflexivity.
    + destruct (step_open st l n E Hh) as [En' Hk].
      rewrite (IH _ n En'), Hk.
      destruct (content_line l); [|rewrite app_nil_r; reflexivity].
      rewrite <- app_assoc. reflexivity.
Qed.

Lemma letters_fold_closed (region : list str) :
  forall st,
    current_letter_num st = None ->
    kept (save (fold_left step region st))
    = kept (save st) ++ filter content_line (from_first header_line region).
Proof.
  induction region as [|l region IH]; intros st E.
  - cbn [fold_left from_first filter]. rewrite app_nil_r. reflexivity.
  - cbn [fold_left from_first].
    destruct (header_line l) eqn:Hh.
    + destruct (letter_step_header st l Hh) as [[n' En'] Hk].
      rewrite (letters_fold_open region _ n' En'), Hk.
      cbn [filter]. rewrite (letter_content_not_header l Hh). reflexivity.
    + rewrite (step_closed st l E Hh). apply IH. exact E.
Qed.

(** X3. One region of [parse_letters] keeps, spread over the letters it
    appends and in the order of the input, exactly the lines that stand
    after the first header line of the region and are neither a header
    nor a separator: nothing of these is lost, doubled or moved, the lines
    before the first header are dropped, and the letters already parsed
    gain no line.  It appends one letter for every header line, in order,
    with that header's number. *)
Theorem region_keeps_content_lines (acc : list raw_letter)
  (region : list str) :
  concat (map lines (parse_region acc region))
  = concat (map lines acc)
    ++ filter content_line (from_first header_line region)
  /\ map number (parse_region acc region)
     = map number acc ++ header_nums region.
Proof.
  split.
  - unfold parse_region.
    apply (letters_fold_closed region
             {| raw_letters := acc; current_letter_num := None;
                current_title := None; current_lines := [] |}).
    reflexivity.
  - apply LetterNumbers.parse_region_numbers.
Qed.

(** ** The numbers of the sections *)

Lemma is_letter_header_range (line : str) (n : Z) (t : str) :
  is_letter_header line = Some (n, t) -> (1 <= n <= 124)%Z.
Proof.
  unfold is_letter_header. intros H.
  destruct (negb _); [discriminate|].
  destruct (matches RE_TOC_ENTRY _); [discriminate|].
  destruct (matches RE_APPARATUS_ENTRY _); [discriminate|].
  destruct (matches RE_LETTER_91_HEADER _).
  { injection H as <- _. lia. }
  destruct (re_match RE_LETTER_HEADER _) as [[r m]|]; [|discriminate].
  destruct ((1 <=? _)%Z && (_ <=? 124)%Z) eqn:E; [|discriminate].
  injection H as <- _. apply andb_true_iff in E. destruct E as [E1 E2].
  apply Z.leb_le in E1. apply Z.leb_le in E2. lia.
Qed.

Lemma header_nums_range (region : list str) :
  Forall (fun n => (1 <= n <= 124)%Z) (header_nums region).
Proof.
  induction region as [|l region IH]; [constructor|].
  unfold header_nums. cbn [flat_map].
  destruct (is_letter_header (strip l)) as [[n t]|] eqn:E.
  - apply Forall_cons; [exact (is_letter_header_range _ _ _ E)|exact IH].
  - exact IH.
Qed.

Lemma regions_header_nums_range (all : list str)
  (regions : list (nat * nat)) :
  Forall (fun n => (1 <= n <= 124)%Z) (regions_header_nums all regions).
Proof.
  induction regions as [|[a b] regions IH]; [constructor|].
  cbn [regions_header_nums]. apply Forall_app. split; [|exact IH].
  destruct (index_range all a (b - a)); [apply header_nums_range|constructor].
Qed.

Lemma letter_sections_from (raw : list raw_letter) :
  Forall (fun s => exists l, In l raw /\ build_section l = Some s)
         (build_sections raw).
Proof.
  induction raw as [|l raw IH]; [constructor|].
  cbn [build_sections].
  assert (Hrest : Forall (fun s => exists l0, In l0 (l :: raw)
                                              /\ build_section l0 = Some s)
                         (build_sections raw)).
  { apply (Forall_impl _ (P := fun s => exists l0,
                                  In l0 raw /\ build_section l0 = Some s));
      [|exact IH].
    intros s (l0 & Hin & Hb). exists l0. split; [right; exact Hin|exact Hb]. }
  destruct (build_section l) as [s|] eqn:E; [|exact Hrest].
  apply Forall_cons; [|exact Hrest].
  exists l. split; [left; reflexivity|exact E].
Qed.

Lemma letter_id_width_checked :
  forallb (fun k => (length (format_d 3 (Z.of_nat k)) =? 3)%nat) (seq 1 124)
  = true.
Proof. vm_compute. reflexivity. Qed.

Lemma letter_id_width (n : Z) :
  (1 <= n <= 124)%Z -> length (format_d 3 n) = 3%nat.
Proof.
  intros Hn. pose proof letter_id_width_checked as H.
  rewrite forallb_forall in H. specialize (H (Z.to_nat n)).
  rewrite Z2Nat.id in H by lia.
  apply Nat.eqb_eq. apply H. apply in_seq. lia.
Qed.

(** X4. When a run of [main] writes a document, the document has at
    least one section, and every section has a letter number between 1
    and 124, a text that is not empty, and an id made of [letters_] and
    exactly three digits. *)
Theorem written_letters_are_numbered (today : str) (all : list str)
  (d : document section) :
  main today all false = Written d ->
  doc_sections d <> []
  /\ Forall (fun s => (1 <= letter_number s <= 124)%Z
                      /\ text s <> []
                      /\ id s = lit "letters_" ++ format_d 3 (letter_number s)
                      /\ length (id s) = 11%nat)
            (doc_sections d).
Proof.
  unfold main. intros H.
  destruct (parse_letters all (find_letter_regions all)) as [raw|] eqn:Ep;
    [|discriminate].
  cbn [negb] in H.
  destruct (build_sections raw) as [|s0 rest] eqn:Eb; [discriminate|].
  injection H as <-. cbn [doc_sections].
  split; [discriminate|].
  rewrite <- Eb.
  pose proof (LetterNumbers.parse_regions_numbers all _ [] raw Ep) as Hn.
  cbn [map app] in Hn.
  pose proof (regions_header_nums_range all (find_letter_regions all)) as Hr.
  rewrite <- Hn in Hr. rewrite Forall_forall in Hr.
  apply (Forall_impl _ (P := fun s => exists l,
                                In l raw /\ build_section l = Some s));
    [|apply letter_sections_from].
  intros s (l & Hin & Hb).
  assert (Hl : (1 <= number l <= 124)%Z)
    by (apply Hr; apply in_map; exact Hin).
  unfold build_section in Hb.
  destruct (truthy (clean_letter_text (lines l) (number l))) eqn:Et;
    cbn [negb] in Hb; [|discriminate].
  injection Hb as <-. cbn [letter_number text id].
  split; [exact Hl|]. split.
  { intros E0. rewrite E0 in Et. discriminate. }
  split; [reflexivity|].
  cbn [length]. rewrite (letter_id_width _ Hl). reflexivity.
Qed.

Lemma written_letters_are_numbered_witness :
  let all := [lit "THE EPISTLES OF SENECA"; lit "I. ON SAVING TIME";
              lit "Greetings from Seneca."; lit "* * *";
              lit "XCI. ON BENEFITS."; lit "Farewell."] in
  exists d,
    main [] all false = Written d
    /\ doc_sections d <> []
    /\ Forall (fun s => (1 <= letter_number s <= 124)%Z
                        /\ text s <> []
                        /\ id s = lit "letters_"
                                  ++ format_d 3 (letter_number s)
                        /\ length (id s) = 11%nat)
              (doc_sections d).
Proof.
  intros all.
  destruct (main [] all false) as [st msg|exn| |d] eqn:E;
    try (vm_compute in E; discriminate).
  exists d. split; [reflexivity|].
  exact (written_letters_are_numbered [] all d E).
Defined.

(** ** A run without a volume header *)

Lemma regions_from_none (ls : list str) :
  (forall l, In l ls -> strip l <> lit "THE EPISTLES OF SENECA") ->
  forall fuel i, regions_from fuel ls i = [].
Proof.
  intros H. induction fuel as [|fuel IH]; intros i; [reflexivity|].
  cbn [regions_from].
  destruct (nth_error ls i) as [l|] eqn:E; [|reflexivity].
  destruct (matches RE_VOLUME_HEADER (strip l)) eqn:Ev; [|apply IH].
  exfalso. apply (H l (nth_error_In ls i E)).
  exact (Anchors.exact_line _ l Ev).
Qed.

(** X5. When no line of the input reads THE EPISTLES OF SENECA (the empty
    input is one such), [find_letter_regions] finds no region, no letter is
    parsed, and a normal run of [main] ends in the [ValueError] that
    [validate] raises on an empty list of sections, before any file is
    written; a dry run ends without writing as well. *)
Theorem no_volume_header_no_output (today : str) (all : list str) :
  (forall l, In l all -> strip l <> lit "THE EPISTLES OF SENECA") ->
  find_letter_regions all = []
  /\ parse_letters all (find_letter_regions all) = Some []
  /\ main today all false = Raised (lit "ValueError")
  /\ main today all true = DryRun.
Proof.
  intros H.
  assert (Hr : find_letter_regions all = [])
    by (apply regions_from_none; exact H).
  unfold main. rewrite Hr. cbn [parse_letters parse_regions build_sections].
  repeat split; reflexivity.
Qed.

Lemma no_volume_header_no_output_witness :
  let all := [lit "I. ON SAVING TIME"; lit "Greetings from Seneca."] in
  (forall l, In l all -> strip l <> lit "THE EPISTLES OF SENECA")
  /\ find_letter_regions all = []
  /\ parse_letters all (find_letter_regions all) = Some []
  /\ main [] all false = Raised (lit "ValueError")
  /\ main [] all true = DryRun.
Proof.
  intros all.
  assert (H : forall l, In l all -> strip l <> lit "THE EPISTLES OF SENECA").
  { intros l [<-|[<-|[]]]; vm_compute; discriminate. }
  split; [exact H|exact (no_volume_header_no_output [] all H)].
Defined.

(** ** A letter with nothing to keep *)

Lemma clean_fold_blank (blanks : list str) :
  (forall l, In l blanks -> strip l = []) ->
  fold_left clean_step blanks ([], false) = ([], false).
Proof.
  induction blanks as [|l blanks IH]; intros H; [reflexivity|].
  cbn [fold_left].
  assert (Hs : clean_step ([], false) l = ([], false)).
  { unfold clean_step. rewrite (H l (or_introl eq_refl)). reflexivity. }
  rewrite Hs. apply IH. intros l' Hl'. apply H. right. exact Hl'.
Qed.

(** X6. A letter whose lines are blank up to its first footnote line, or
    blank throughout, has an empty text, and [build_sections] emits no
    section for it, whatever follows the footnote line. *)
Theorem letter_without_body_is_dropped (n : Z) (ttl : option str)
  (blanks tail : list str) (others : list raw_letter) :
  (forall l, In l blanks -> strip l = []) ->
  tail = [] \/ (exists fn post r, tail = fn :: post
                                  /\ strip fn = UP_ARROW :: r) ->
  clean_letter_text (blanks ++ tail) n = []
  /\ build_sections
       ({| number := n; title := ttl; lines := blanks ++ tail |} :: others)
     = build_sections others.
Proof.
  intros Hb Ht.
  assert (Hc : clean_letter_text (blanks ++ tail) n = []).
  { unfold clean_letter_text. rewrite fold_left_app, (clean_fold_blank _ Hb).
    destruct Ht as [->|(fn & post & r & -> & Hfn)].
    - reflexivity.
    - cbn [fold_left].
      rewrite (FootnoteTail.clean_step_footnote_line _ fn
                 (ex_intro _ r Hfn)).
      rewrite FootnoteTail.clean_fold_in_footnotes. reflexivity. }
  split; [exact Hc|].
  cbn [build_sections]. unfold build_section. cbn [lines number].
  rewrite Hc. reflexivity.
Qed.

Lemma letter_without_body_is_dropped_witness :
  let blanks := [[]; lit "  "] in
  let tail := [UP_ARROW :: lit " Cf. Ep. i."; lit "plain prose"] in
  clean_letter_text (blanks ++ tail) 5 = []
  /\ build_sections
       ({| number := 5; title := Some (lit "ON THE PHILOSOPHER'S MEAN");
           lines := blanks ++ tail |} :: [])
     = build_sections [].
Proof.
  intros blanks tail.
  apply (letter_without_body_is_dropped 5 _ blanks tail []).
  - intros l [<-|[<-|[]]]; reflexivity.
  - right. exists (UP_ARROW :: lit " Cf. Ep. i."), [lit "plain prose"].
    eexists. split; [reflexivity|vm_compute; reflexivity].
Defined.

End LetterContent.

(* ======================================================================= *)
(** * Discourses: the Manual's numbers and the lines of the chapters *)
(* ======================================================================= *)

Module ManualOrder.
Import PyFacts ReFacts Discourses DiscoursesSpec.

Lemma sorted_snoc {A} (R : A -> A -> Prop) (l : list A) (x : A) :
  StronglySorted R l -> Forall (fun a => R a x) l ->
  StronglySorted R (l ++ [x]).
Proof.
  induction l as [|a l IH]; intros Hs Hf; cbn [app].
  - apply SSorted_cons; constructor.
  - inversion Hs as [|a' l' Hs' Ha]; subst.
    inversion Hf as [|a' l' Hax Hf']; subst.
    apply SSorted_cons; [apply IH; assumption|].
    apply Forall_app. split; [exact Ha|].
    apply Forall_cons; [exact Hax|constructor].
Qed.

Lemma sorted_lt_nodup (l : list Z) : StronglySorted Z.lt l -> NoDup l.
Proof.
  induction 1 as [|a l Hs IH Ha]; constructor; [|exact IH].
  intros Hin. rewrite Forall_forall in Ha. specialize (Ha a Hin). lia.
Qed.

Lemma inv_append (st : mstate) (s : str) :
  manual_inv st -> manual_inv (m_append st s).
Proof.
  unfold manual_inv, m_append. intros H.
  destruct (m_current_num st) as [c|] eqn:E.
  - cbn [m_current_num m_sections]. exact H.
  - rewrite E. exact H.
Qed.

(** The numbers saved so far, with the open section. *)
Lemma inv_saved (st : mstate) :
  manual_inv st ->
  StronglySorted Z.lt (map sec_number (m_save st))
  /\ Forall (fun n => (1 <= n <= 53)%Z) (map sec_number (m_save st))
  /\ forall c, m_current_num st = Some c ->
               Forall (fun s => (1 <= sec_number s <= c)%Z) (m_save st).
Proof.
  unfold manual_inv, m_save. intros H.
  destruct (m_current_num st) as [c|].
  - destruct H as (Hc & Hf & Hs).
    rewrite map_app. cbn [map sec_number].
    split; [|split].
    + apply sorted_snoc; [exact Hs|].
      apply Forall_map.
      apply (Forall_impl _ (P := fun s => (1 <= sec_number s < c)%Z));
        [|exact Hf].
      intros s Hsn. lia.
    + apply Forall_app. split.
      * apply Forall_map.
        apply (Forall_impl _ (P := fun s => (1 <= sec_number s < c)%Z));
          [|exact Hf].
        intros s Hsn. lia.
      * apply Forall_cons; [lia|constructor].
    + intros c' Ec. injection Ec as <-.
      apply Forall_app. split.
      * apply (Forall_impl _ (P := fun s => (1 <= sec_number s < c)%Z));
          [|exact Hf].
        intros s Hsn. lia.
      * apply Forall_cons; [cbn [sec_number]; lia|constructor].
  - rewrite H. cbn [map]. split; [constructor|].
    split; [constructor|]. intros c Ec. discriminate.
Qed.

Lemma inv_step (st : mstate) (line : str) :
  manual_inv st -> manual_inv (m_step st line).
Proof.
  intros H. unfold m_step.
  destruct (is_noise_line line); [exact H|].
  destruct (re_match RE_MANUAL_SECTION_NUMBER (strip line)) as [[r nm]|];
    [|apply inv_append; exact H].
  destruct ((1 <=? _)%Z && (_ <=? 53)%Z) eqn:Er;
    [|apply inv_append; exact H].
  apply andb_true_iff in Er. destruct Er as [E1 E2].
  apply Z.leb_le in E1. apply Z.leb_le in E2.
  destruct (inv_saved st H) as (Hs & _ & Hc).
  destruct (m_current_num st) as [c|] eqn:Ec.
  - destruct (_ >? c)%Z eqn:Eg; [|apply inv_append; exact H].
    unfold manual_inv. cbn [m_current_num m_sections].
    split; [lia|]. split; [|exact Hs].
    apply (Forall_impl _ (P := fun s => (1 <= sec_number s <= c)%Z));
      [|exact (Hc c eq_refl)].
    intros s Hsn. apply Z.gtb_lt in Eg. lia.
  - unfold manual_inv. cbn [m_current_num m_sections].
    split; [lia|]. unfold manual_inv in H. rewrite Ec in H.
    unfold m_save. rewrite Ec, H. split; constructor.
Qed.

Lemma inv_fold (ls : list str) :
  forall st, manual_inv st -> manual_inv (fold_left m_step ls st).
Proof.
  induction ls as [|l ls IH]; intros st H; [exact H|].
  cbn [fold_left]. apply IH. apply inv_step. exact H.
Qed.

(** X7. The section numbers that [parse_manual] returns are strictly
    increasing and lie between 1 and 53, whatever the input; so no two
    sections of the Manual carry the same number. *)
Theorem manual_numbers_increase (all : list str) :
  StronglySorted Z.lt (map sec_number (parse_manual all))
  /\ Forall (fun n => (1 <= n <= 53)%Z) (map sec_number (parse_manual all))
  /\ NoDup (map sec_number (parse_manual all)).
Proof.
  assert (H : StronglySorted Z.lt (map sec_number (parse_manual all))
              /\ Forall (fun n => (1 <= n <= 53)%Z)
                        (map sec_number (parse_manual all))).
  { unfold parse_manual.
    destruct (manual_bounds 0 all None) as [[manual_start|] manual_end].
    - destruct (inv_saved _ (inv_fold
                  (slice all manual_start
                     match manual_end with
                     | Some e => e
                     | None => length all
                     end) m_initial eq_refl)) as (Hs & Hr & _).
      split; assumption.
    - cbn [map]. split; constructor. }
  destruct H as [Hs Hr].
  split; [exact Hs|]. split; [exact Hr|].
  apply sorted_lt_nodup. exact Hs.
Qed.

(** ** The ids of the Manual's sections *)

Lemma manual_ids_checked :
  forallb (fun a =>
             forallb (fun b =>
                        implb (eqs (str_of_int (Z.of_nat a))
                                   (str_of_int (Z.of_nat b)))
                              (a =? b)%nat)
                     (seq 1 53))
          (seq 1 53) = true.
Proof. vm_compute. reflexivity. Qed.

Lemma manual_id_inj (a b : Z) :
  (1 <= a <= 53)%Z -> (1 <= b <= 53)%Z ->
  str_of_int a = str_of_int b -> a = b.
Proof.
  intros Ha Hb E. pose proof manual_ids_checked as H.
  rewrite forallb_forall in H.
  specialize (H (Z.to_nat a)). rewrite forallb_forall in H.
  specialize (H ltac:(apply in_seq; lia) (Z.to_nat b)
                ltac:(apply in_seq; lia)).
  rewrite !Z2Nat.id in H by lia.
  rewrite E, eqs_refl in H. cbn [implb] in H.
  apply Nat.eqb_eq in H. lia.
Qed.

Lemma collect_manual_from (secs : list manual_section) (s : section) :
  In s (collect manual_section_of secs) ->
  exists m, In m secs
            /\ id s = lit "enchiridion_s" ++ str_of_int (sec_number m)
            /\ chapter s = Some (sec_number m)
            /\ text s <> [].
Proof.
  induction secs as [|m secs IH]; cbn [collect]; [intros []|].
  unfold manual_section_of at 1.
  destruct (truthy (clean_text (join [NL] (sec_lines m)))) eqn:Et;
    cbn [negb].
  - intros [<-|Hin].
    + exists m. split; [left; reflexivity|]. cbn [id chapter text].
      split; [reflexivity|]. split; [reflexivity|].
      intros E0. rewrite E0 in Et. discriminate.
    + destruct (IH Hin) as (m' & Hm' & Hrest).
      exists m'. split; [right; exact Hm'|exact Hrest].
  - intros Hin. destruct (IH Hin) as (m' & Hm' & Hrest).
    exists m'. split; [right; exact Hm'|exact Hrest].
Qed.

Lemma collect_manual_nodup (secs : list manual_section) :
  Forall (fun n => (1 <= n <= 53)%Z) (map sec_number secs) ->
  NoDup (map sec_number secs) ->
  NoDup (map id (collect manual_section_of secs)).
Proof.
  induction secs as [|m secs IH]; intros Hr Hn; cbn [collect map];
    [constructor|].
  cbn [map] in Hr, Hn.
  inversion Hr as [|n ns Hm Hr']; subst.
  inversion Hn as [|n ns Hnin Hn']; subst.
  specialize (IH Hr' Hn').
  unfold manual_section_of at 1.
  destruct (truthy (clean_text (join [NL] (sec_lines m)))); cbn [negb];
    [|exact IH].
  cbn [map id]. constructor; [|exact IH].
  intros Hin. apply in_map_iff in Hin. destruct Hin as (s & Hid & Hs).
  destruct (collect_manual_from secs s Hs) as (m' & Hm' & Hid' & _).
  rewrite Hid' in Hid. apply app_inv_head in Hid.
  rewrite Forall_forall in Hr'.
  assert (Hm'r : (1 <= sec_number m' <= 53)%Z)
    by (apply Hr'; apply in_map; exact Hm').
  apply (manual_id_inj _ _ Hm'r Hm) in Hid.
  apply Hnin. rewrite <- Hid. apply in_map. exact Hm'.
Qed.

(** X8. The records that [build_sections] makes from the Manual's
    sections have pairwise distinct ids, each [enchiridion_s] followed by
    the decimal section number, which is also the record's chapter, and no
    record has an empty text. *)
Theorem manual_ids_distinct (all : list str) :
  NoDup (map id (collect manual_section_of (parse_manual all)))
  /\ Forall (fun s => exists n,
                 (1 <= n <= 53)%Z
                 /\ id s = lit "enchiridion_s" ++ str_of_int n
                 /\ chapter s = Some n
                 /\ text s <> [])
            (collect manual_section_of (parse_manual all)).
Proof.
  assert (Hr : Forall (fun n => (1 <= n <= 53)%Z)
                      (map sec_number (parse_manual all))).
  { unfold parse_manual.
    destruct (manual_bounds 0 all None) as [[manual_start|] manual_end];
      [|constructor].
    apply (inv_saved _ (inv_fold _ m_initial eq_refl)). }
  assert (Hs : StronglySorted Z.lt (map sec_number (parse_manual all))).
  { unfold parse_manual.
    destruct (manual_bounds 0 all None) as [[manual_start|] manual_end];
      [|constructor].
    apply (inv_saved _ (inv_fold _ m_initial eq_refl)). }
  split.
  - apply collect_manual_nodup; [exact Hr|].
    apply sorted_lt_nodup. exact Hs.
  - apply Forall_forall. intros s Hin.
    destruct (collect_manual_from _ s Hin) as (m & Hm & Hid & Hch & Ht).
    exists (sec_number m). rewrite Forall_forall in Hr.
    split; [apply Hr; apply in_map; exact Hm|].
    split; [exact Hid|]. split; [exact Hch|exact Ht].
Qed.

End ManualOrder.

(* ======================================================================= *)
(** * Discourses: what a chapter holds *)
(* ======================================================================= *)

Module ChapterLines.
Import PyFacts ReFacts Discourses DiscoursesSpec.

Lemma noise_stripped (line : str) :
  is_noise_line (strip line) = is_noise_line line.
Proof. unfold is_noise_line. rewrite strip_idem. reflexivity. Qed.

(** The loop keeps true: the lines stored so far are plain. *)
Lemma step_plain (st : pstate) (line : str) :
  Forall (fun ch => Forall (fun l => plain_line l = true) (lines ch))
         (chapters st) ->
  Forall (fun l => plain_line l = true) (current_chapter_lines st) ->
  Forall (fun ch => Forall (fun l => plain_line l = true) (lines ch))
         (chapters (step st line))
  /\ Forall (fun l => plain_line l = true)
            (current_chapter_lines (step st line)).
Proof.
  intros Hc Hl.
  assert (Hsave : Forall (fun ch => Forall (fun l => plain_line l = true)
                                           (lines ch))
                         (save st)).
  { unfold save.
    destruct (current_chapter_num st); [|exact Hc].
    destruct (current_book st); [|exact Hc].
    apply Forall_app. split; [exact Hc|].
    apply Forall_cons; [exact Hl|constructor]. }
  unfold step.
  destruct (is_noise_line line) eqn:En; [split; assumption|].
  destruct (matches RE_NOTES_HEADER (strip line)) eqn:E1;
    [split; assumption|].
  destruct (matches RE_DISCOURSES_SEPARATOR (strip line)) eqn:E2;
    [split; assumption|].
  cbn [orb].
  destruct (matches RE_NOTE_LINE (strip line)) eqn:E3;
    [split; assumption|].
  destruct (re_match RE_BOOK_HEADER (strip line)) as [[r bm]|] eqn:E4.
  { cbn [chapters current_chapter_lines]. split; [exact Hsave|constructor]. }
  destruct (in_notes st); [split; assumption|].
  destruct (re_match RE_CHAPTER_HEADER (strip line)) as [[r cm]|] eqn:E5.
  { cbn [chapters current_chapter_lines]. split; [exact Hsave|constructor]. }
  destruct (awaiting_title st).
  { destruct (truthy (strip line)); split; assumption. }
  destruct (current_chapter_num st); [|split; assumption].
  cbn [chapters current_chapter_lines]. split; [exact Hc|].
  apply Forall_app. split; [exact Hl|].
  apply Forall_cons; [|constructor].
  unfold plain_line.
  rewrite strip_idem, eqs_refl, noise_stripped, En, E1, E2, E3, E4, E5.
  reflexivity.
Qed.

Lemma fold_plain (ls : list str) :
  forall st,
    Forall (fun ch => Forall (fun l => plain_line l = true) (lines ch))
           (chapters st) ->
    Forall (fun l => plain_line l = true) (current_chapter_lines st) ->
    Forall (fun ch => Forall (fun l => plain_line l = true) (lines ch))
           (save (fold_left step ls st)).
Proof.
  induction ls as [|l ls IH]; intros st Hc Hl.
  - cbn [fold_left]. unfold save.
    destruct (current_chapter_num st); [|exact Hc].
    destruct (current_book st); [|exact Hc].
    apply Forall_app. split; [exact Hc|].
    apply Forall_cons; [exact Hl|constructor].
  - cbn [fold_left]. destruct (step_plain st l Hc Hl) as [Hc' Hl'].
    apply IH; assumption.
Qed.

(** X9. Every line that [parse_discourses] stores in a chapter is
    stripped and is none of the lines the loop sets aside: no page marker
    or site header, no notes header or separator, no note line, no book or
    chapter header. *)
Theorem chapter_lines_are_plain (all : list str) (preface_text : str)
  (chs : list raw_chapter) :
  parse_discourses all = inl (preface_text, chs) ->
  Forall (fun ch => Forall (fun l => plain_line l = true) (lines ch)) chs.
Proof.
  unfold parse_discourses.
  destruct (find_bounds 0 all None None) as [[ps bs] ce].
  destruct ps as [ps|]; [|discriminate].
  destruct bs as [bs|]; [|discriminate].
  intros H. injection H as _ <-.
  apply fold_plain; constructor.
Qed.

Lemma chapter_lines_are_plain_witness :
  let all := [lit "PREFACE"; lit "BOOK I"; lit "CHAPTER I";
              lit "ON THINGS IN OUR POWER"; lit "  Of our faculties ";
              lit "[p. 3]"; lit "none contemplates itself."] in
  exists preface_text chs,
    parse_discourses all = inl (preface_text, chs)
    /\ Forall (fun ch => Forall (fun l => plain_line l = true) (lines ch))
              chs.
Proof.
  intros all.
  destruct (parse_discourses all) as [[p chs]|[st msg]] eqn:E;
    [|vm_compute in E; discriminate].
  exists p, chs. split; [reflexivity|].
  exact (chapter_lines_are_plain all p chs E).
Defined.

End ChapterLines.

(* ======================================================================= *)
(** * Meditations: the anchors and the books *)
(* ======================================================================= *)

Module MeditationsBounds.
Import PyFacts ReFacts Meditations MeditationsSpec.

(** ** BOOK ONE *)

Lemma book_one_test (l : str) :
  matches RE_BOOK_HEADER (strip l) && eqs (strip l) (lit "BOOK ONE") = true
  <-> strip l = lit "BOOK ONE".
Proof.
  split.
  - intros H. apply andb_true_iff in H. apply eqs_eq. apply H.
  - intros ->. vm_compute. reflexivity.
Qed.

Lemma find_start_spec (rest : list str) :
  forall i k,
    find_start i rest = Some k ->
    (i <= k)%nat /\ first_at (lit "BOOK ONE") rest (k - i).
Proof.
  induction rest as [|l rest IH]; intros i k H; [discriminate|].
  cbn [find_start] in H.
  destruct (matches RE_BOOK_HEADER (strip l)
            && eqs (strip l) (lit "BOOK ONE")) eqn:E.
  - injection H as <-. split; [lia|]. rewrite Nat.sub_diag. split.
    + exists l. split; [reflexivity|]. apply book_one_test. exact E.
    + intros j l' Hj. lia.
  - destruct (IH _ _ H) as [Hle [[l' [Hn Hl']] Hbefore]].
    split; [lia|].
    replace (k - i)%nat with (S (k - S i)) by lia. split.
    + exists l'. split; [exact Hn|exact Hl'].
    + intros [|j] l0 Hj Hn0.
      * injection Hn0 as <-. intros Hw.
        apply book_one_test in Hw. rewrite Hw in E. discriminate.
      * apply (Hbefore j l0); [lia|exact Hn0].
Qed.

Lemma find_start_found (rest : list str) :
  has_line (lit "BOOK ONE") rest ->
  forall i, exists k, find_start i rest = Some k.
Proof.
  induction rest as [|l rest IH]; intros [l0 [Hin Hl0]] i; [destruct Hin|].
  cbn [find_start].
  destruct (matches RE_BOOK_HEADER (strip l)
            && eqs (strip l) (lit "BOOK ONE")) eqn:E;
    [eexists; reflexivity|].
  destruct Hin as [<-|Hin].
  - apply book_one_test in Hl0. rewrite Hl0 in E. discriminate.
  - apply IH. exists l0. split; assumption.
Qed.

(** ** THE END *)

Lemma the_end_test (l : str) :
  matches RE_THE_END (strip l) = true <-> strip l = lit "THE END".
Proof.
  split.
  - apply Anchors.exact_line.
  - intros ->. vm_compute. reflexivity.
Qed.

Lemma find_end_none (rest : list str) :
  forall i, find_end i rest = None ->
            forall l, In l rest -> strip l <> lit "THE END".
Proof.
  induction rest as [|l rest IH]; intros i H l0 Hin; [destruct Hin|].
  cbn [find_end] in H.
  destruct (find_end (S i) rest) as [e|] eqn:Ee; [discriminate|].
  destruct (matches RE_THE_END (strip l)) eqn:Em; [discriminate|].
  destruct Hin as [<-|Hin].
  - intros Hw. apply the_end_test in Hw. rewrite Hw in Em. discriminate.
  - exact (IH _ Ee l0 Hin).
Qed.

Lemma find_end_spec (rest : list str) :
  forall i k,
    find_end i rest = Some k ->
    (i <= k)%nat /\ last_at (lit "THE END") rest (k - i).
Proof.
  induction rest as [|l rest IH]; intros i k H; [discriminate|].
  cbn [find_end] in H.
  destruct (find_end (S i) rest) as [e|] eqn:Ee.
  - injection H as <-.
    destruct (IH _ _ Ee) as [Hle [[l' [Hn Hl']] Hafter]].
    split; [lia|].
    replace (e - i)%nat with (S (e - S i)) by lia. split.
    + exists l'. split; [exact Hn|exact Hl'].
    + intros [|j] l0 Hj Hn0; [lia|].
      apply (Hafter j l0); [lia|exact Hn0].
  - destruct (matches RE_THE_END (strip l)) eqn:Em; [|discriminate].
    injection H as <-. split; [lia|]. rewrite Nat.sub_diag. split.
    + exists l. split; [reflexivity|]. apply the_end_test. exact Em.
    + intros [|j] l0 Hj Hn0; [lia|].
      apply (find_end_none rest (S i) Ee l0).
      exact (nth_error_In rest j Hn0).
Qed.

Lemma find_end_found (rest : list str) :
  has_line (lit "THE END") rest ->
  forall i, exists k, find_end i rest = Some k.
Proof.
  intros [l [Hin Hl]] i.
  destruct (find_end i rest) as [k|] eqn:E; [eexists; reflexivity|].
  exfalso. exact (find_end_none rest i E l Hin Hl).
Qed.

Lemma has_line_of_index (w : str) (ls : list str) (k : nat) :
  (exists l, nth_error ls k = Some l /\ strip l = w) -> has_line w ls.
Proof.
  intros [l [Hn Hl]]. exists l. split; [exact (nth_error_In ls k Hn)|exact Hl].
Qed.

(** X10. [strip_header_footer] returns the slice of the input from the
    first line that reads BOOK ONE up to, and without, the last line that
    reads THE END; when that last line does not come after the first BOOK
    ONE, the slice is empty. *)
Theorem content_lies_between_anchors (all content : list str) :
  strip_header_footer all = inl content ->
  exists start stop,
    content = slice all start stop
    /\ first_at (lit "BOOK ONE") all start
    /\ last_at (lit "THE END") all stop
    /\ ((stop <= start)%nat -> content = []).
Proof.
  unfold strip_header_footer. intros H.
  destruct (find_start 0 all) as [start|] eqn:Es; [|discriminate].
  destruct (find_end 0 all) as [stop|] eqn:Ee; [|discriminate].
  injection H as <-. exists start, stop.
  destruct (find_start_spec all 0 start Es) as [_ Hs].
  destruct (find_end_spec all 0 stop Ee) as [_ He].
  rewrite Nat.sub_0_r in Hs, He.
  split; [reflexivity|]. split; [exact Hs|]. split; [exact He|].
  intros Hle. unfold slice.
  replace (stop - start)%nat with 0%nat by lia. reflexivity.
Qed.

Lemma content_lies_between_anchors_witness :
  let all := [lit "Provided by The Internet Classics Archive.";
              lit "BOOK ONE"; lit "From my grandfather Verus";
              lit "THE END"; lit "Copyright statement"] in
  exists content start stop,
    strip_header_footer all = inl content
    /\ content = slice all start stop
    /\ first_at (lit "BOOK ONE") all start
    /\ last_at (lit "THE END") all stop
    /\ ((stop <= start)%nat -> content = []).
Proof.
  intros all.
  destruct (strip_header_footer all) as [content|[st msg]] eqn:E;
    [|vm_compute in E; discriminate].
  destruct (content_lies_between_anchors all content E)
    as (start & stop & H).
  exists content, start, stop. split; [reflexivity|exact H].
Defined.

(** X11. A normal run of [main] in [parser_meditations.py] writes a
    document exactly when some line of the input reads BOOK ONE and some
    line reads THE END; in every other case it exits with status 1.
    Reading and writing the files aside, these are its only two
    outcomes. *)
Theorem meditations_writes_iff_anchors (today : str) (all : list str) :
  ((exists d, main today all false = Written d)
   <-> has_line (lit "BOOK ONE") all /\ has_line (lit "THE END") all)
  /\ ((exists d, main today all false = Written d)
      \/ exists msg, main today all false = Exited 1 msg).
Proof.
  unfold main, strip_header_footer.
  destruct (find_start 0 all) as [start|] eqn:Es.
  - destruct (find_start_spec all 0 start Es) as [_ [Hs _]].
    destruct (find_end 0 all) as [stop|] eqn:Ee.
    + destruct (find_end_spec all 0 stop Ee) as [_ [He _]].
      cbn [negb]. split; [|left; eexists; reflexivity].
      split; [|intros _; eexists; reflexivity].
      intros _. split; eapply has_line_of_index; eassumption.
    + split; [|right; eexists; reflexivity].
      split; [intros [d Hd]; discriminate|].
      intros [_ [l [Hin Hl]]]. exfalso.
      exact (find_end_none all 0 Ee l Hin Hl).
  - split; [|right; eexists; reflexivity].
    split; [intros [d Hd]; discriminate|].
    intros [Hb _]. destruct (find_start_found all Hb 0) as [k Hk].
    rewrite Hk in Es. discriminate.
Qed.

End MeditationsBounds.

(* ======================================================================= *)
(** * Meditations: the lines of the books *)
(* ======================================================================= *)

Module BookLines.
Import PyFacts ReFacts Meditations MeditationsSpec.

Lemma word_index_range (ws : list str) (w : str) :
  forall n0 n, word_index ws n0 w = Some n ->
               (n0 <= n < n0 + Z.of_nat (length ws))%Z.
Proof.
  induction ws as [|w' ws IH]; intros n0 n H; [discriminate|].
  cbn [word_index] in H. cbn [length].
  destruct (eqs w w').
  - injection H as <-. lia.
  - specialize (IH _ _ H). lia.
Qed.

(** A header line opens a book whose number is between 1 and 12. *)
Lemma book_step_header (st : bstate) (l : str) :
  header_line l = true ->
  exists n,
    (1 <= n <= 12)%Z
    /\ b_step st l
       = {| books := b_save st; current_book_num := Some n;
            current_lines := [] |}.
Proof.
  unfold header_line, b_step. intros H.
  destruct (re_match RE_BOOK_HEADER (strip l)) as [[r m]|] eqn:E;
    [|discriminate].
  destruct (Captures.book_word_is_key (strip l) (r, m) E) as [n Hn].
  cbn [snd] in Hn. exists n. split.
  - pose proof (word_index_range book_words _ 1 n Hn) as Hr.
    change (Z.of_nat (length book_words)) with 12%Z in Hr. lia.
  - rewrite Hn. reflexivity.
Qed.

Lemma step_other (st : bstate) (l : str) :
  header_line l = false ->
  current_book_num (b_step st l) = current_book_num st
  /\ books (b_step st l) = books st
  /\ current_lines (b_step st l)
     = current_lines st ++ (if content_line l then [l] else []).
Proof.
  unfold header_line, content_line, b_step. intros H.
  destruct (re_match RE_BOOK_HEADER (strip l)) as [[r m]|]; [discriminate|].
  cbn [is_none andb].
  destruct (matches RE_SEPARATOR (strip l)); cbn [negb].
  - rewrite app_nil_r. repeat split; reflexivity.
  - repeat split; reflexivity.
Qed.

Lemma book_content_not_header (l : str) :
  header_line l = true -> content_line l = false.
Proof.
  unfold header_line, content_line.
  destruct (re_match RE_BOOK_HEADER (strip l)); [reflexivity|discriminate].
Qed.

Lemma saved_open (st : bstate) (n : Z) :
  current_book_num st = Some n ->
  b_save st = books st ++ [(n, current_lines st)].
Proof. unfold b_save. intros ->. reflexivity. Qed.

Lemma saved_closed (st : bstate) :
  current_book_num st = None -> b_save st = books st.
Proof. unfold b_save. intros ->. reflexivity. Qed.

Lemma concat_snoc {A} (l : list (list A)) (x : list A) :
  concat (l ++ [x]) = concat l ++ x.
Proof. rewrite concat_app. cbn [concat]. rewrite app_nil_r. reflexivity. Qed.

Lemma books_fold_open (ls : list str) :
  forall st n,
    current_book_num st = Some n ->
    concat (map snd (b_save (fold_left b_step ls st)))
    = concat (map snd (b_save st)) ++ filter content_line ls.
Proof.
  induction ls as [|l ls IH]; intros st n E.
  - cbn [fold_left filter]. rewrite app_nil_r. reflexivity.
  - cbn [fold_left filter].
    destruct (header_line l) eqn:Hh.
    + destruct (book_step_header st l Hh) as (n' & _ & Hs).
      rewrite Hs. erewrite IH by reflexivity.
      rewrite (book_content_not_header l Hh).
      rewrite (saved_open _ n') by reflexivity.
      cbn [books current_lines].
      rewrite map_app. cbn [map snd].
      rewrite concat_snoc, app_nil_r. reflexivity.
    + destruct (step_other st l Hh) as (Hn & Hb & Hl).
      rewrite (IH _ n) by (rewrite Hn; exact E).
      rewrite (saved_open (b_step st l) n) by (rewrite Hn; exact E).
      rewrite (saved_open st n E), Hb, Hl.
      rewrite !map_app. cbn [map snd].
      rewrite !concat_snoc, <- !app_assoc.
      destruct (content_line l); reflexivity.
Qed.

Lemma books_fold_closed (ls : list str) :
  forall st,
    current_book_num st = None ->
    concat (map snd (b_save (fold_left b_step ls st)))
    = concat (map snd (b_save st))
      ++ filter content_line (from_first header_line ls).
Proof.
  induction ls as [|l ls IH]; intros st E.
  - cbn [fold_left from_first filter]. rewrite app_nil_r. reflexivity.
  - cbn [fold_left from_first].
    destruct (header_line l) eqn:Hh.
    + destruct (book_step_header st l Hh) as (n' & _ & Hs).
      rewrite Hs. erewrite books_fold_open by reflexivity.
      rewrite (saved_open _ n') by reflexivity.
      cbn [books current_lines filter].
      rewrite (book_content_not_header l Hh).
      rewrite map_app. cbn [map snd].
      rewrite concat_snoc, app_nil_r. reflexivity.
    + destruct (step_other st l Hh) as (Hn & Hb & _).
      rewrite IH by (rewrite Hn; exact E).
      rewrite (saved_closed (b_step st l)) by (rewrite Hn; exact E).
      rewrite (saved_closed st E), Hb. reflexivity.
Qed.

(** The books: one for every header line, numbered between 1 and 12. *)
Lemma fold_books (ls : list str) :
  forall st,
    Forall (fun b => (1 <= fst b <= 12)%Z) (b_save st) ->
    Forall (fun b => (1 <= fst b <= 12)%Z) (b_save (fold_left b_step ls st))
    /\ length (b_save (fold_left b_step ls st))
       = (length (b_save st) + length (filter header_line ls))%nat.
Proof.
  induction ls as [|l ls IH]; intros st H.
  - cbn [fold_left filter length]. split; [exact H|lia].
  - cbn [fold_left filter].
    destruct (header_line l) eqn:Hh.
    + destruct (book_step_header st l Hh) as (n' & Hr & Hs).
      assert (Hsave : b_save (b_step st l) = b_save st ++ [(n', [])])
        by (rewrite Hs; reflexivity).
      destruct (IH (b_step st l)) as [Hf Hlen].
      { rewrite Hsave. apply Forall_app. split; [exact H|].
        apply Forall_cons; [exact Hr|constructor]. }
      split; [exact Hf|].
      rewrite Hlen, Hsave, length_app. cbn [length]. lia.
    + destruct (step_other st l Hh) as (Hn & Hb & Hl).
      assert (Hsave : map fst (b_save (b_step st l)) = map fst (b_save st)).
      { unfold b_save. rewrite Hn, Hb.
        destruct (current_book_num st); [|reflexivity].
        rewrite !map_app. reflexivity. }
      destruct (IH (b_step st l)) as [Hf Hlen].
      { apply (proj1 (@Forall_map _ _ fst (fun n => (1 <= n <= 12)%Z) _)).
        rewrite Hsave.
        apply (proj2 (@Forall_map _ _ fst (fun n => (1 <= n <= 12)%Z) _)).
        exact H. }
      split; [exact Hf|].
      rewrite Hlen. f_equal.
      rewrite <- (length_map fst (b_save (b_step st l))), Hsave.
      apply length_map.
Qed.

(** X12. [split_into_books] makes one book for every book header line,
    with a number between 1 and 12, and the books hold, in the order of
    the input, exactly the lines after the first header that are neither
    a book header nor a separator: none is lost, doubled or moved, and
    what precedes the first header is dropped. *)
Theorem books_keep_content_lines (ls : list str) :
  concat (map snd (split_into_books ls))
  = filter content_line (from_first header_line ls)
  /\ Forall (fun b => (1 <= fst b <= 12)%Z) (split_into_books ls)
  /\ length (split_into_books ls) = length (filter header_line ls).
Proof.
  unfold split_into_books. split.
  - rewrite books_fold_closed by reflexivity. reflexivity.
  - destruct (fold_books ls
                {| books := []; current_book_num := None;
                   current_lines := [] |}) as [Hf Hlen];
      [constructor|].
    split; [exact Hf|exact Hlen].
Qed.

End BookLines.

(* ======================================================================= *)
(** * Words under rewriting of white space *)
(* ======================================================================= *)

Module Words.
Import PyFacts ReFacts.

(** ** White space in front of, behind and inside a text *)

Lemma ws_head (cur : str) (c : char) (x : str) :
  isspace c = true ->
  split_ws_from cur (c :: x) = split_ws_from cur [] ++ split_ws_from [] x.
Proof.
  intros H. cbn [split_ws_from]. rewrite H. destruct cur; reflexivity.
Qed.

Lemma ws_skip (w x : str) :
  forallb isspace w = true ->
  split_ws_from [] (w ++ x) = split_ws_from [] x.
Proof.
  induction w as [|c w IH]; intros H; [reflexivity|].
  cbn [forallb] in H. apply andb_true_iff in H. destruct H as [Hc Hw].
  cbn [app]. rewrite (ws_head [] c _ Hc). exact (IH Hw).
Qed.

Lemma ws_prefix (cur w x : str) :
  forallb isspace w = true -> w <> [] ->
  split_ws_from cur (w ++ x) = split_ws_from cur [] ++ split_ws_from [] x.
Proof.
  destruct w as [|c w]; intros H Hne; [contradiction|].
  cbn [forallb] in H. apply andb_true_iff in H. destruct H as [Hc Hw].
  cbn [app]. rewrite (ws_head cur c _ Hc), (ws_skip w x Hw). reflexivity.
Qed.

Lemma ws_suffix (w : str) :
  forallb isspace w = true ->
  forall y cur, split_ws_from cur (y ++ w) = split_ws_from cur y.
Proof.
  intros Hw. induction y as [|c y IH]; intros cur.
  - cbn [app]. destruct w as [|c w]; [reflexivity|].
    pose proof (ws_prefix cur (c :: w) [] Hw ltac:(discriminate)) as H.
    rewrite app_nil_r in H. rewrite H. apply app_nil_r.
  - cbn [app split_ws_from].
    destruct (isspace c); [destruct cur|]; rewrite IH; reflexivity.
Qed.

Lemma ws_middle (c : char) (x : str) :
  isspace c = true ->
  forall a cur,
    split_ws_from cur (a ++ c :: x)
    = split_ws_from cur a ++ split_ws_from [] x.
Proof.
  intros Hc. induction a as [|d a IH]; intros cur.
  - cbn [app]. apply ws_head. exact Hc.
  - cbn [app split_ws_from].
    destruct (isspace d); [destruct cur|]; rewrite IH; reflexivity.
Qed.

(** A word being read comes out. *)
Lemma open_word (s : str) :
  forall cur, cur <> [] -> split_ws_from cur s <> [].
Proof.
  induction s as [|c s IH]; intros cur Hcur.
  - cbn [split_ws_from]. destruct cur; [contradiction|discriminate].
  - cbn [split_ws_from]. destruct (isspace c).
    + destruct cur; [contradiction|discriminate].
    + apply IH. discriminate.
Qed.

Lemma starts_with_word (c : char) (r : str) :
  isspace c = false -> split_ws (c :: r) <> [].
Proof.
  intros H. unfold split_ws. cbn [split_ws_from]. rewrite H.
  apply open_word. discriminate.
Qed.

(** ** strip *)

Lemma strip_words (s : str) : split_ws (strip s) = split_ws s.
Proof.
  unfold split_ws, strip, rstrip, lstrip.
  destruct (rstrip_by_split isspace (dropwhile isspace s)) as [w [Hw Hp]].
  destruct (dropwhile_split isspace s) as [pre [Hs Hpre]].
  rewrite Hs at 2. rewrite (ws_skip pre _ Hpre).
  rewrite Hw at 2. rewrite (ws_suffix w Hp). reflexivity.
Qed.

(** A stripped string without words is empty. *)
Lemma strip_no_words (s : str) : split_ws s = [] -> strip s = [].
Proof.
  intros H. destruct (strip s) as [|c r] eqn:E; [reflexivity|].
  exfalso. apply (starts_with_word c r (strip_head s c r E)).
  rewrite <- E, strip_words. exact H.
Qed.

(** ** Stripping the lines of a text *)

Lemma join_cons (p q : str) (ls : list str) :
  join [NL] (p :: q :: ls) = p ++ NL :: join [NL] (q :: ls).
Proof. reflexivity. Qed.

Lemma strip_lines_words (ls : list str) :
  split_ws (join [NL] (map strip ls)) = split_ws (join [NL] ls).
Proof.
  unfold split_ws. induction ls as [|p ls IH]; [reflexivity|].
  destruct ls as [|q ls].
  - cbn [map join]. apply strip_words.
  - change (map strip (p :: q :: ls))
      with (strip p :: strip q :: map strip ls).
    rewrite !join_cons.
    rewrite !(ws_middle NL _ MatchShape.isspace_NL).
    change (strip q :: map strip ls) with (map strip (q :: ls)).
    rewrite IH. f_equal. apply strip_words.
Qed.

(** ** Substitution of a run of white space by white space *)

Lemma firstn_app_length {A} (a b : list A) : firstn (length a) (a ++ b) = a.
Proof.
  rewrite firstn_app, Nat.sub_diag, firstn_all. cbn [firstn].
  apply app_nil_r.
Qed.

Lemma sub_rep_words (total n : nat) (p : char -> bool) (repl : str) :
  (1 <= n)%nat ->
  (forall c, p c = true -> isspace c = true) ->
  forallb isspace repl = true -> repl <> [] ->
  forall s k cur,
    forallb isspace (firstn k s) = true ->
    (k <> 0%nat -> cur = []) ->
    split_ws_from cur (sub_from total (Rep true n p) repl k s)
    = split_ws_from cur s.
Proof.
  intros Hn Hp Hrepl Hne.
  induction s as [|c s IH]; intros k cur Hk Hcur.
  - cbn [sub_from run]. destruct n as [|n]; [lia|].
    cbn [rep map]. destruct k; reflexivity.
  - destruct k as [|k].
    + cbn [sub_from].
      destruct (run total (Rep true n p) (c :: s) [])
        as [|[rest cs] others] eqn:Er.
      * cbn [split_ws_from].
        destruct (isspace c); [destruct cur|];
          rewrite (IH 0%nat) by (reflexivity || intros H; contradiction);
          reflexivity.
      * assert (Hin : In rest (rep true n p (c :: s))).
        { assert (Hin : In (rest, cs)
                           (run total (Rep true n p) (c :: s) []))
            by (rewrite Er; left; reflexivity).
          cbn [run] in Hin.
          apply in_map_iff in Hin. destruct Hin as (x & Hx & Hin).
          injection Hx as -> _. exact Hin. }
        destruct (rep_spec true p (c :: s) n rest Hin)
          as (pre & Hs & Hpre & Hlen).
        destruct pre as [|c0 pre]; [cbn [length] in Hlen; lia|].
        cbn [app] in Hs. injection Hs as <- ->.
        cbn [forallb] in Hpre. apply andb_true_iff in Hpre.
        destruct Hpre as [Hc Hpre].
        replace (length (c :: pre ++ rest) - length rest)%nat
          with (S (length pre))
          by (cbn [length]; rewrite length_app; lia).
        rewrite (ws_prefix cur repl _ Hrepl Hne).
        rewrite (ws_head cur c _ (Hp c Hc)). f_equal.
        apply IH; [|reflexivity].
        rewrite firstn_app_length.
        apply forallb_forall. intros x Hx. apply Hp.
        rewrite forallb_forall in Hpre. exact (Hpre x Hx).
    + cbn [sub_from]. cbn [firstn forallb] in Hk.
      apply andb_true_iff in Hk. destruct Hk as [Hc Hk].
      rewrite (Hcur ltac:(discriminate)).
      rewrite (ws_head [] c s Hc). cbn [split_ws_from app].
      apply IH; [exact Hk|reflexivity].
Qed.

Lemma re_sub_words (n : nat) (p : char -> bool) (repl : str) (s : str) :
  (1 <= n)%nat ->
  (forall c, p c = true -> isspace c = true) ->
  forallb isspace repl = true -> repl <> [] ->
  split_ws (re_sub (Rep true n p) repl s) = split_ws s.
Proof.
  intros Hn Hp Hr Hne. unfold split_ws, re_sub.
  apply sub_rep_words; try assumption; [reflexivity|].
  intros H. contradiction.
Qed.

(** ** Replacement of white space by white space *)

Lemma startswith_split (pre : str) :
  forall s, startswith s pre = true -> exists rest, s = pre ++ rest.
Proof.
  induction pre as [|p pre IH]; intros s H.
  - exists s. reflexivity.
  - destruct s as [|c s]; [discriminate|].
    cbn [startswith] in H. apply andb_true_iff in H. destruct H as [Hc Hs].
    apply eqc_eq in Hc. subst c.
    destruct (IH s Hs) as [rest ->]. exists rest. reflexivity.
Qed.

Lemma replace_from_words (old new : str) :
  old <> [] -> forallb isspace old = true ->
  forallb isspace new = true -> new <> [] ->
  forall s k cur,
    forallb isspace (firstn k s) = true ->
    (k <> 0%nat -> cur = []) ->
    split_ws_from cur (replace_from old new k s) = split_ws_from cur s.
Proof.
  intros Hone Hold Hnew Hnne.
  induction s as [|c s IH]; intros k cur Hk Hcur; [reflexivity|].
  destruct k as [|k].
  - cbn [replace_from].
    destruct (startswith (c :: s) old) eqn:Es.
    + destruct (startswith_split old _ Es) as [rest Hs].
      destruct old as [|o old]; [contradiction|].
      cbn [app] in Hs. injection Hs as <- ->.
      cbn [forallb] in Hold. apply andb_true_iff in Hold.
      destruct Hold as [Hc Hold].
      cbn [length pred].
      rewrite (ws_prefix cur new _ Hnew Hnne).
      rewrite (ws_head cur c _ Hc). f_equal.
      apply IH; [|reflexivity].
      rewrite firstn_app_length. exact Hold.
    + cbn [split_ws_from].
      destruct (isspace c); [destruct cur|];
        rewrite (IH 0%nat) by (reflexivity || intros H; contradiction);
        reflexivity.
  - cbn [replace_from]. cbn [firstn forallb] in Hk.
    apply andb_true_iff in Hk. destruct Hk as [Hc Hk].
    rewrite (Hcur ltac:(discriminate)).
    rewrite (ws_head [] c s Hc). cbn [split_ws_from app].
    apply IH; [exact Hk|reflexivity].
Qed.

Lemma replace_words (old new s : str) :
  old <> [] -> forallb isspace old = true ->
  forallb isspace new = true -> new <> [] ->
  split_ws (replace old new s) = split_ws s.
Proof.
  intros H1 H2 H3 H4. unfold split_ws, replace.
  apply replace_from_words; try assumption; [reflexivity|].
  intros H. contradiction.
Qed.

Lemma hspace_isspace (c : char) : hspace c = true -> isspace c = true.
Proof. unfold hspace. intros H. apply andb_true_iff in H. apply H. Qed.

Lemma newline_isspace (c : char) : one NL c = true -> isspace c = true.
Proof. unfold one. intros H. apply eqc_eq in H. subst c. reflexivity. Qed.

End Words.

(* ======================================================================= *)
(** * Meditations: cleaning keeps the words, sections keep their place *)
(* ======================================================================= *)

Module MeditationsText.
Import PyFacts ReFacts Meditations.

Lemma clean_text_words (t : str) :
  split_ws (clean_text t) = split_ws t.
Proof.
  unfold clean_text.
  rewrite Words.strip_words, Words.strip_lines_words, SubFacts.join_split.
  unfold RE_HSPACES, Plus.
  rewrite Words.re_sub_words
    by (lia || exact Words.hspace_isspace || reflexivity || discriminate).
  unfold RE_NEWLINES_3, AtLeast.
  rewrite Words.re_sub_words
    by (lia || exact Words.newline_isspace || reflexivity || discriminate).
  rewrite !Words.replace_words by (reflexivity || discriminate).
  reflexivity.
Qed.

(** X13. [clean_text] of [parser_meditations.py] changes white space
    only: the cleaned text has the same words (maximal runs of characters
    that are not white space), in the same order, as the text it was given.
    So the word count is that of the raw text, and the cleaned text is
    empty exactly when the raw text holds no word. *)
Theorem cleaning_keeps_the_words (t : str) :
  split_ws (clean_text t) = split_ws t
  /\ count_words (clean_text t) = count_words t
  /\ (clean_text t = [] <-> split_ws t = []).
Proof.
  split; [apply clean_text_words|].
  split; [unfold count_words; rewrite clean_text_words; reflexivity|].
  split.
  - intros E. rewrite <- clean_text_words, E. reflexivity.
  - intros E. rewrite <- clean_text_words in E.
    apply Words.strip_no_words in E.
    unfold clean_text in E |- *. rewrite strip_idem in E. exact E.
Qed.

End MeditationsText.

(* ======================================================================= *)
(** * Meditations: the sections of a book *)
(* ======================================================================= *)

Module MeditationsSections.
Import PyFacts ReFacts Meditations TextSpec.

Lemma starts_plain_app (a b : str) :
  starts_plain a = true -> starts_plain (a ++ b) = true.
Proof. destruct a; [discriminate|]. intros H. exact H. Qed.

Lemma starts_plain_join (l : str) (ls : list str) :
  starts_plain l = true -> starts_plain (join [NL] (l :: ls)) = true.
Proof.
  intros H. destruct ls as [|q ls]; [exact H|].
  rewrite Words.join_cons. apply starts_plain_app. exact H.
Qed.

Lemma starts_plain_strip (l : str) :
  eqs (strip l) [] = false -> starts_plain (strip l) = true.
Proof.
  intros H. destruct (strip l) as [|c r] eqn:E; [discriminate|].
  cbn [starts_plain]. rewrite (strip_head l c r E). reflexivity.
Qed.

(** The paragraph loop keeps true: the sections, and the lines of the
    paragraph being read, start with a character that is not white
    space. *)
Lemma para_step_plain (st : list str * list str) (line : str) :
  Forall (fun s => starts_plain s = true) (fst st) ->
  Forall (fun s => starts_plain s = true) (snd st) ->
  Forall (fun s => starts_plain s = true) (fst (para_step st line))
  /\ Forall (fun s => starts_plain s = true) (snd (para_step st line)).
Proof.
  destruct st as [sections cur]. cbn [fst snd]. intros Hs Hc.
  unfold para_step.
  destruct (eqs (strip line) []) eqn:E.
  - destruct cur as [|l cur]; cbn [fst snd]; [split; assumption|].
    split; [|constructor].
    apply Forall_app. split; [exact Hs|].
    apply Forall_cons; [|constructor].
    apply starts_plain_join. inversion Hc; assumption.
  - cbn [fst snd]. split; [exact Hs|].
    apply Forall_app. split; [exact Hc|].
    apply Forall_cons; [|constructor].
    apply starts_plain_strip. exact E.
Qed.

Lemma para_fold_plain (ls : list str) :
  forall st,
    Forall (fun s => starts_plain s = true) (fst st) ->
    Forall (fun s => starts_plain s = true) (snd st) ->
    Forall (fun s => starts_plain s = true)
           (fst (fold_left para_step ls st))
    /\ Forall (fun s => starts_plain s = true)
              (snd (fold_left para_step ls st)).
Proof.
  induction ls as [|l ls IH]; intros st Hs Hc; [split; assumption|].
  cbn [fold_left]. destruct (para_step_plain st l Hs Hc) as [Hs' Hc'].
  apply IH; assumption.
Qed.

Lemma attach_colophon_plain (re : regex) (sections : list str) :
  Forall (fun s => starts_plain s = true) sections ->
  Forall (fun s => starts_plain s = true) (attach_colophon re sections).
Proof.
  intros H. unfold attach_colophon.
  pose proof (Forall_rev H) as Hr.
  destruct (rev sections) as [|last before_rev]; [exact H|].
  destruct (matches re (strip last)); [|exact H].
  inversion Hr as [|x xs Hlast Hbefore]; subst.
  destruct before_rev as [|prev earlier_rev].
  - apply Forall_cons; [exact Hlast|constructor].
  - inversion Hbefore as [|x xs Hprev Hearlier]; subst.
    apply Forall_app. split; [apply Forall_rev; exact Hearlier|].
    apply Forall_cons; [|constructor].
    apply starts_plain_app. exact Hprev.
Qed.

Lemma sections_plain (book_num : Z) (ls : list str) :
  Forall (fun s => starts_plain s = true)
         (split_book_into_sections book_num ls).
Proof.
  unfold split_book_into_sections.
  destruct (para_fold_plain ls ([], [])) as [Hs Hc]; try constructor.
  destruct (fold_left para_step ls ([], [])) as [sections cur].
  cbn [fst snd] in Hs, Hc.
  assert (H : Forall (fun s => starts_plain s = true)
                     match cur with
                     | [] => sections
                     | _ :: _ => sections ++ [join [NL] cur]
                     end).
  { destruct cur as [|l cur]; [exact Hs|].
    apply Forall_app. split; [exact Hs|].
    apply Forall_cons; [|constructor].
    apply starts_plain_join. inversion Hc; assumption. }
  destruct (book_num =? 1)%Z; destruct (book_num =? 2)%Z;
    repeat apply attach_colophon_plain; exact H.
Qed.

(** A text that starts with a word is not empty after cleaning. *)
Lemma clean_text_plain (t : str) :
  starts_plain t = true -> truthy (clean_text t) = true.
Proof.
  intros H. destruct (truthy (clean_text t)) eqn:E; [reflexivity|].
  exfalso. apply truthy_false in E.
  destruct t as [|c r]; [discriminate|].
  cbn [starts_plain] in H. apply negb_true_iff in H.
  apply (Words.starts_with_word c r H).
  rewrite <- MeditationsText.clean_text_words, E. reflexivity.
Qed.

Lemma book_sections_all (book_num : Z) (raws : list str) :
  Forall (fun s => starts_plain s = true) raws ->
  forall i,
    map section_index (book_sections book_num i raws)
    = map (fun k => (i + Z.of_nat k)%Z) (seq 0 (length raws))
    /\ map text (book_sections book_num i raws) = map clean_text raws.
Proof.
  induction 1 as [|raw raws Hraw Hraws IH]; intros i; [split; reflexivity|].
  cbn [book_sections]. rewrite (clean_text_plain raw Hraw). cbn [negb].
  cbn [map section_index text length seq].
  destruct (IH (i + 1)%Z) as [Hi Ht]. split.
  - f_equal; [lia|]. rewrite Hi, <- seq_shift, map_map.
    apply map_ext. intros k. lia.
  - f_equal. exact Ht.
Qed.

(** X14. Every section that [split_book_into_sections] cuts out of a
    book gives a record in [build_sections]: none is empty after cleaning,
    so the section numbers of a book run from 1 to the number of its
    paragraphs without a gap, each text is the cleaned paragraph, and each
    word count is the number of words of the raw paragraph. *)
Theorem sections_are_numbered_without_gaps (book_num : Z)
  (ls : list str) :
  let raws := split_book_into_sections book_num ls in
  let secs := book_sections book_num 1 raws in
  map section_index secs = map Z.of_nat (seq 1 (length raws))
  /\ map text secs = map clean_text raws
  /\ map word_count secs = map count_words raws
  /\ Forall (fun s => text s <> []) secs.
Proof.
  intros raws secs.
  pose proof (sections_plain book_num ls) as Hp. fold raws in Hp.
  destruct (book_sections_all book_num raws Hp 1) as [Hi Ht].
  fold secs in Hi, Ht.
  assert (Hwc : forall i l, map word_count (book_sections book_num i l)
                            = map count_words
                                (map text (book_sections book_num i l))).
  { intros i l. revert i. induction l as [|r l IH]; intros i; [reflexivity|].
    cbn [book_sections]. destruct (negb (truthy (clean_text r))); [apply IH|].
    cbn [map word_count text]. f_equal. apply IH. }
  split.
  - rewrite Hi, <- seq_shift, map_map. apply map_ext. intros k. lia.
  - split; [exact Ht|]. split.
    + unfold secs. rewrite Hwc. fold secs. rewrite Ht, map_map.
      apply map_ext. intros t. unfold count_words.
      rewrite MeditationsText.clean_text_words. reflexivity.
    + assert (Hall : Forall (fun t => t <> []) (map text secs)).
      { rewrite Ht.
        apply (proj2 (@Forall_map _ _ clean_text (fun t => t <> []) raws)).
        apply (Forall_impl _ (P := fun s => starts_plain s = true));
          [|exact Hp].
        intros t Hst E. apply clean_text_plain in Hst.
        rewrite E in Hst. discriminate. }
      exact (proj1 (@Forall_map _ _ text (fun t => t <> []) secs) Hall).
Qed.

End MeditationsSections.

(* ======================================================================= *)
(** * On the Shortness of Life: the chapters *)
(* ======================================================================= *)

Module ShortnessChapters.
Import PyFacts ReFacts Shortness TextSpec ShortnessSpec.

(** ** find_content_start *)


(** ** The numbers of the chapters *)

Lemma chapter_header_range (s : str) (num : Z) (t : str) :
  chapter_header s = Some (num, t) -> (1 <= num <= 20)%Z.
Proof.
  unfold chapter_header.
  destruct (re_match RE_CHAPTER_HEADER s) as [[r m]|]; [|discriminate].
  destruct ((1 <=? _)%Z && (_ <=? 20)%Z) eqn:E; [|discriminate].
  intros H. injection H as <- _.
  apply andb_true_iff in E. destruct E as [E1 E2].
  apply Z.leb_le in E1. apply Z.leb_le in E2. lia.
Qed.

Lemma step_numbers (st : pstate) (line : str) :
  exists extra,
    map number (save (step st line)) = map number (save st) ++ extra
    /\ Forall (fun n => (1 <= n <= 20)%Z) extra.
Proof.
  assert (Hopen : forall num t,
             chapter_header (strip line) = Some (num, t) ->
             exists extra,
               map number (save (open_chapter st num t))
               = map number (save st) ++ extra
               /\ Forall (fun n => (1 <= n <= 20)%Z) extra).
  { intros num t Hh. exists [num]. split.
    - unfold open_chapter, save at 1.
      cbn [current_num raw_chapters]. rewrite map_app. reflexivity.
    - apply Forall_cons; [exact (chapter_header_range _ _ _ Hh)|constructor]. }
  assert (Hsame : forall st', map number (save st') = map number (save st) ->
             exists extra,
               map number (save st') = map number (save st) ++ extra
               /\ Forall (fun n => (1 <= n <= 20)%Z) extra).
  { intros st' E. exists []. rewrite app_nil_r. split; [exact E|constructor]. }
  unfold step.
  destruct (matches RE_FOOTNOTES_HEADER (strip line)).
  { apply Hsame. reflexivity. }
  destruct (in_footnotes st).
  - destruct (chapter_header (strip line)) as [[num t]|] eqn:Eh.
    + exact (Hopen num t eq_refl).
    + apply Hsame. reflexivity.
  - destruct (chapter_header (strip line)) as [[num t]|] eqn:Eh.
    + exact (Hopen num t eq_refl).
    + apply Hsame. unfold save.
      destruct (current_num st) as [n|] eqn:En; [|rewrite En; reflexivity].
      cbn [current_num raw_chapters]. rewrite !map_app. reflexivity.
Qed.

Lemma chapters_fold_numbers (ls : list str) :
  forall st,
    exists extra,
      map number (save (fold_left step ls st)) = map number (save st) ++ extra
      /\ Forall (fun n => (1 <= n <= 20)%Z) extra.
Proof.
  induction ls as [|l ls IH]; intros st.
  - exists []. rewrite app_nil_r. split; [reflexivity|constructor].
  - cbn [fold_left].
    destruct (IH (step st l)) as (e2 & H2 & F2).
    destruct (step_numbers st l) as (e1 & H1 & F1).
    exists (e1 ++ e2). rewrite H2, H1, app_assoc.
    split; [reflexivity|]. apply Forall_app. split; assumption.
Qed.

Lemma parse_chapters_range (all : list str) (i : nat) :
  Forall (fun n => (1 <= n <= 20)%Z) (map number (parse_chapters all i)).
Proof.
  unfold parse_chapters.
  destruct (chapters_fold_numbers (skipn i all)
              {| raw_chapters := []; current_num := None;
                 current_first_line_text := None; current_lines := [];
                 in_footnotes := false |}) as (extra & H & F).
  rewrite H. exact F.
Qed.




(** ** The sections *)

Lemma chapter_sections_from (raw : list raw_chapter) :
  Forall (fun s => exists ch, In ch raw /\ build_section ch = Some s)
         (build_sections raw).
Proof.
  induction raw as [|ch raw IH]; [constructor|].
  cbn [build_sections].
  assert (Hrest : Forall (fun s => exists c0, In c0 (ch :: raw)
                                              /\ build_section c0 = Some s)
                         (build_sections raw)).
  { apply (Forall_impl _ (P := fun s => exists c0,
                                  In c0 raw /\ build_section c0 = Some s));
      [|exact IH].
    intros s (c0 & Hin & Hb). exists c0. split; [right; exact Hin|exact Hb]. }
  destruct (build_section ch) as [s|] eqn:E; [|exact Hrest].
  apply Forall_cons; [|exact Hrest].
  exists ch. split; [left; reflexivity|exact E].
Qed.

Lemma chapter_id_width_checked :
  forallb (fun k => (length (format_d 2 (Z.of_nat k)) =? 2)%nat) (seq 1 20)
  = true.
Proof. vm_compute. reflexivity. Qed.

Lemma chapter_id_width (n : Z) :
  (1 <= n <= 20)%Z -> length (format_d 2 n) = 2%nat.
Proof.
  intros Hn. pose proof chapter_id_width_checked as H.
  rewrite forallb_forall in H. specialize (H (Z.to_nat n)).
  rewrite Z2Nat.id in H by lia.
  apply Nat.eqb_eq. apply H. apply in_seq. lia.
Qed.

(** X16. When a run of [main] in [parser_shortness.py] writes a
    document, the document has at least one section, and every section
    has a chapter number between 1 and 20, a text that is not empty, and
    an id made of [shortness_ch] and exactly two digits. *)
Theorem written_chapters_are_numbered (today : str) (all : list str)
  (d : document section) :
  main today all false = Written d ->
  doc_sections d <> []
  /\ Forall (fun s => (1 <= chapter s <= 20)%Z
                      /\ text s <> []
                      /\ id s = lit "shortness_ch" ++ format_d 2 (chapter s)
                      /\ length (id s) = 14%nat)
            (doc_sections d).
Proof.
  unfold main. intros H.
  destruct (find_content_start all) as [i|[st msg]]; [|discriminate].
  cbn [negb] in H.
  destruct (build_sections (parse_chapters all i)) as [|s0 rest] eqn:Eb;
    [discriminate|].
  injection H as <-. cbn [doc_sections].
  split; [discriminate|].
  rewrite <- Eb.
  pose proof (parse_chapters_range all i) as Hr.
  rewrite Forall_forall in Hr.
  apply (Forall_impl _ (P := fun s => exists ch,
                                In ch (parse_chapters all i)
                                /\ build_section ch = Some s));
    [|apply chapter_sections_from].
  intros s (ch & Hin & Hb).
  assert (Hch : (1 <= number ch <= 20)%Z)
    by (apply Hr; apply in_map; exact Hin).
  unfold build_section in Hb.
  destruct (truthy (clean_chapter_text (first_line_text ch) (lines ch)))
    eqn:Et; cbn [negb] in Hb; [|discriminate].
  injection Hb as <-. cbn [chapter text id].
  split; [exact Hch|]. split.
  { intros E0. rewrite E0 in Et. discriminate. }
  split; [reflexivity|].
  cbn [length]. rewrite (chapter_id_width _ Hch). reflexivity.
Qed.

Lemma written_chapters_are_numbered_witness :
  let all := [lit "ON THE SHORTNESS OF LIFE"; lit "Chapter I";
              lit "1. The majority of mortals, Paulinus, complain";
              lit "bitterly of the spitefulness of Nature.";
              lit "2. Why do we complain of Nature?"] in
  exists d,
    main [] all false = Written d
    /\ doc_sections d <> []
    /\ Forall (fun s => (1 <= chapter s <= 20)%Z
                        /\ text s <> []
                        /\ id s = lit "shortness_ch"
                                  ++ format_d 2 (chapter s)
                        /\ length (id s) = 14%nat)
              (doc_sections d).
Proof.
  intros all.
  destruct (main [] all false) as [st msg|exn| |d] eqn:E;
    try (vm_compute in E; discriminate).
  exists d. split; [reflexivity|].
  exact (written_chapters_are_numbered [] all d E).
Defined.

(** ** The safety net of the cleaner *)

Lemma body_lines_stop (fn : str) (post : list str) :
  matches RE_FOOTNOTES_HEADER (strip fn) = true
  \/ (exists r, strip fn = UP_ARROW :: r) ->
  forall pre, body_lines (pre ++ fn :: post) = body_lines pre.
Proof.
  intros Hfn. induction pre as [|l pre IH].
  - cbn [app body_lines].
    destruct (matches RE_FOOTNOTES_HEADER (strip fn)) eqn:E; [reflexivity|].
    destruct Hfn as [Hfn|Hfn]; [discriminate|].
    assert (Hm : matches RE_FOOTNOTE_LINE (strip fn) = true)
      by exact (proj2 (FootnoteTail.footnote_line_iff (strip fn)) Hfn).
    rewrite Hm. reflexivity.
  - cbn [app body_lines]. rewrite IH. reflexivity.
Qed.

(** X17. [clean_chapter_text] stops reading at the first line that is
    the Footnotes heading or starts with the footnote arrow: that line and
    all the lines after it leave the text as the lines before give it. *)
Theorem footnotes_end_the_chapter (first : option str)
  (pre : list str) (fn : str) (post : list str) :
  matches RE_FOOTNOTES_HEADER (strip fn) = true
  \/ (exists r, strip fn = UP_ARROW :: r) ->
  clean_chapter_text first (pre ++ fn :: post)
  = clean_chapter_text first pre.
Proof.
  intros Hfn. unfold clean_chapter_text.
  rewrite (body_lines_stop fn post Hfn pre). reflexivity.
Qed.

Lemma footnotes_end_the_chapter_witness :
  clean_chapter_text (Some (lit "Life is long enough."))
    ([lit "It is not that we have a short time to live,"]
       ++ lit "Footnotes " :: [lit "1. spurious chapter"; lit "more"])
  = clean_chapter_text (Some (lit "Life is long enough."))
      [lit "It is not that we have a short time to live,"].
Proof.
  apply (footnotes_end_the_chapter _ _ (lit "Footnotes ")).
  left. vm_compute. reflexivity.
Defined.

End ShortnessChapters.

(* ======================================================================= *)
(** * The white space of a cleaned text *)
(* ======================================================================= *)

Module Tidy.
Import PyFacts ReFacts TextSpec.

(** ** After the substitution of the runs of horizontal white space *)

Lemma skipn_app_length {A} (a b : list A) : skipn (length a) (a ++ b) = b.
Proof.
  rewrite skipn_app, Nat.sub_diag, skipn_all. reflexivity.
Qed.

Lemma dropwhile_starts_nonh (s : str) : starts_nonh (dropwhile hspace s) = true.
Proof.
  destruct (dropwhile hspace s) as [|c r] eqn:E; [reflexivity|].
  cbn [starts_nonh]. rewrite (dropwhile_head hspace s c r E). reflexivity.
Qed.

Lemma sub_squeezed_from (total : nat) :
  forall s k,
    (k <> 0%nat -> starts_nonh (skipn k s) = true) ->
    squeezed (sub_from total RE_HSPACES [SP] k s) = true
    /\ (k <> 0%nat \/ starts_nonh s = true ->
        starts_nonh (sub_from total RE_HSPACES [SP] k s) = true).
Proof.
  induction s as [|c s IH]; intros k Hk.
  - cbn [sub_from]. unfold RE_HSPACES, Plus. cbn [run rep map].
    destruct k; split; reflexivity.
  - destruct k as [|k].
    + cbn [sub_from]. unfold RE_HSPACES, Plus. cbn [run].
      destruct (hspace c) eqn:Hc.
      * destruct (dropwhile_split hspace s) as (pre & Hs & Hpre).
        pose proof (dropwhile_starts_nonh s) as Hrest.
        set (rest := dropwhile hspace s) in *.
        destruct (rep_greedy_head hspace (c :: pre) rest 1) as [others Ho].
        { cbn [forallb]. rewrite Hc, Hpre. reflexivity. }
        { intros d r E. rewrite E in Hrest. cbn [starts_nonh] in Hrest.
          apply negb_true_iff. exact Hrest. }
        { cbn [length]. lia. }
        cbn [app] in Ho. rewrite <- Hs in Ho. rewrite Ho. cbn [map].
        replace (length (c :: s) - length rest)%nat with (S (length pre))
          by (rewrite Hs at 1; cbn [length]; rewrite length_app; lia).
        destruct (IH (length pre)) as [Hsq Hst].
        { intros _. rewrite Hs, skipn_app_length. exact Hrest. }
        assert (Hst' : starts_nonh
                         (sub_from total (Rep true 1 hspace) [SP]
                                   (length pre) s) = true).
        { apply Hst. destruct pre as [|d pre]; [|left; discriminate].
          right. rewrite Hs. exact Hrest. }
        split.
        -- cbn [app squeezed]. unfold RE_HSPACES, Plus in Hsq.
           rewrite Hsq, Hst'. reflexivity.
        -- intros [H|H]; [contradiction|].
           cbn [starts_nonh] in H. rewrite Hc in H. discriminate.
      * cbn [rep]. rewrite Hc. cbn [app map].
        destruct (IH 0%nat) as [Hsq _]; [intros H; contradiction|].
        split.
        -- cbn [squeezed]. rewrite Hc. exact Hsq.
        -- intros _. cbn [starts_nonh]. rewrite Hc. reflexivity.
    + cbn [sub_from].
      specialize (Hk ltac:(discriminate)). cbn [skipn] in Hk.
      destruct (IH k) as [Hsq Hst].
      { intros _. exact Hk. }
      split; [exact Hsq|]. intros _. apply Hst.
      destruct k as [|k]; [right; exact Hk|left; discriminate].
Qed.

Lemma sub_squeezed (x : str) : squeezed (re_sub RE_HSPACES [SP] x) = true.
Proof.
  unfold re_sub.
  apply (sub_squeezed_from (length x) x 0). intros H. contradiction.
Qed.

(** ** Parts of a squeezed text *)

Lemma squeezed_tail (c : char) (s : str) :
  squeezed (c :: s) = true -> squeezed s = true.
Proof. cbn [squeezed]. intros H. apply andb_true_iff in H. apply H. Qed.

Lemma squeezed_suffix (a b : str) :
  squeezed (a ++ b) = true -> squeezed b = true.
Proof.
  induction a as [|c a IH]; intros H; [exact H|].
  apply IH. exact (squeezed_tail _ _ H).
Qed.

Lemma starts_nonh_prefix (a b : str) :
  starts_nonh (a ++ b) = true -> starts_nonh a = true.
Proof. destruct a; [reflexivity|]. intros H. exact H. Qed.

Lemma squeezed_prefix (a b : str) :
  squeezed (a ++ b) = true -> squeezed a = true.
Proof.
  induction a as [|c a IH]; intros H; [reflexivity|].
  cbn [app squeezed] in H |- *.
  apply andb_true_iff in H. destruct H as [Hc Ha].
  rewrite (IH Ha), andb_true_r.
  destruct (hspace c); [|reflexivity].
  apply andb_true_iff in Hc. destruct Hc as [Hsp Hn].
  rewrite Hsp, (starts_nonh_prefix _ _ Hn). reflexivity.
Qed.

Lemma split_head (s : str) :
  exists w ws, split_on NL s = w :: ws
               /\ (starts_nonh s = true -> starts_nonh w = true).
Proof.
  destruct s as [|c s].
  - exists [], []. split; reflexivity.
  - cbn [split_on]. destruct (eqc c NL).
    + eexists _, _. split; reflexivity.
    + pose proof (SubFacts.split_on_nonempty NL s) as Hne.
      destruct (split_on NL s) as [|w ws]; [contradiction|].
      eexists _, _. split; [reflexivity|]. intros H. exact H.
Qed.

Lemma split_squeezed (s : str) :
  squeezed s = true ->
  Forall (fun l => squeezed l = true) (split_on NL s).
Proof.
  induction s as [|c s IH]; intros H.
  - cbn [split_on]. apply Forall_cons; [reflexivity|constructor].
  - pose proof (IH (squeezed_tail _ _ H)) as Hs.
    cbn [split_on]. destruct (eqc c NL).
    + apply Forall_cons; [reflexivity|exact Hs].
    + destruct (split_head s) as (w & ws & Ew & Hw).
      rewrite Ew in Hs |- *.
      inversion Hs as [|x xs Hsw Hsws]; subst.
      apply Forall_cons; [|exact Hsws].
      cbn [squeezed] in H |- *.
      apply andb_true_iff in H. destruct H as [Hc _].
      rewrite Hsw, andb_true_r.
      destruct (hspace c); [|reflexivity].
      apply andb_true_iff in Hc. destruct Hc as [Hsp Hn].
      rewrite Hsp, (Hw Hn). reflexivity.
Qed.

(** ** A stripped line of a squeezed text *)

Lemma not_hspace (c : char) :
  hspace c = false -> c <> NL -> isspace c = false.
Proof.
  unfold hspace. intros H Hn.
  destruct (isspace c); [|reflexivity].
  apply (proj2 (eqc_neq c NL)) in Hn. rewrite Hn in H. discriminate.
Qed.

Lemma space_is_hspace : hspace SP = true.
Proof. reflexivity. Qed.

Lemma line_spaces_inside (s : str) :
  forall prev,
    squeezed s = true ->
    ~ In NL s ->
    (forall r c, s = r ++ [c] -> isspace c = false) ->
    prev = true \/ starts_plain s = true \/ s = [] ->
    spaces_inside prev s = true.
Proof.
  induction s as [|c s IH]; intros prev Hsq Hnl Hlast Hprev; [reflexivity|].
  cbn [spaces_inside].
  assert (Hlast' : forall r d, s = r ++ [d] -> isspace d = false).
  { intros r d E. apply (Hlast (c :: r) d). rewrite E. reflexivity. }
  assert (Hnl' : ~ In NL s) by (intros H; apply Hnl; right; exact H).
  pose proof (squeezed_tail _ _ Hsq) as Hsq'.
  cbn [squeezed] in Hsq. apply andb_true_iff in Hsq. destruct Hsq as [Hc _].
  destruct (eqc c SP) eqn:Esp.
  - apply eqc_eq in Esp. subst c. rewrite space_is_hspace in Hc.
    apply andb_true_iff in Hc. destruct Hc as [_ Hn].
    assert (Hp : prev = true).
    { destruct Hprev as [Hp|[Hp|Hp]]; [exact Hp|discriminate Hp|
                                         discriminate Hp]. }
    assert (Hs : starts_plain s = true).
    { destruct s as [|d s].
      - exfalso. specialize (Hlast [] SP eq_refl). discriminate Hlast.
      - cbn [starts_plain]. cbn [starts_nonh] in Hn.
        apply negb_true_iff in Hn. apply negb_true_iff.
        apply not_hspace; [exact Hn|].
        intros ->. apply Hnl'. left. reflexivity. }
    rewrite Hp, Hs. cbn [andb].
    apply IH; try assumption. right. left. exact Hs.
  - cbn [andb].
    assert (Hplain : isspace c = false).
    { apply not_hspace.
      - destruct (hspace c); [|reflexivity].
        apply andb_true_iff in Hc. destruct Hc as [Hc _].
        rewrite Hc in Esp. discriminate.
      - intros ->. apply Hnl. left. reflexivity. }
    rewrite Hplain. apply IH; try assumption. left. reflexivity.
Qed.

Lemma strip_parts (l : str) :
  exists pre post, l = pre ++ strip l ++ post
                   /\ forallb isspace pre = true
                   /\ forallb isspace post = true.
Proof.
  unfold strip, rstrip, lstrip.
  destruct (dropwhile_split isspace l) as (pre & Hl & Hpre).
  destruct (rstrip_by_split isspace (dropwhile isspace l))
    as (post & Hd & Hpost).
  exists pre, post. split; [|split; assumption].
  rewrite <- Hd. exact Hl.
Qed.

Lemma strip_chars (l : str) (c : char) : In c (strip l) -> In c l.
Proof.
  destruct (strip_parts l) as (pre & post & Hl & _). intros H.
  rewrite Hl. apply in_or_app. right. apply in_or_app. left. exact H.
Qed.

Lemma stripped_line (l : str) :
  squeezed l = true -> ~ In NL l ->
  spaces_inside false (strip l) = true
  /\ forallb ws_ok (strip l) = true.
Proof.
  intros Hsq Hnl.
  destruct (strip_parts l) as (pre & post & Hl & _).
  assert (Hsq' : squeezed (strip l) = true).
  { rewrite Hl in Hsq.
    exact (squeezed_prefix _ _ (squeezed_suffix _ _ Hsq)). }
  assert (Hnl' : ~ In NL (strip l))
    by (intros H; apply Hnl; exact (strip_chars l NL H)).
  split.
  - apply line_spaces_inside; try assumption.
    + intros r c E. exact (strip_last l r c E).
    + right. destruct (strip l) as [|c r] eqn:E; [right; reflexivity|].
      left. cbn [starts_plain]. rewrite (strip_head l c r E). reflexivity.
  - apply forallb_forall. intros c Hc. unfold ws_ok.
    destruct (isspace c) eqn:Ei; [|reflexivity]. cbn [negb orb].
    assert (Hh : hspace c = true).
    { unfold hspace. rewrite Ei. cbn [andb]. apply negb_true_iff.
      apply eqc_neq. intros ->. exact (Hnl' Hc). }
    apply in_split in Hc. destruct Hc as (a & b & E).
    rewrite E in Hsq'. apply squeezed_suffix in Hsq'.
    cbn [squeezed] in Hsq'. rewrite Hh in Hsq'.
    apply andb_true_iff in Hsq'. destruct Hsq' as [Hc _].
    apply andb_true_iff in Hc. destruct Hc as [Hc _].
    rewrite Hc. reflexivity.
Qed.

(** ** The lines joined *)

Lemma spaces_inside_line (r : str) :
  spaces_inside false r = true ->
  forall l prev,
    spaces_inside prev l = true ->
    spaces_inside prev (l ++ NL :: r) = true.
Proof.
  intros Hr. induction l as [|c l IH]; intros prev H.
  - cbn [app spaces_inside]. exact Hr.
  - cbn [app spaces_inside] in H |- *.
    apply andb_true_iff in H. destruct H as [Hc Hl].
    rewrite (IH _ Hl), andb_true_r.
    destruct (eqc c SP); [|reflexivity].
    apply andb_true_iff in Hc. destruct Hc as [Hp Hs].
    rewrite Hp. cbn [andb].
    destruct l; [discriminate|exact Hs].
Qed.

Lemma joined_lines (ls : list str) :
  Forall (fun l => spaces_inside false l = true
                   /\ forallb ws_ok l = true) ls ->
  spaces_inside false (join [NL] ls) = true
  /\ forallb ws_ok (join [NL] ls) = true.
Proof.
  induction 1 as [|l ls [Hl Hw] Hls [IHs IHw]]; [split; reflexivity|].
  destruct ls as [|q ls]; [split; assumption|].
  rewrite Words.join_cons. split.
  - apply spaces_inside_line; assumption.
  - rewrite forallb_app. cbn [forallb]. rewrite Hw, IHw. reflexivity.
Qed.

(** ** The text stripped *)

Lemma spaces_inside_suffix (a b : str) :
  forallb isspace a = true ->
  spaces_inside false (a ++ b) = true -> spaces_inside false b = true.
Proof.
  induction a as [|c a IH]; intros Ha H; [exact H|].
  cbn [forallb] in Ha. apply andb_true_iff in Ha. destruct Ha as [Hc Ha].
  cbn [app spaces_inside] in H. apply andb_true_iff in H.
  destruct H as [_ H]. rewrite Hc in H. exact (IH Ha H).
Qed.

Lemma spaces_inside_prefix (b : str) :
  forall a prev,
    (forall r c, a = r ++ [c] -> isspace c = false) ->
    spaces_inside prev (a ++ b) = true -> spaces_inside prev a = true.
Proof.
  induction a as [|c a IH]; intros prev Hlast H; [reflexivity|].
  cbn [app spaces_inside] in H |- *.
  apply andb_true_iff in H. destruct H as [Hc Ha].
  assert (Hlast' : forall r d, a = r ++ [d] -> isspace d = false).
  { intros r d E. apply (Hlast (c :: r) d). rewrite E. reflexivity. }
  rewrite (IH _ Hlast' Ha), andb_true_r.
  destruct (eqc c SP) eqn:Esp; [|reflexivity].
  apply andb_true_iff in Hc. destruct Hc as [Hp Hs]. rewrite Hp.
  destruct a as [|d a]; [|exact Hs].
  apply eqc_eq in Esp. subst c.
  specialize (Hlast [] SP eq_refl). discriminate Hlast.
Qed.

Lemma strip_tidy (s : str) :
  spaces_inside false s = true -> forallb ws_ok s = true ->
  tidy (strip s) = true.
Proof.
  intros Hs Hw.
  destruct (strip_parts s) as (pre & post & E & Hpre & _).
  unfold tidy. apply andb_true_iff. split; [apply andb_true_iff; split|].
  - apply forallb_forall. intros c Hc.
    rewrite forallb_forall in Hw. apply Hw. exact (strip_chars s c Hc).
  - rewrite E in Hs. apply (spaces_inside_suffix pre _ Hpre) in Hs.
    apply (spaces_inside_prefix post (strip s) false); [|exact Hs].
    intros r c Er. exact (strip_last s r c Er).
  - destruct (strip s) as [|c r] eqn:Es; [reflexivity|].
    apply andb_true_iff. split.
    + cbn [starts_plain]. rewrite (strip_head s c r Es). reflexivity.
    + unfold ends_plain.
      destruct (exists_last (l := c :: r)) as (r' & c' & Er);
        [discriminate|].
      rewrite Er, rev_app_distr. cbn [rev app starts_plain].
      rewrite Er in Es. rewrite (strip_last s r' c' Es). reflexivity.
Qed.

(** The last three steps of the cleaners. *)
Lemma tail_tidy (x : str) :
  tidy (strip (join [NL]
                 (map strip (split_on NL (re_sub RE_HSPACES [SP] x)))))
  = true.
Proof.
  assert (H : Forall (fun l => spaces_inside false l = true
                               /\ forallb ws_ok l = true)
                     (map strip (split_on NL (re_sub RE_HSPACES [SP] x)))).
  { apply Forall_forall. intros l' Hin.
    apply in_map_iff in Hin. destruct Hin as (l & <- & Hl).
    apply stripped_line.
    - pose proof (split_squeezed _ (sub_squeezed x)) as Hsq.
      rewrite Forall_forall in Hsq. exact (Hsq l Hl).
    - exact (SubFacts.split_on_no_sep NL _ l Hl). }
  destruct (joined_lines _ H) as [Hs Hw].
  exact (strip_tidy _ Hs Hw).
Qed.

(** X18. What [clean_text] returns, in [parser_meditations.py] and in
    [parser_discourses.py] alike, is tidy: its only white space is the
    space and the newline, every space stands between two characters that
    are not white space (so no two spaces in a row, and none at the start
    or the end of a line), and the text neither starts nor ends with
    white space.  Runs of newlines are not bounded by this. *)
Theorem cleaned_text_is_tidy (t : str) :
  tidy (Meditations.clean_text t) = true
  /\ tidy (Discourses.clean_text t) = true.
Proof.
  split.
  - unfold Meditations.clean_text. apply tail_tidy.
  - unfold Discourses.clean_text. apply tail_tidy.
Qed.

End Tidy.

(* ======================================================================= *)
(** * Roman numerals beyond the letters *)
(* ======================================================================= *)

Module RomanRange.
Import Roman.

Lemma roundtrip_checked_3999 :
  forallb (fun k => roundtrip_ok (Z.of_nat k)) (seq 1 3999) = true.
Proof. vm_compute. reflexivity. Qed.

(** X19. For every integer [n] from 1 to 3999, the range of the
    standard numerals, [roman_to_int] reads the numeral that
    [int_to_roman] writes for [n] back as [n], and the numeral uses only
    the letters I, V, X, L, C, D, M. *)
Theorem roman_roundtrip_to_3999 (n : Z) :
  (1 <= n <= 3999)%Z ->
  roman_to_int (int_to_roman n) = n
  /\ Forall (fun c => In c alphabet) (int_to_roman n).
Proof.
  intros Hn. pose proof roundtrip_checked_3999 as H.
  rewrite forallb_forall in H. specialize (H (Z.to_nat n)).
  rewrite Z2Nat.id in H by lia.
  assert (Hok : roundtrip_ok n = true) by (apply H; apply in_seq; lia).
  unfold roundtrip_ok in Hok. apply andb_true_iff in Hok.
  destruct Hok as [Hrt Hal]. split.
  - apply Z.eqb_eq. exact Hrt.
  - apply Forall_forall. intros c Hc.
    rewrite forallb_forall in Hal. specialize (Hal c Hc).
    apply existsb_exists in Hal. destruct Hal as [a [Ha Hca]].
    apply N.eqb_eq in Hca. subst a. exact Ha.
Qed.

Lemma roman_roundtrip_to_3999_witness :
  (1 <= 1994 <= 3999)%Z
  /\ roman_to_int (int_to_roman 1994) = 1994%Z
  /\ Forall (fun c => In c alphabet) (int_to_roman 1994).
Proof.
  split; [lia|apply (roman_roundtrip_to_3999 1994); lia].
Defined.

(** X20. [int_to_roman] writes the empty string for zero and for every
    negative integer, and [roman_to_int] reads the empty string as 0. *)
Theorem int_to_roman_of_nonpositive (n : Z) :
  (n <= 0)%Z -> int_to_roman n = [] /\ roman_to_int [] = 0%Z.
Proof.
  intros Hn. split; [|reflexivity].
  unfold int_to_roman.
  replace (Z.to_nat n) with 0%nat by lia.
  unfold _ROMAN_VALUES. cbn [fold_left emit_while snd concat]. reflexivity.
Qed.

Lemma int_to_roman_of_nonpositive_witness :
  (-3 <= 0)%Z /\ int_to_roman (-3) = [] /\ roman_to_int [] = 0%Z.
Proof.
  split; [lia|apply (int_to_roman_of_nonpositive (-3)); lia].
Defined.

End RomanRange.

(* ======================================================================= *)
(** * Discourses: the parts that may be missing *)
(* ======================================================================= *)

Module OptionalParts.
Import PyFacts ReFacts Discourses.





End OptionalParts.

(* ======================================================================= *)
(** * Letters: when validate finds nothing to report *)
(* ======================================================================= *)

Module ValidateLetters.
Import PyFacts Letters.

(** ** [sorted] sorts *)

Lemma in_sorted (l : list Z) (x : Z) : In x (sorted l) <-> In x l.
Proof.
  rewrite !(count_occ_In Z.eq_dec).
  pose proof (LetterNumbers.count_sorted x l) as H. unfold count in H.
  rewrite H. reflexivity.
Qed.

Lemma in_insert_sorted (x : Z) (l : list Z) (z : Z) :
  In z (insert_sorted x l) -> z = x \/ In z l.
Proof.
  induction l as [|y l IH]; cbn [insert_sorted].
  - intros [<-|[]]. left. reflexivity.
  - destruct (x <=? y)%Z.
    + intros [<-|H]; [left; reflexivity|right; exact H].
    + intros [<-|H]; [right; left; reflexivity|].
      destruct (IH H) as [->|Hz]; [left; reflexivity|right; right; exact Hz].
Qed.

Lemma insert_sorted_sorted (x : Z) (l : list Z) :
  StronglySorted Z.le l -> StronglySorted Z.le (insert_sorted x l).
Proof.
  induction 1 as [|y l Hs IH Hy]; cbn [insert_sorted].
  - apply SSorted_cons; constructor.
  - destruct (x <=? y)%Z eqn:E.
    + apply Z.leb_le in E. apply SSorted_cons.
      * apply SSorted_cons; assumption.
      * apply Forall_cons; [exact E|].
        apply (Forall_impl _ (P := Z.le y)); [|exact Hy].
        intros z Hz. lia.
    + apply Z.leb_gt in E. apply SSorted_cons; [exact IH|].
      apply Forall_forall. intros z Hz.
      destruct (in_insert_sorted x l z Hz) as [->|Hin]; [lia|].
      rewrite Forall_forall in Hy. exact (Hy z Hin).
Qed.

Lemma sorted_sorted (l : list Z) : StronglySorted Z.le (sorted l).
Proof.
  unfold sorted. induction l as [|x l IH]; [constructor|].
  cbn [fold_right]. apply insert_sorted_sorted. exact IH.
Qed.

Lemma nodup_sorted (l : list Z) : NoDup l <-> NoDup (sorted l).
Proof.
  rewrite !(NoDup_count_occ Z.eq_dec).
  split; intros H x; specialize (H x);
    pose proof (LetterNumbers.count_sorted x l) as Hc; unfold count in Hc;
    lia.
Qed.

Lemma sorted_nodup_lt (s : list Z) :
  StronglySorted Z.le s -> NoDup s -> StronglySorted Z.lt s.
Proof.
  induction 1 as [|x s Hs IH Hx]; intros Hn; [constructor|].
  inversion Hn as [|y ys Hnin Hn']; subst.
  apply SSorted_cons; [exact (IH Hn')|].
  apply Forall_forall. intros z Hz.
  rewrite Forall_forall in Hx. specialize (Hx z Hz).
  assert (z <> x) by (intros ->; contradiction). lia.
Qed.

(** Two strictly increasing lists with the same elements are one list. *)
Lemma increasing_unique (a : list Z) :
  forall b,
    StronglySorted Z.lt a -> StronglySorted Z.lt b ->
    (forall x, In x a <-> In x b) -> a = b.
Proof.
  induction a as [|x a IH]; intros b Ha Hb Hab.
  - destruct b as [|y b]; [reflexivity|].
    exfalso. apply (proj2 (Hab y)). left. reflexivity.
  - destruct b as [|y b].
    { exfalso. apply (proj1 (Hab x)). left. reflexivity. }
    inversion Ha as [|x' a' Ha' Hxa]; subst.
    inversion Hb as [|y' b' Hb' Hyb]; subst.
    rewrite Forall_forall in Hxa, Hyb.
    assert (Hxy : x = y).
    { destruct (proj1 (Hab x) (or_introl eq_refl)) as [E|Hx];
        [symmetry; exact E|].
      destruct (proj2 (Hab y) (or_introl eq_refl)) as [E|Hy]; [exact E|].
      specialize (Hxa y Hy). specialize (Hyb x Hx). lia. }
    subst y. f_equal. apply IH; try assumption.
    intros z. split; intros Hz.
    + destruct (proj1 (Hab z) (or_intror Hz)) as [E|H]; [|exact H].
      specialize (Hxa z Hz). lia.
    + destruct (proj2 (Hab z) (or_intror Hz)) as [E|H]; [|exact H].
      specialize (Hyb z Hz). lia.
Qed.

(** ** The expected numbers *)

Lemma range_increasing (n : nat) :
  forall a, StronglySorted Z.lt (map Z.of_nat (seq a n)).
Proof.
  induction n as [|n IH]; intros a; [constructor|].
  cbn [seq map]. apply SSorted_cons; [apply IH|].
  apply Forall_forall. intros z Hz.
  apply in_map_iff in Hz. destruct Hz as (k & <- & Hk).
  apply in_seq in Hk. lia.
Qed.

Lemma in_expected (x : Z) : In x expected <-> (1 <= x <= 124)%Z.
Proof.
  unfold expected. rewrite in_map_iff. split.
  - intros (k & <- & Hk). apply in_seq in Hk. lia.
  - intros Hx. exists (Z.to_nat x). split; [lia|]. apply in_seq. lia.
Qed.

Lemma missing_empty_iff (sections : list section) :
  missing sections = []
  <-> forall n, (1 <= n <= 124)%Z -> In n (map letter_number sections).
Proof.
  unfold missing, found_nums. split.
  - intros H n Hn.
    destruct (existsb (Z.eqb n) (sorted (map letter_number sections)))
      eqn:E.
    + apply existsb_exists in E. destruct E as (m & Hm & Enm).
      apply Z.eqb_eq in Enm. subst m. apply in_sorted. exact Hm.
    + exfalso.
      assert (Hin : In n (filter
                            (fun n => negb (existsb (Z.eqb n)
                               (sorted (map letter_number sections))))
                            expected)).
      { apply filter_In. split; [apply in_expected; exact Hn|].
        rewrite E. reflexivity. }
      rewrite H in Hin. destruct Hin.
  - intros H.
    destruct (filter _ expected) as [|n rest] eqn:E; [reflexivity|].
    exfalso.
    assert (Hin : In n (filter
                          (fun n => negb (existsb (Z.eqb n)
                             (sorted (map letter_number sections))))
                          expected))
      by (rewrite E; left; reflexivity).
    apply filter_In in Hin. destruct Hin as [Hexp Hneg].
    apply negb_true_iff in Hneg.
    assert (Hex : existsb (Z.eqb n) (sorted (map letter_number sections))
                  = true).
    { apply existsb_exists. exists n. split; [|apply Z.eqb_refl].
      apply in_sorted. apply H. apply in_expected. exact Hexp. }
    rewrite Hex in Hneg. discriminate.
Qed.

(** X22. The letter check of [validate] has nothing to report, that is,
    no letter from 1 to 124 is missing and none is duplicated, with every
    letter number inside 1..124, exactly when the sorted letter numbers of
    the sections are the list 1, 2, ..., 124. *)
Theorem validate_is_silent_iff_all_letters (sections : list section) :
  (missing sections = [] /\ duplicate sections = []
   /\ Forall (fun n => (1 <= n <= 124)%Z) (map letter_number sections))
  <-> found_nums sections = expected.
Proof.
  split.
  - intros (Hm & Hd & Hr). unfold found_nums.
    apply increasing_unique.
    + apply sorted_nodup_lt; [apply sorted_sorted|].
      apply (proj1 (nodup_sorted (map letter_number sections))).
      apply (proj1 (LetterNumbers.duplicate_empty_iff sections)). exact Hd.
    + apply range_increasing.
    + intros x. rewrite in_sorted, in_expected. split.
      * rewrite Forall_forall in Hr. apply Hr.
      * apply (proj1 (missing_empty_iff sections) Hm).
  - intros H. unfold found_nums in H.
    assert (Hin : forall x, In x (map letter_number sections)
                            <-> (1 <= x <= 124)%Z).
    { intros x. rewrite <- in_sorted, H. apply in_expected. }
    split; [|split].
    + apply missing_empty_iff. intros n Hn. apply Hin. exact Hn.
    + apply (proj2 (LetterNumbers.duplicate_empty_iff sections)).
      apply (proj2 (nodup_sorted (map letter_number sections))).
      rewrite H. apply ManualOrder.sorted_lt_nodup. apply range_increasing.
    + apply Forall_forall. intros x Hx. apply Hin. exact Hx.
Qed.

End ValidateLetters.
